(** * invision-backend: fulfillment tracking, status derivation, document numbers

    A shallow embedding of the order-management routers
    ([app/routers/sales_orders.py], [app/routers/invoices.py],
    [app/routers/shipments.py]) and of the ORM models they use
    ([app/models/*.py]).

    Conventions of the embedding:
    - a table is the list of its rows, in insertion order;
    - a Python [int] is a [Z]; an [Integer] column holds a [Z], and a value
      bound to an [Integer] parameter or column passes [Sql.bind_integer],
      which refuses what does not fit the 32 bits of the column, as the
      driver does; [Numeric(10,2)] is the integer number of hundredths,
      [Numeric(5,4)] the integer number of ten-thousandths;
    - Python [float] is IEEE binary64, Rocq's primitive [float]; conversions
      to [float] round once, to the nearest value, ties to even;
    - a [str] is the [string] of its code points, for strings whose code
      points are below 256; a [str] bound to a [String] or [Text] column
      passes [Sql.bind_text], which refuses the NUL character, as PostgreSQL
      does;
    - [int(s)] has the interpreter's default limit of 4300 digits; the same
      limit on the f-string that formats a sequence value, which only a value
      of 10^4300 or more would meet, is not modelled;
    - the value an autoincrement key gets is [Sql.next_id], one above the
      keys in use: only its being new is relied on;
    - an exception is a value of [Exception]; code that can raise lives in the
      [result] monad;
    - the session autoflushes before every query, so [db.add] followed by a
      query is modelled as an immediate insert into the working database;
      [async with db.begin()] commits the working database when its body
      returns and restores the database it started from when the body raises;
    - the handlers are functions of the database a request finds; requests
      that run at the same time are the subject of [Race], where a request
      is two moves, its call of the number generator and the flush and
      commit of its document;
    - limits of the database on the size of a row or of an index entry are
      not modelled. *)

From Stdlib Require Import ZArith List String Ascii Bool Lia OrderedTypeEx.
From Stdlib Require Import PrimFloat.
From Stdlib Require SpecFloat FloatOps.
Import ListNotations.

Local Open Scope string_scope.
Local Open Scope Z_scope.

(* ================================================================== *)
(** ** Python built-ins used by the routers *)

Module Py.

(** The exceptions the routers raise or catch. *)
Inductive Exception : Type :=
| HTTPException (status_code : Z) (detail : string)
| ValueError
| IndexError
| IntegrityError
| MultipleResultsFound
| DBAPIError.

Inductive result (A : Type) : Type :=
| Ok (a : A)
| Raise (e : Exception).
Arguments Ok {A} a.
Arguments Raise {A} e.

Definition bind {A B : Type} (m : result A) (k : A -> result B) : result B :=
  match m with
  | Ok a => k a
  | Raise e => Raise e
  end.

(** [try: body except (ValueError, IndexError): handler] *)
Definition try_except_value_index {A : Type} (body : result A) (handler : A) : result A :=
  match body with
  | Ok a => Ok a
  | Raise ValueError => Ok handler
  | Raise IndexError => Ok handler
  | Raise e => Raise e
  end.

Definition digit_char (d : Z) : ascii := ascii_of_nat (Z.to_nat (48 + d)).

Definition digit_val (c : ascii) : option Z :=
  let k := Z.of_nat (nat_of_ascii c) in
  if (48 <=? k) && (k <=? 57) then Some (k - 48) else None.

(** Decimal digits of a non-negative integer, most significant first. *)
Fixpoint digits_aux (fuel : nat) (n : Z) (acc : string) : string :=
  match fuel with
  | O => acc
  | S fuel' =>
      let acc' := String (digit_char (n mod 10)) acc in
      if n <? 10 then acc' else digits_aux fuel' (n / 10) acc'
  end.

Definition digits (n : Z) : string :=
  digits_aux (S (Z.to_nat (Z.log2 n))) n "".

(** [str(n)] for an [int]. *)
Definition str (n : Z) : string :=
  if n <? 0 then String "-" (digits (- n)) else digits n.

Fixpoint zeros (k : nat) : string :=
  match k with
  | O => ""
  | S k' => String "0" (zeros k')
  end.

(** [s.rjust(width, "0")] *)
Definition zfill (width : nat) (s : string) : string :=
  zeros (width - String.length s) ++ s.

(** [format(n, "03d")]: the sign, then the digits zero-padded so that the
    whole field has at least three characters. *)
Definition format_03d (n : Z) : string :=
  if n <? 0 then String "-" (zfill 2 (digits (- n))) else zfill 3 (digits n).

(** The characters [int()] strips from both ends of its argument: tab,
    line feed, vertical tab, form feed, carriage return and space, and of
    the code points from 128 to 255 the two that are white space, U+0085
    and U+00A0. The separators U+001C to U+001F are not stripped. *)
Definition isspace (c : ascii) : bool :=
  let k := Z.of_nat (nat_of_ascii c) in
  ((9 <=? k) && (k <=? 13)) || (k =? 32) || (k =? 133) || (k =? 160).

Fixpoint lstrip (s : string) : string :=
  match s with
  | String c r => if isspace c then lstrip r else s
  | EmptyString => EmptyString
  end.

Fixpoint rstrip (s : string) : string :=
  match s with
  | String c r =>
      match rstrip r with
      | EmptyString => if isspace c then EmptyString else String c EmptyString
      | r' => String c r'
      end
  | EmptyString => EmptyString
  end.

Definition strip (s : string) : string := rstrip (lstrip s).

(** Decimal digits with single underscores allowed between digits. *)
Fixpoint int_digits (s : string) (acc : Z) (after_digit : bool) : option Z :=
  match s with
  | EmptyString => if after_digit then Some acc else None
  | String c r =>
      match digit_val c with
      | Some d => int_digits r (10 * acc + d) true
      | None =>
          if (c =? "_")%char && after_digit then int_digits r acc false else None
      end
  end.

(** The integer a numeral denotes: white space stripped, a sign, decimal
    digits; [None] for a string that is not a numeral. *)
Definition int_opt (s : string) : option Z :=
  match strip s with
  | String "+" r => int_digits r 0 false
  | String "-" r => option_map Z.opp (int_digits r 0 false)
  | t => int_digits t 0 false
  end.

(** The number of decimal digits in a string. *)
Fixpoint count_digits (s : string) : nat :=
  match s with
  | EmptyString => O
  | String c r =>
      match digit_val c with
      | Some _ => S (count_digits r)
      | None => count_digits r
      end
  end.

(** [sys.int_info.default_max_str_digits] *)
Definition int_max_str_digits : nat := 4300.

(** [int(s)]: [ValueError] for a string that is not a numeral and for one
    of more than 4300 digits. *)
Definition int (s : string) : result Z :=
  if (int_max_str_digits <? count_digits s)%nat then Raise ValueError
  else match int_opt s with
       | Some n => Ok n
       | None => Raise ValueError
       end.

(** [s.split(sep)] for a one-character separator. *)
Fixpoint split (sep : ascii) (s : string) : list string :=
  match s with
  | EmptyString => [EmptyString]
  | String c r =>
      if (c =? sep)%char then EmptyString :: split sep r
      else match split sep r with
           | seg :: segs => String c seg :: segs
           | [] => [String c EmptyString]
           end
  end.

(** [l[-1]] *)
Definition index_last {A : Type} (l : list A) : result A :=
  match rev l with
  | x :: _ => Ok x
  | [] => Raise IndexError
  end.

(** Truth value of a [str]. *)
Definition truthy (s : string) : bool :=
  match s with
  | EmptyString => false
  | _ => true
  end.

End Py.

Import Py.

Notation "x <- m ;; k" := (Py.bind m (fun x => k))
  (at level 61, m at next level, right associativity).

(* ================================================================== *)
(** ** ORM models ([app/models]) *)

(** Calendar dates are opaque to the routers; a date is its ordinal. *)
Definition date : Type := Z.

Inductive SOInvoiceStatus : Type :=
| not_invoiced
| invoice_partial
| invoiced.

Inductive PaymentStatus : Type :=
| payment_unpaid
| payment_partial
| payment_paid.

Inductive ShipmentStatus : Type :=
| not_shipped
| shipment_partial
| shipped.

Inductive InvoiceStatus : Type :=
| unpaid
| partial
| paid
| overdue
| cancelled.

(** [class SalesOrder]; the server-side timestamps are left out. *)
Module SalesOrder.
Record t : Type := mk {
  id : Z;
  order_number : string;
  quotation_id : option Z;
  customer_id : Z;
  sales_person_id : option Z;
  date_ : date;
  invoice_status : SOInvoiceStatus;
  payment_status : PaymentStatus;
  shipment_status : ShipmentStatus;
  notes : option string
}.

Definition set_invoice_status (st : SOInvoiceStatus) (o : t) : t :=
  mk (id o) (order_number o) (quotation_id o) (customer_id o) (sales_person_id o)
     (date_ o) st (payment_status o) (shipment_status o) (notes o).

Definition set_shipment_status (st : ShipmentStatus) (o : t) : t :=
  mk (id o) (order_number o) (quotation_id o) (customer_id o) (sales_person_id o)
     (date_ o) (invoice_status o) (payment_status o) st (notes o).
End SalesOrder.

(** [class SOItem]: [tax_rate] is [Numeric(5,4)] in ten-thousandths, [price]
    is [Numeric(10,2)] in hundredths. *)
Module SOItem.
Record t : Type := mk {
  id : Z;
  sales_order_id : Z;
  product_id : Z;
  quantity : Z;
  tax_rate : Z;
  price : Z
}.
End SOItem.

Module Shipment.
Record t : Type := mk {
  id : Z;
  sales_order_id : Z;
  carrier : string;
  date_delivered : option date;
  tracker : option string
}.
End Shipment.

Module ShipmentItem.
Record t : Type := mk {
  id : Z;
  shipment_id : Z;
  so_item_id : Z;
  quantity_shipped : Z
}.
End ShipmentItem.

Module Invoice.
Record t : Type := mk {
  id : Z;
  invoice_number : string;
  sales_order_id : option Z;
  customer_id : Z;
  date_ : date;
  due_date : date;
  status : InvoiceStatus;
  sales_person_id : option Z;
  notes : option string
}.
End Invoice.

Module InvoiceItem.
Record t : Type := mk {
  id : Z;
  invoice_id : Z;
  so_item_id : Z;
  quantity_invoiced : Z
}.
End InvoiceItem.

(** The tables the three routers read and write. *)
Record DB : Type := mkDB {
  sales_orders : list SalesOrder.t;
  so_items : list SOItem.t;
  shipments : list Shipment.t;
  shipment_items : list ShipmentItem.t;
  invoices : list Invoice.t;
  invoice_items : list InvoiceItem.t
}.

(* ================================================================== *)
(** ** Queries *)

Module Sql.

(** [result.scalar_one_or_none()] on the rows a query selects. *)
Definition scalar_one_or_none {A : Type} (rows : list A) : result (option A) :=
  match rows with
  | [] => Ok None
  | [x] => Ok (Some x)
  | _ => Raise MultipleResultsFound
  end.

(** [func.sum(...)]: [NULL] when no row is selected. *)
Definition sum (xs : list Z) : option Z :=
  match xs with
  | [] => None
  | _ => Some (fold_left Z.add xs 0)
  end.

(** [result.scalar() or 0] *)
Definition scalar_or_0 (v : option Z) : Z :=
  match v with
  | Some n => if n =? 0 then 0 else n
  | None => 0
  end.

(** [column.like(prefix + "%")] for a prefix without wildcards. *)
Definition like_prefix (p s : string) : bool := String.prefix p s.

(** [ORDER BY column DESC LIMIT 1] on strings, compared character by
    character by code. *)
Definition order_by_desc_limit_1 (rows : list string) : list string :=
  match rows with
  | [] => []
  | x :: rest =>
      [fold_left (fun best s => if String.ltb best s then s else best) rest x]
  end.

(** The next value of an autoincrement primary key: above every key in use. *)
Definition next_id (ids : list Z) : Z := 1 + fold_left Z.max ids 0.

(** The values of a 32-bit [Integer]. *)
Definition int32 (n : Z) : bool := (-2147483648 <=? n) && (n <=? 2147483647).

(** A Python [int] bound to an [Integer] parameter of a query or to an
    [Integer] column of a row: the driver refuses a value outside the 32
    bits. *)
Definition bind_integer (n : Z) : result Z :=
  if int32 n then Ok n else Raise DBAPIError.

(** The texts a [String] or [Text] column holds: those without the NUL
    character. *)
Definition no_nul (s : string) : bool :=
  negb (existsb (Ascii.eqb "000") (list_ascii_of_string s)).

(** A [str] bound to a [String] or [Text] column: the database refuses the
    NUL character. *)
Definition bind_text (s : string) : result string :=
  if no_nul s then Ok s else Raise DBAPIError.

Definition bind_optional_text (s : option string) : result (option string) :=
  match s with
  | Some t => t' <- bind_text t ;; Ok (Some t')
  | None => Ok None
  end.

End Sql.

(* ================================================================== *)
(** ** Sequence generator *)

(** The [if last: try ... except (ValueError, IndexError) ... else ...]
    block shared by [generate_order_number] and [generate_invoice_number]:
    the value of [new_num] given the row the query returned. *)
Definition new_num (last : option string) : result Z :=
  match last with
  | Some last_order =>
      if Py.truthy last_order then
        Py.try_except_value_index
          (seg <- Py.index_last (Py.split "-" last_order) ;;
           last_num <- Py.int seg ;;
           Ok (last_num + 1))
          1
      else Ok 1
  | None => Ok 1
  end.

(** The row the query of [generate_order_number] returns. *)
Definition last_order (current_year : Z) (db : DB) : result (option string) :=
  Sql.scalar_one_or_none
    (Sql.order_by_desc_limit_1
       (filter (Sql.like_prefix ("SO-" ++ Py.str current_year ++ "-"))
               (map SalesOrder.order_number (sales_orders db)))).

(** [generate_order_number], with [datetime.now().year] as an argument. *)
Definition generate_order_number (current_year : Z) (db : DB) : result string :=
  last <- last_order current_year db ;;
  n <- new_num last ;;
  Ok ("SO-" ++ Py.str current_year ++ "-" ++ Py.format_03d n)%string.

Definition last_invoice (current_year : Z) (db : DB) : result (option string) :=
  Sql.scalar_one_or_none
    (Sql.order_by_desc_limit_1
       (filter (Sql.like_prefix ("INV-" ++ Py.str current_year ++ "-"))
               (map Invoice.invoice_number (invoices db)))).

(** [generate_invoice_number] *)
Definition generate_invoice_number (current_year : Z) (db : DB) : result string :=
  last <- last_invoice current_year db ;;
  n <- new_num last ;;
  Ok ("INV-" ++ Py.str current_year ++ "-" ++ Py.format_03d n)%string.

(* ================================================================== *)
(** ** Queries shared by the fulfillment routers *)

(** [select(SalesOrderModel).where(SalesOrderModel.id == order_id)] *)
Definition select_sales_order (db : DB) (order_id : Z) : list SalesOrder.t :=
  filter (fun o => SalesOrder.id o =? order_id) (sales_orders db).

(** [select(SOItem).where(SOItem.id == item_id)] *)
Definition select_so_item (db : DB) (item_id : Z) : list SOItem.t :=
  filter (fun i => SOItem.id i =? item_id) (so_items db).

(** [sales_order.items], loaded by [selectinload(SalesOrderModel.items)]. *)
Definition items_of (db : DB) (sales_order : SalesOrder.t) : list SOItem.t :=
  filter (fun i => SOItem.sales_order_id i =? SalesOrder.id sales_order) (so_items db).

(** [select(func.sum(ShipmentItemModel.quantity_shipped))
      .where(ShipmentItemModel.so_item_id == item_id)] *)
Definition sum_quantity_shipped (db : DB) (item_id : Z) : option Z :=
  Sql.sum (map ShipmentItem.quantity_shipped
             (filter (fun e => ShipmentItem.so_item_id e =? item_id) (shipment_items db))).

(** [select(func.sum(InvoiceItemModel.quantity_invoiced))
      .where(InvoiceItemModel.so_item_id == item_id)] *)
Definition sum_quantity_invoiced (db : DB) (item_id : Z) : option Z :=
  Sql.sum (map InvoiceItem.quantity_invoiced
             (filter (fun e => InvoiceItem.so_item_id e =? item_id) (invoice_items db))).

(** The [UPDATE] a change of an attribute of [sales_order] flushes. *)
Definition update_sales_order (db : DB) (order_id : Z) (f : SalesOrder.t -> SalesOrder.t) : DB :=
  mkDB (map (fun o => if SalesOrder.id o =? order_id then f o else o) (sales_orders db))
       (so_items db) (shipments db) (shipment_items db) (invoices db) (invoice_items db).

(** What a router answers: the success payload, or the [HTTPException(400)]
    its [except Exception as e] clause builds around [e]. *)
Inductive Response (A : Type) : Type :=
| Success (payload : A)
| Failed (e : Exception).
Arguments Success {A} payload.
Arguments Failed {A} e.

(** [for x in xs: body], the body threading the working database and able
    to raise. *)
Fixpoint for_each {A : Type} (body : DB -> A -> result DB) (xs : list A) (db : DB) : result DB :=
  match xs with
  | [] => Ok db
  | x :: rest => db' <- body db x ;; for_each body rest db'
  end.

(* ================================================================== *)
(** ** [app/routers/shipments.py] *)

Module Shipments.

Record ShipmentItemCreate : Type := mkItem {
  soItemId : Z;
  quantity : Z
}.

Record CreateShipmentRequest : Type := mkRequest {
  salesOrderId : Z;
  date_ : string;
  carrier : string;
  tracker : option string;
  items : list ShipmentItemCreate
}.

Definition add_shipment (db : DB) (s : Shipment.t) : DB :=
  mkDB (sales_orders db) (so_items db) (shipments db ++ [s]) (shipment_items db)
       (invoices db) (invoice_items db).

Definition add_shipment_item (db : DB) (e : ShipmentItem.t) : DB :=
  mkDB (sales_orders db) (so_items db) (shipments db) (shipment_items db ++ [e])
       (invoices db) (invoice_items db).

(** The [ShipmentItemModel] one turn of the loop builds (lines 94-98); the
    insert gives it its [id]. *)
Definition new_shipment_item (shipment : Shipment.t) (db : DB) (item_data : ShipmentItemCreate)
    : ShipmentItem.t :=
  ShipmentItem.mk (Sql.next_id (map ShipmentItem.id (shipment_items db)))
                  (Shipment.id shipment) (soItemId item_data) (quantity item_data).

(** Lines 77-99: the body of [for item_data in request.items], leaving the
    working database. The two queries bind [item_data.soItemId]; the row
    that [db.add] queues is inserted, and its [quantity_shipped] bound,
    before anything else is done with the database. *)
Definition allocate (sales_order : SalesOrder.t) (shipment : Shipment.t)
    (db : DB) (item_data : ShipmentItemCreate) : result DB :=
  item_id <- Sql.bind_integer (soItemId item_data) ;;
  so_item <- Sql.scalar_one_or_none (select_so_item db item_id) ;;
  match so_item with
  | None =>
      Raise (HTTPException 400 ("Invalid SO item ID: " ++ Py.str (soItemId item_data)))
  | Some so_item =>
      if negb (SOItem.sales_order_id so_item =? SalesOrder.id sales_order) then
        Raise (HTTPException 400 ("Invalid SO item ID: " ++ Py.str (soItemId item_data)))
      else
        let shipped_qty := Sql.scalar_or_0 (sum_quantity_shipped db item_id) in
        if shipped_qty + quantity item_data >? SOItem.quantity so_item then
          Raise (HTTPException 400
                   ("Quantity exceeds remaining for item " ++ Py.str (soItemId item_data)))
        else
          quantity_shipped <- Sql.bind_integer (quantity item_data) ;;
          Ok (add_shipment_item db (new_shipment_item shipment db item_data))
  end.

(** The quantities a list of items asks for on one line. *)
Definition quantities_on (line : Z) (items : list ShipmentItemCreate) : list Z :=
  map quantity (filter (fun i => soItemId i =? line) items).

(** Lines 101-112: the loop over [sales_order.items]. *)
Fixpoint status_loop (db : DB) (items : list SOItem.t) (fully_shipped has_partial : bool)
    : bool * bool :=
  match items with
  | [] => (fully_shipped, has_partial)
  | so_item :: rest =>
      let total_shipped := Sql.scalar_or_0 (sum_quantity_shipped db (SOItem.id so_item)) in
      let fully_shipped := if total_shipped <? SOItem.quantity so_item then false else fully_shipped in
      let has_partial := if total_shipped >? 0 then true else has_partial in
      status_loop db rest fully_shipped has_partial
  end.

(** Lines 101-119: the status the order gets. *)
Definition derive_status (db : DB) (items : list SOItem.t) : ShipmentStatus :=
  let '(fully_shipped, has_partial) := status_loop db items true false in
  if fully_shipped then shipped
  else if has_partial then shipment_partial
  else not_shipped.

Section Handler.

(** [datetime.fromisoformat(s).date()], which raises [ValueError]. *)
Variable fromisoformat_date : string -> result date.

(** Lines 68-75: the [ShipmentModel] the handler builds and flushes; the
    flush binds [carrier] and [tracker] and gives the row its [id]. *)
Definition new_shipment (request : CreateShipmentRequest) (db : DB) : result Shipment.t :=
  date_delivered <-
    (if Py.truthy (date_ request)
     then d <- fromisoformat_date (date_ request) ;; Ok (Some d)
     else Ok None) ;;
  carrier <- Sql.bind_text (carrier request) ;;
  tracker <- Sql.bind_optional_text (tracker request) ;;
  Ok (Shipment.mk (Sql.next_id (map Shipment.id (shipments db)))
                  (salesOrderId request) carrier date_delivered tracker).

(** The body of [async with db.begin()] in [create_shipment]. The query for
    the order binds [request.salesOrderId]. *)
Definition create_shipment_body (request : CreateShipmentRequest) (db : DB) : result DB :=
  order_id <- Sql.bind_integer (salesOrderId request) ;;
  sales_order <- Sql.scalar_one_or_none (select_sales_order db order_id) ;;
  match sales_order with
  | None => Raise (HTTPException 404 "Sales order not found")
  | Some sales_order =>
      let sales_order_items := items_of db sales_order in
      shipment <- new_shipment request db ;;
      let db := add_shipment db shipment in
      db <- for_each (allocate sales_order shipment) (items request) db ;;
      let st := derive_status db sales_order_items in
      Ok (update_sales_order db (SalesOrder.id sales_order) (SalesOrder.set_shipment_status st))
  end.

(** [create_shipment]: the transaction commits what the body built, or
    rolls back to the database the request found. *)
Definition create_shipment (request : CreateShipmentRequest) (db : DB) : DB * Response string :=
  match create_shipment_body request db with
  | Ok db' => (db', Success "Shipment created successfully")
  | Raise e => (db, Failed e)
  end.

End Handler.

End Shipments.

(* ================================================================== *)
(** ** [app/routers/invoices.py] *)

Module Invoices.

Record InvoiceItemCreate : Type := mkItem {
  soItemId : Z;
  quantity : Z
}.

Record CreateInvoiceRequest : Type := mkRequest {
  salesOrderId : Z;
  date_ : string;
  dueDate : string;
  notes : option string;
  items : list InvoiceItemCreate
}.

(** [db.add(invoice); await db.flush()]: [invoice_number] is [unique]. *)
Definition flush_invoice (db : DB) (inv : Invoice.t) : result DB :=
  notes <- Sql.bind_optional_text (Invoice.notes inv) ;;
  if existsb (String.eqb (Invoice.invoice_number inv)) (map Invoice.invoice_number (invoices db))
  then Raise IntegrityError
  else Ok (mkDB (sales_orders db) (so_items db) (shipments db) (shipment_items db)
                (invoices db ++ [inv]) (invoice_items db)).

Definition add_invoice_item (db : DB) (e : InvoiceItem.t) : DB :=
  mkDB (sales_orders db) (so_items db) (shipments db) (shipment_items db)
       (invoices db) (invoice_items db ++ [e]).

(** The [InvoiceItemModel] one turn of the loop builds (lines 193-197); the
    insert gives it its [id]. *)
Definition new_invoice_item (invoice : Invoice.t) (db : DB) (item_data : InvoiceItemCreate)
    : InvoiceItem.t :=
  InvoiceItem.mk (Sql.next_id (map InvoiceItem.id (invoice_items db)))
                 (Invoice.id invoice) (soItemId item_data) (quantity item_data).

(** Lines 176-198: the body of [for item_data in request.items], leaving the
    working database. The two queries bind [item_data.soItemId]; the row
    that [db.add] queues is inserted, and its [quantity_invoiced] bound,
    before anything else is done with the database. *)
Definition allocate (sales_order : SalesOrder.t) (invoice : Invoice.t)
    (db : DB) (item_data : InvoiceItemCreate) : result DB :=
  item_id <- Sql.bind_integer (soItemId item_data) ;;
  so_item <- Sql.scalar_one_or_none (select_so_item db item_id) ;;
  match so_item with
  | None =>
      Raise (HTTPException 400 ("Invalid SO item ID: " ++ Py.str (soItemId item_data)))
  | Some so_item =>
      if negb (SOItem.sales_order_id so_item =? SalesOrder.id sales_order) then
        Raise (HTTPException 400 ("Invalid SO item ID: " ++ Py.str (soItemId item_data)))
      else
        let invoiced_qty := Sql.scalar_or_0 (sum_quantity_invoiced db item_id) in
        if invoiced_qty + quantity item_data >? SOItem.quantity so_item then
          Raise (HTTPException 400
                   ("Quantity exceeds remaining for item " ++ Py.str (soItemId item_data)))
        else
          quantity_invoiced <- Sql.bind_integer (quantity item_data) ;;
          Ok (add_invoice_item db (new_invoice_item invoice db item_data))
  end.

(** The quantities a list of items asks for on one line. *)
Definition quantities_on (line : Z) (items : list InvoiceItemCreate) : list Z :=
  map quantity (filter (fun i => soItemId i =? line) items).

(** Lines 200-211: the loop over [sales_order.items]. *)
Fixpoint status_loop (db : DB) (items : list SOItem.t) (fully_invoiced has_partial : bool)
    : bool * bool :=
  match items with
  | [] => (fully_invoiced, has_partial)
  | so_item :: rest =>
      let total_invoiced := Sql.scalar_or_0 (sum_quantity_invoiced db (SOItem.id so_item)) in
      let fully_invoiced := if total_invoiced <? SOItem.quantity so_item then false else fully_invoiced in
      let has_partial := if total_invoiced >? 0 then true else has_partial in
      status_loop db rest fully_invoiced has_partial
  end.

(** Lines 200-218: the status the order gets. *)
Definition derive_status (db : DB) (items : list SOItem.t) : SOInvoiceStatus :=
  let '(fully_invoiced, has_partial) := status_loop db items true false in
  if fully_invoiced then invoiced
  else if has_partial then invoice_partial
  else not_invoiced.

Section Handler.

(** [datetime.fromisoformat(s).date()], which raises [ValueError]. *)
Variable fromisoformat_date : string -> result date.

(** [datetime.now().year] *)
Variable current_year : Z.

(** Lines 161-172: the [InvoiceModel] the handler builds; the flush gives it
    its [id]. *)
Definition new_invoice (request : CreateInvoiceRequest) (sales_order : SalesOrder.t) (db : DB)
    : result Invoice.t :=
  invoice_number <- generate_invoice_number current_year db ;;
  d <- fromisoformat_date (date_ request) ;;
  due <- fromisoformat_date (dueDate request) ;;
  Ok (Invoice.mk (Sql.next_id (map Invoice.id (invoices db))) invoice_number
                 (Some (salesOrderId request)) (SalesOrder.customer_id sales_order)
                 d due unpaid (SalesOrder.sales_person_id sales_order) (notes request)).

(** The body of [async with db.begin()] in [create_invoice]; it yields the
    committed database and the number of the invoice. The query for the
    order binds [request.salesOrderId]. *)
Definition create_invoice_body (request : CreateInvoiceRequest) (db : DB) : result (DB * string) :=
  order_id <- Sql.bind_integer (salesOrderId request) ;;
  sales_order <- Sql.scalar_one_or_none (select_sales_order db order_id) ;;
  match sales_order with
  | None => Raise (HTTPException 404 "Sales order not found")
  | Some sales_order =>
      let sales_order_items := items_of db sales_order in
      invoice <- new_invoice request sales_order db ;;
      db <- flush_invoice db invoice ;;
      db <- for_each (allocate sales_order invoice) (items request) db ;;
      let st := derive_status db sales_order_items in
      Ok (update_sales_order db (SalesOrder.id sales_order) (SalesOrder.set_invoice_status st),
          Invoice.invoice_number invoice)
  end.

(** [create_invoice], up to the rendering of the committed invoice: the
    transaction commits what the body built, or rolls back to the database
    the request found. *)
Definition create_invoice (request : CreateInvoiceRequest) (db : DB) : DB * Response string :=
  match create_invoice_body request db with
  | Ok (db', invoice_number) => (db', Success invoice_number)
  | Raise e => (db, Failed e)
  end.

End Handler.

End Invoices.

(* ================================================================== *)
(** ** Order totals ([app/routers/sales_orders.py]) *)

Module Float64.

Local Open Scope float_scope.



(** [sum] as the routers write it: [acc = 0.0; for x in xs: acc += x]. *)
Definition sum (xs : list float) : float := fold_left PrimFloat.add xs 0.

End Float64.

Module SalesOrders.

Local Open Scope float_scope.

(** [class CreateSOItemRequest] ([app/schemas/schemas.py]) *)
Record CreateSOItemRequest : Type := mkItem {
  product_id : Z;
  quantity : Z;
  price : float;
  tax_rate : float
}.

Section Totals.

Variable item : Type.

(** [float(item.quantity * item.price)] and [float(item.tax_rate)] *)
Variable item_total_of : item -> float.
Variable tax_rate_of : item -> float.



End Totals.







End SalesOrders.

(* ================================================================== *)
(** ** Vocabulary of the specification *)

(** Whether every character of a string is a decimal digit. *)
Fixpoint all_digits (s : string) : bool :=
  match s with
  | EmptyString => true
  | String c r => match Py.digit_val c with Some _ => all_digits r | None => false end
  end.

(** The two fulfillment tracks. *)
Inductive Track : Type :=
| shipment_track
| invoice_track.

Definition total (xs : list Z) : Z := fold_right Z.add 0 xs.

(** The quantities of the events recorded for an order line on a track,
    oldest first. *)
Definition recorded (tr : Track) (db : DB) (line : Z) : list Z :=
  match tr with
  | shipment_track =>
      map ShipmentItem.quantity_shipped
          (filter (fun e => ShipmentItem.so_item_id e =? line) (shipment_items db))
  | invoice_track =>
      map InvoiceItem.quantity_invoiced
          (filter (fun e => InvoiceItem.so_item_id e =? line) (invoice_items db))
  end.

(** [alreadyConsumed]: the sum of [quantityConsumed] over the events
    recorded for an order line on a track. *)
Definition consumed (tr : Track) (db : DB) (line : Z) : Z := total (recorded tr db line).

(** The tables two databases agree on, events aside. *)
Definition same_documents_but_events (db db' : DB) : Prop :=
  sales_orders db' = sales_orders db /\ so_items db' = so_items db /\
  shipments db' = shipments db /\ invoices db' = invoices db.

(** What an accepted request changes in the ledger: the lines stay, the
    events recorded grow by the quantities the request asks for, and a line
    within capacity stays within capacity. *)
Definition ledger_effect (quantities : Track -> Z -> list Z) (db db' : DB) : Prop :=
  so_items db' = so_items db /\
  (forall tr line, recorded tr db' line = (recorded tr db line ++ quantities tr line)%list) /\
  (forall tr l, In l (so_items db) ->
                consumed tr db (SOItem.id l) <= SOItem.quantity l ->
                consumed tr db' (SOItem.id l) <= SOItem.quantity l).

(** The error the specification calls [CapacityExceeded]. *)
Definition CapacityExceeded (line : Z) : Exception :=
  HTTPException 400 ("Quantity exceeds remaining for item " ++ Py.str line).

(** The capacity invariant of the data model on the lines of one order. *)
Definition within_capacity (tr : Track) (db : DB) (lines : list SOItem.t) : Prop :=
  forall l, In l lines -> consumed tr db (SOItem.id l) <= SOItem.quantity l.

Inductive AggregateStatus : Type :=
| agg_none
| agg_partial
| agg_complete.

(** [deriveStatus] in the words of the specification (4.3): complete when
    every line is consumed exactly, else partial when some line is consumed
    at all, else none; an order without lines is none. *)
Definition deriveStatus_spec (lines : list SOItem.t) (consumed_of : Z -> Z) : AggregateStatus :=
  match lines with
  | [] => agg_none
  | _ =>
      if forallb (fun l => consumed_of (SOItem.id l) =? SOItem.quantity l) lines then agg_complete
      else if existsb (fun l => consumed_of (SOItem.id l) >? 0) lines then agg_partial
      else agg_none
  end.

Definition to_shipment_status (s : AggregateStatus) : ShipmentStatus :=
  match s with
  | agg_none => not_shipped
  | agg_partial => shipment_partial
  | agg_complete => shipped
  end.

Definition to_invoice_status (s : AggregateStatus) : SOInvoiceStatus :=
  match s with
  | agg_none => not_invoiced
  | agg_partial => invoice_partial
  | agg_complete => invoiced
  end.

(** A fulfillment request on either track. *)
Inductive Call : Type :=
| Ship (request : Shipments.CreateShipmentRequest)
| Bill (request : Invoices.CreateInvoiceRequest).

(** The quantities a request asks for on one line of one track. *)
Definition quantities_on (tr : Track) (line : Z) (c : Call) : list Z :=
  match tr, c with
  | shipment_track, Ship r => Shipments.quantities_on line (Shipments.items r)
  | invoice_track, Bill r => Invoices.quantities_on line (Invoices.items r)
  | _, _ => []
  end.

Definition is_success {A : Type} (r : Response A) : bool :=
  match r with
  | Success _ => true
  | Failed _ => false
  end.

Section History.

Variable fromisoformat_date : string -> result date.
Variable current_year : Z.

(** One request served: the database it leaves and whether it was accepted. *)
Definition perform (c : Call) (db : DB) : DB * bool :=
  match c with
  | Ship r =>
      let '(db', resp) := Shipments.create_shipment fromisoformat_date r db in
      (db', is_success resp)
  | Bill r =>
      let '(db', resp) := Invoices.create_invoice fromisoformat_date current_year r db in
      (db', is_success resp)
  end.

(** Requests served one after the other: the final database and the
    accepted requests, in order. *)
Fixpoint run (calls : list Call) (db : DB) : DB * list Call :=
  match calls with
  | [] => (db, [])
  | c :: rest =>
      let '(db', accepted) := perform c db in
      let '(db'', cs) := run rest db' in
      (db'', if accepted then c :: cs else cs)
  end.

End History.

(** Sample data: an order numbered [number] and the database holding the
    orders numbered [numbers]. *)
Definition sample_order (id : Z) (number : string) : SalesOrder.t :=
  SalesOrder.mk id number None 1 None 0 not_invoiced payment_unpaid not_shipped None.

Definition orders_numbered (numbers : list string) : DB :=
  mkDB (map (sample_order 1) numbers) [] [] [] [] [].

Definition sample_invoice (number : string) : Invoice.t :=
  Invoice.mk 1 number None 1 0 0 unpaid None None.

Definition invoices_numbered (numbers : list string) : DB :=
  mkDB [] [] [] [] (map sample_invoice numbers) [].

(** The numbers [PREFIX-year-001] ... [PREFIX-year-n], in order of issue. *)
Definition issued (prefix : string) (year : Z) (n : nat) : list string :=
  map (fun k => prefix ++ "-" ++ Py.str year ++ "-" ++ Py.format_03d (Z.of_nat k))%string
      (seq 1 n).

(** The sequence numbers stored for a prefix and a year: the integers the
    final segments of the matching numbers denote. *)
Definition stored_sequence_numbers (prefix : string) (year : Z) (numbers : list string) : list Z :=
  flat_map (fun s => match Py.index_last (Py.split "-" s) with
                     | Ok seg => match Py.int_opt seg with Some n => [n] | None => [] end
                     | Raise _ => []
                     end)
           (filter (Sql.like_prefix (prefix ++ "-" ++ Py.str year ++ "-")) numbers).


Definition sample_db : DB :=
  mkDB [sample_order 1 "SO-2025-001"; sample_order 2 "SO-2025-002"]
       [SOItem.mk 1 1 7 10 1000 1000; SOItem.mk 2 1 8 5 0 500] [] [] [] [].

Definition sample_iso (s : string) : result date := Ok 0.

(** The sample database after the invoices [numbers] have been issued. *)
Definition sample_db_invoiced (numbers : list string) : DB :=
  mkDB (sales_orders sample_db) (so_items sample_db) [] []
       (map sample_invoice numbers) [].

(* ================================================================== *)
(** ** Vocabulary for the properties of the generators *)

(** Whether a character occurs in a string. *)
Fixpoint occurs (c : ascii) (s : string) : bool :=
  match s with
  | EmptyString => false
  | String d r => (d =? c)%char || occurs c r
  end.

(** The number a string of decimal digits denotes, most significant digit
    first. *)
Fixpoint digits_value (s : string) : Z :=
  match s with
  | EmptyString => 0
  | String c r =>
      match Py.digit_val c with
      | Some d => d * 10 ^ Z.of_nat (String.length r) + digits_value r
      | None => digits_value r
      end
  end.

(* ================================================================== *)
(** ** Read endpoints of the fulfillment routers *)

(** [class ShippedQuantityResponse] ([app/routers/shipments.py]) *)
Module ShippedQuantityResponse.
Record t : Type := mk {
  soItemId : string;
  quantity : Z
}.
End ShippedQuantityResponse.

(** [class InvoicedQuantityResponse] ([app/routers/invoices.py]) *)
Module InvoicedQuantityResponse.
Record t : Type := mk {
  soItemId : string;
  quantity : Z
}.
End InvoicedQuantityResponse.

(** [shipments.py], lines 41-48: [for item in sales_order.items:
    response.append(...)]. *)
Fixpoint shipped_quantities_loop (db : DB) (items : list SOItem.t)
    (response : list ShippedQuantityResponse.t) : list ShippedQuantityResponse.t :=
  match items with
  | [] => response
  | item :: rest =>
      let shipped_qty := Sql.scalar_or_0 (sum_quantity_shipped db (SOItem.id item)) in
      shipped_quantities_loop db rest
        (response ++ [ShippedQuantityResponse.mk (Py.str (SOItem.id item)) shipped_qty])
  end.

(** [get_shipped_quantities]; it has no [try], so what it raises reaches
    the caller as it is. The query for the order binds [order_id]. *)
Definition get_shipped_quantities (order_id : Z) (db : DB)
    : result (list ShippedQuantityResponse.t) :=
  order_id <- Sql.bind_integer order_id ;;
  sales_order <- Sql.scalar_one_or_none (select_sales_order db order_id) ;;
  match sales_order with
  | None => Raise (HTTPException 404 "Sales order not found")
  | Some sales_order => Ok (shipped_quantities_loop db (items_of db sales_order) [])
  end.

(** [invoices.py], lines 134-141. *)
Fixpoint invoiced_quantities_loop (db : DB) (items : list SOItem.t)
    (response : list InvoicedQuantityResponse.t) : list InvoicedQuantityResponse.t :=
  match items with
  | [] => response
  | item :: rest =>
      let invoiced_qty := Sql.scalar_or_0 (sum_quantity_invoiced db (SOItem.id item)) in
      invoiced_quantities_loop db rest
        (response ++ [InvoicedQuantityResponse.mk (Py.str (SOItem.id item)) invoiced_qty])
  end.

(** [get_invoiced_quantities] *)
Definition get_invoiced_quantities (order_id : Z) (db : DB)
    : result (list InvoicedQuantityResponse.t) :=
  order_id <- Sql.bind_integer order_id ;;
  sales_order <- Sql.scalar_one_or_none (select_sales_order db order_id) ;;
  match sales_order with
  | None => Raise (HTTPException 404 "Sales order not found")
  | Some sales_order => Ok (invoiced_quantities_loop db (items_of db sales_order) [])
  end.

(** [order.shipments] and [shipment.shipment_items], as
    [list_sales_orders] loads them. *)
Definition shipments_of (db : DB) (order : SalesOrder.t) : list Shipment.t :=
  filter (fun s => Shipment.sales_order_id s =? SalesOrder.id order) (shipments db).

Definition shipment_items_of (db : DB) (shipment : Shipment.t) : list ShipmentItem.t :=
  filter (fun e => ShipmentItem.shipment_id e =? Shipment.id shipment) (shipment_items db).

(** [sales_orders.py], lines 194-198: the [shipped_quantity] that
    [list_sales_orders] shows for a line, by the two nested loops. *)
Definition shipped_quantity (db : DB) (order : SalesOrder.t) (item : SOItem.t) : Z :=
  fold_left
    (fun shipped_quantity shipment =>
       fold_left
         (fun shipped_quantity shipment_item =>
            if ShipmentItem.so_item_id shipment_item =? SOItem.id item
            then shipped_quantity + ShipmentItem.quantity_shipped shipment_item
            else shipped_quantity)
         (shipment_items_of db shipment) shipped_quantity)
    (shipments_of db order) 0.

(** Every shipment has its own key, and every shipment item hangs on a
    shipment of the order its line belongs to. *)
Definition shipments_consistent (db : DB) : Prop :=
  NoDup (map Shipment.id (shipments db)) /\
  forall e, In e (shipment_items db) ->
    exists s,
      In s (shipments db) /\
      Shipment.id s = ShipmentItem.shipment_id e /\
      forall line, In line (so_items db) ->
                   SOItem.id line = ShipmentItem.so_item_id e ->
                   SOItem.sales_order_id line = Shipment.sales_order_id s.

(** The stored statuses of every order are the ones the handlers would
    derive for it from the events now recorded. *)
Definition statuses_derived (db : DB) : Prop :=
  forall o, In o (sales_orders db) ->
    SalesOrder.shipment_status o = Shipments.derive_status db (items_of db o) /\
    SalesOrder.invoice_status o = Invoices.derive_status db (items_of db o).

(** [db'] holds everything [db] holds: the same lines, the same orders up to
    their statuses, and the documents and events of [db] followed by new
    ones. *)
Definition grows_from (db db' : DB) : Prop :=
  so_items db' = so_items db /\
  map (fun o => (SalesOrder.id o, SalesOrder.order_number o, SalesOrder.customer_id o,
                 SalesOrder.payment_status o)) (sales_orders db')
  = map (fun o => (SalesOrder.id o, SalesOrder.order_number o, SalesOrder.customer_id o,
                   SalesOrder.payment_status o)) (sales_orders db) /\
  (exists l, shipments db' = (shipments db ++ l)%list) /\
  (exists l, shipment_items db' = (shipment_items db ++ l)%list) /\
  (exists l, invoices db' = (invoices db ++ l)%list) /\
  (exists l, invoice_items db' = (invoice_items db ++ l)%list).

(** What a request asks for, item by item: the key of the line and the
    quantity. *)
Definition asked (c : Call) : list (Z * Z) :=
  match c with
  | Ship r => map (fun i => (Shipments.soItemId i, Shipments.quantity i)) (Shipments.items r)
  | Bill r => map (fun i => (Invoices.soItemId i, Invoices.quantity i)) (Invoices.items r)
  end.

(** The items fit one after the other: each names, by a key that fits the
    column, exactly one of the [lines], a line of the order, and asks for a
    quantity that fits the column and is no more than the line holds beyond
    what is [taken] from it already, the earlier items counted. *)
Fixpoint fits (lines : list SOItem.t) (order_id : Z) (taken : Z -> Z) (items : list (Z * Z))
    : Prop :=
  match items with
  | [] => True
  | (line, q) :: rest =>
      (Sql.int32 line = true /\ Sql.int32 q = true /\
       exists l, filter (fun i => SOItem.id i =? line) lines = [l] /\
                 SOItem.sales_order_id l = order_id /\
                 taken line + q <= SOItem.quantity l) /\
      fits lines order_id (fun x => if x =? line then taken x + q else taken x) rest
  end.

(* ================================================================== *)
(** ** [create_sales_order] ([app/routers/sales_orders.py]) *)

Module CreateSalesOrder.

(** [class CreateSalesOrderRequest] ([app/schemas/schemas.py]) *)
Record CreateSalesOrderRequest : Type := mkRequest {
  customer_id : Z;
  sales_person_id : Z;
  date_ : string;
  invoice_status : SOInvoiceStatus;
  payment_status : PaymentStatus;
  shipment_status : ShipmentStatus;
  notes : string;
  items : list SalesOrders.CreateSOItemRequest
}.

Section Handler.

(** [datetime.fromisoformat(s).date()], which raises [ValueError]. *)
Variable fromisoformat_date : string -> result date.

(** [datetime.now().year] *)
Variable current_year : Z.

(** The keys of the rows of [customers], [sales_persons] and [products]:
    tables the handler refers to and never writes. *)
Variable customers : list Z.
Variable sales_persons : list Z.
Variable products : list Z.

(** What the database stores for a [float] bound to a [Numeric(10, 2)] and
    to a [Numeric(5, 4)] column, in hundredths and in ten-thousandths, or
    what it raises. *)
Variable numeric_10_2 : float -> result Z.
Variable numeric_5_4 : float -> result Z.

(** Lines 60-69: the [SalesOrderModel] the handler builds; the flush gives
    it its [id]. *)
Definition new_sales_order (request : CreateSalesOrderRequest) (db : DB) : result SalesOrder.t :=
  order_number <- generate_order_number current_year db ;;
  d <- fromisoformat_date (date_ request) ;;
  Ok (SalesOrder.mk (Sql.next_id (map SalesOrder.id (sales_orders db))) order_number None
                    (customer_id request) (Some (sales_person_id request)) d
                    (invoice_status request) (payment_status request)
                    (shipment_status request) (Some (notes request))).

(** [db.add(sales_order); await db.flush()]: the insert binds
    [customer_id], [sales_person_id] and [notes]; [order_number] is
    [unique], [customer_id] and [sales_person_id] are foreign keys. *)
Definition flush_sales_order (db : DB) (o : SalesOrder.t) : result DB :=
  customer_id <- Sql.bind_integer (SalesOrder.customer_id o) ;;
  sales_person_id <-
    match SalesOrder.sales_person_id o with
    | Some p => p' <- Sql.bind_integer p ;; Ok (Some p')
    | None => Ok None
    end ;;
  notes <- Sql.bind_optional_text (SalesOrder.notes o) ;;
  if existsb (String.eqb (SalesOrder.order_number o))
             (map SalesOrder.order_number (sales_orders db))
  then Raise IntegrityError
  else if negb (existsb (Z.eqb (SalesOrder.customer_id o)) customers)
  then Raise IntegrityError
  else if match SalesOrder.sales_person_id o with
          | Some p => negb (existsb (Z.eqb p) sales_persons)
          | None => false
          end
  then Raise IntegrityError
  else Ok (mkDB (sales_orders db ++ [o]) (so_items db) (shipments db) (shipment_items db)
                (invoices db) (invoice_items db)).

(** Lines 71-79: one turn of [for item_data in request.items], with the
    insert the commit makes of the [SOItem] added: the insert binds
    [product_id] and [quantity]; [product_id] is a foreign key, [price] and
    [tax_rate] are [Numeric] columns. *)
Definition add_so_item (sales_order : SalesOrder.t) (db : DB)
    (item_data : SalesOrders.CreateSOItemRequest) : result DB :=
  product_id <- Sql.bind_integer (SalesOrders.product_id item_data) ;;
  quantity <- Sql.bind_integer (SalesOrders.quantity item_data) ;;
  if negb (existsb (Z.eqb (SalesOrders.product_id item_data)) products)
  then Raise IntegrityError
  else
    price <- numeric_10_2 (SalesOrders.price item_data) ;;
    tax_rate <- numeric_5_4 (SalesOrders.tax_rate item_data) ;;
    Ok (mkDB (sales_orders db)
             (so_items db ++ [SOItem.mk (Sql.next_id (map SOItem.id (so_items db)))
                                        (SalesOrder.id sales_order)
                                        (SalesOrders.product_id item_data)
                                        (SalesOrders.quantity item_data) tax_rate price])
             (shipments db) (shipment_items db) (invoices db) (invoice_items db)).

(** The body of [async with db.begin()] in [create_sales_order]. *)
Definition create_sales_order_body (request : CreateSalesOrderRequest) (db : DB)
    : result (DB * string) :=
  sales_order <- new_sales_order request db ;;
  db <- flush_sales_order db sales_order ;;
  db <- for_each (add_so_item sales_order) (items request) db ;;
  Ok (db, SalesOrder.order_number sales_order).

(** [create_sales_order], up to the rendering of the committed order: the
    transaction commits what the body built, or rolls back to the database
    the request found. *)
Definition create_sales_order (request : CreateSalesOrderRequest) (db : DB)
    : DB * Response string :=
  match create_sales_order_body request db with
  | Ok (db', order_number) => (db', Success order_number)
  | Raise e => (db, Failed e)
  end.

End Handler.

End CreateSalesOrder.

(** What lies outside the tables modelled: the clock, the date parser, the
    tables referred to, and the column types of the database. *)
Record World : Type := mkWorld {
  fromisoformat_date : string -> result date;
  current_year : Z;
  customers : list Z;
  sales_persons : list Z;
  products : list Z;
  numeric_10_2 : float -> result Z;
  numeric_5_4 : float -> result Z
}.

(** The requests that write: a new order, or a shipment or an invoice for
    an order. *)
Inductive Request : Type :=
| NewOrder (r : CreateSalesOrder.CreateSalesOrderRequest)
| Fulfil (c : Call).

(** The database one request leaves. *)
Definition serve_one (w : World) (db : DB) (q : Request) : DB :=
  match q with
  | NewOrder r =>
      fst (CreateSalesOrder.create_sales_order
             (fromisoformat_date w) (current_year w) (customers w) (sales_persons w)
             (products w) (numeric_10_2 w) (numeric_5_4 w) r db)
  | Fulfil c => fst (perform (fromisoformat_date w) (current_year w) c db)
  end.

(** The database a sequence of requests leaves. *)
Definition serve (w : World) (qs : list Request) (db : DB) : DB :=
  fold_left (serve_one w) qs db.

Definition empty_db : DB := mkDB [] [] [] [] [] [].

(** The foreign keys among the tables modelled: a line belongs to a stored
    order, an event to a stored line. *)
Definition references_hold (db : DB) : Prop :=
  (forall l, In l (so_items db) ->
             In (SOItem.sales_order_id l) (map SalesOrder.id (sales_orders db))) /\
  (forall e, In e (shipment_items db) ->
             In (ShipmentItem.so_item_id e) (map SOItem.id (so_items db))) /\
  (forall e, In e (invoice_items db) ->
             In (InvoiceItem.so_item_id e) (map SOItem.id (so_items db))).

(** The shipment status and the invoice status the status loops derive for
    an order nothing has been recorded for, from the quantities of its
    lines. *)
Definition untouched_shipment_status (quantities : list Z) : ShipmentStatus :=
  if forallb (fun q => q <=? 0) quantities then shipped else not_shipped.

Definition untouched_invoice_status (quantities : list Z) : SOInvoiceStatus :=
  if forallb (fun q => q <=? 0) quantities then invoiced else not_invoiced.

(** The primary keys of orders and of lines: no two rows share one. *)
Definition keys_distinct (db : DB) : Prop :=
  NoDup (map SalesOrder.id (sales_orders db)) /\ NoDup (map SOItem.id (so_items db)).

(** The primary keys of orders and of lines fit the 32-bit [Integer]
    column, as every key the database holds does. *)
Definition keys_fit (db : DB) : Prop :=
  Forall (fun o => Sql.int32 (SalesOrder.id o) = true) (sales_orders db) /\
  Forall (fun l => Sql.int32 (SOItem.id l) = true) (so_items db).

(** A new order carries the statuses the status loops would derive for it
    before anything is recorded. *)
Definition carries_derived_statuses (q : Request) : Prop :=
  match q with
  | NewOrder r =>
      CreateSalesOrder.shipment_status r
      = untouched_shipment_status (map SalesOrders.quantity (CreateSalesOrder.items r)) /\
      CreateSalesOrder.invoice_status r
      = untouched_invoice_status (map SalesOrders.quantity (CreateSalesOrder.items r))
  | Fulfil _ => True
  end.


(* ================================================================== *)
(** ** Requests that run at the same time *)

(** What both generators compute, as a function of the numbers the table
    holds: [generate_order_number] is [next_number "SO"] on the
    [order_number] column and [generate_invoice_number] is
    [next_number "INV"] on the [invoice_number] column. The generators only
    read: one [SELECT], no lock and no counter. *)
Definition next_number (kind : string) (current_year : Z) (numbers : list string)
    : result string :=
  last <- Sql.scalar_one_or_none
            (Sql.order_by_desc_limit_1
               (filter (Sql.like_prefix (kind ++ "-" ++ Py.str current_year ++ "-")) numbers)) ;;
  n <- new_num last ;;
  Ok (kind ++ "-" ++ Py.str current_year ++ "-" ++ Py.format_03d n)%string.

(** The unique index on the column of numbers, at the flush of a document
    ([flush_sales_order], [flush_invoice]). *)
Definition insert_unique (numbers : list string) (number : string) : result (list string) :=
  if existsb (String.eqb number) numbers then Raise IntegrityError
  else Ok (numbers ++ [number])%list.

Module Race.

(** A request of [create_sales_order] or of [create_invoice], as the table
    of numbers sees it. Each request has a session and a transaction of its
    own ([get_db]); it runs the generator, which reads the numbers
    committed, and later flushes and commits its document under the number
    it received. Between the two the event loop runs other requests. A
    flush that meets the number of a transaction still in progress waits
    for it to end, so the flush and the commit of a request are one move. *)
Inductive Caller : Type :=
| waiting
| holding (number : string)
| stored (number : string)
| refused (number : string)
| failed (e : Exception).

Inductive Move : Type :=
| query (i : nat)
| flush (i : nat).

Record State : Type := mkState {
  numbers : list string;
  callers : list Caller
}.

Fixpoint set_caller (i : nat) (c : Caller) (cs : list Caller) : list Caller :=
  match cs, i with
  | [], _ => []
  | _ :: rest, O => c :: rest
  | x :: rest, S j => x :: set_caller j c rest
  end.

(** One move of caller [i]: its call of the generator, or the flush and
    commit of its document. *)
Definition step (kind : string) (current_year : Z) (s : State) (m : Move) : State :=
  match m with
  | query i =>
      match nth_error (callers s) i with
      | Some waiting =>
          match next_number kind current_year (numbers s) with
          | Ok number => mkState (numbers s) (set_caller i (holding number) (callers s))
          | Raise e => mkState (numbers s) (set_caller i (failed e) (callers s))
          end
      | _ => s
      end
  | flush i =>
      match nth_error (callers s) i with
      | Some (holding number) =>
          match insert_unique (numbers s) number with
          | Ok numbers' => mkState numbers' (set_caller i (stored number) (callers s))
          | Raise _ => mkState (numbers s) (set_caller i (refused number) (callers s))
          end
      | _ => s
      end
  end.

Definition run (kind : string) (current_year : Z) (moves : list Move) (s : State) : State :=
  fold_left (step kind current_year) moves s.

(** [n] requests arrive at a table holding [numbers]. *)
Definition start (numbers : list string) (n : nat) : State :=
  mkState numbers (repeat waiting n).

(** The number the generator returned to a caller. *)
Definition received (c : Caller) : option string :=
  match c with
  | holding number | stored number | refused number => Some number
  | waiting | failed _ => None
  end.

(** The [n] callers all call the generator before any of them flushes. *)
Definition all_query (n : nat) : list Move := map query (seq 0 n).
Definition all_flush (n : nat) : list Move := map flush (seq 0 n).
Definition together (n : nat) : list Move := (all_query n ++ all_flush n)%list.

(** Each caller calls the generator after the one before it has
    committed. *)
Definition one_after_the_other (n : nat) : list Move :=
  flat_map (fun i => [query i; flush i]) (seq 0 n).

End Race.
(* ================================================================== *)
(** ** Proof helpers *)

(** Settle the capacity test [x >? y] of the goal from the arithmetic in
    the context, keeping the branch that can happen. *)
Ltac decide_capacity :=
  match goal with
  | |- context [?x >? ?y] =>
      let E := fresh "E" in
      destruct (x >? y) eqn:E;
      rewrite Z.gtb_ltb in E;
      [apply Z.ltb_lt in E | apply Z.ltb_ge in E];
      try lia
  end.

(** Run a [scalar_one_or_none] query whose rows are known. *)
Ltac run_query H := rewrite H; cbn [Sql.scalar_one_or_none Py.bind].

(* ================================================================== *)
(** ** Decimal rendering and parsing *)

Lemma string_app_nil_r (s : string) : (s ++ "")%string = s.
Proof. induction s as [| c s IH]; [reflexivity | cbn; now rewrite IH]. Qed.

Lemma string_app_assoc (s t u : string) : ((s ++ t) ++ u)%string = (s ++ t ++ u)%string.
Proof. induction s as [| c s IH]; [reflexivity | cbn; now rewrite IH]. Qed.

Lemma string_length_app (s t : string) :
  String.length (s ++ t) = (String.length s + String.length t)%nat.
Proof. induction s as [| c s IH]; [reflexivity | cbn; now rewrite IH]. Qed.

Lemma digit_val_digit_char d :
  0 <= d <= 9 -> Py.digit_val (Py.digit_char d) = Some d.
Proof.
  intros H.
  assert (d = 0 \/ d = 1 \/ d = 2 \/ d = 3 \/ d = 4 \/ d = 5 \/ d = 6 \/ d = 7
          \/ d = 8 \/ d = 9) as Hd by lia.
  repeat (destruct Hd as [-> | Hd]; [reflexivity |]).
  subst d. reflexivity.
Qed.

Lemma int_digits_app_zeros k s :
  Py.int_digits (Py.zeros k ++ s) 0 true = Py.int_digits s 0 true.
Proof.
  induction k as [| k IH]; [reflexivity |].
  cbn [Py.zeros append Py.int_digits]. exact IH.
Qed.

Lemma int_digits_zeros_first k s :
  (0 < k)%nat ->
  Py.int_digits (Py.zeros k ++ s) 0 false = Py.int_digits s 0 true.
Proof.
  destruct k as [| k]; [lia |]. intros _.
  cbn [Py.zeros append Py.int_digits]. apply int_digits_app_zeros.
Qed.

(** What [digits_aux] prepends: at least one digit, read back by
    [int_digits] as [n], with no leading zero unless [n] is zero. *)
Lemma digits_aux_spec fuel :
  forall n t, (0 < fuel)%nat -> 0 <= n < 2 ^ Z.of_nat fuel ->
  exists ds,
    Py.digits_aux fuel n t = (ds ++ t)%string /\
    (1 <= String.length ds)%nat /\
    (forall u a p, Py.int_digits (ds ++ u) a p
                   = Py.int_digits u (a * 10 ^ Z.of_nat (String.length ds) + n) true) /\
    n < 10 ^ Z.of_nat (String.length ds) /\
    (n = 0 \/ 10 ^ (Z.of_nat (String.length ds) - 1) <= n).
Proof.
  induction fuel as [| fuel IH]; intros n t Hf Hn.
  - lia.
  - cbn [Py.digits_aux]. destruct (n <? 10) eqn:E.
    + apply Z.ltb_lt in E.
      exists (String (Py.digit_char (n mod 10)) EmptyString).
      rewrite Z.mod_small by lia.
      repeat split.
      * cbn. lia.
      * intros u a p. cbn [append Py.int_digits].
        rewrite digit_val_digit_char by lia. cbn [String.length]. f_equal. lia.
      * cbn. lia.
      * cbn. lia.
    + apply Z.ltb_ge in E.
      assert (Hq : 0 <= n / 10 < 2 ^ Z.of_nat fuel).
      { split; [apply Z.div_pos; lia |].
        rewrite Nat2Z.inj_succ, Z.pow_succ_r in Hn by lia.
        assert (0 < 2 ^ Z.of_nat fuel) by (apply Z.pow_pos_nonneg; lia).
        apply Z.div_lt_upper_bound; lia. }
      assert (Hf' : (0 < fuel)%nat).
      { destruct fuel; [| lia]. cbn in Hq.
        assert (10 <= 10 * (n / 10)) by (pose proof (Z.mul_div_le n 10); pose proof (Z.mod_pos_bound n 10); pose proof (Z.div_mod n 10); lia).
        lia. }
      destruct (IH (n / 10) (String (Py.digit_char (n mod 10)) t) Hf' Hq)
        as (ds & Heq & Hlen & Hparse & Hub & Hlb).
      exists (ds ++ String (Py.digit_char (n mod 10)) EmptyString)%string.
      assert (Hl : String.length (ds ++ String (Py.digit_char (n mod 10)) EmptyString)
                   = S (String.length ds)).
      { rewrite string_length_app. cbn. lia. }
      assert (Hm : 0 <= n mod 10 < 10) by (apply Z.mod_pos_bound; lia).
      assert (Hdm : n = 10 * (n / 10) + n mod 10) by (apply Z.div_mod; lia).
      rewrite Hl. repeat split.
      * rewrite Heq, string_app_assoc. reflexivity.
      * lia.
      * intros u a p. rewrite string_app_assoc, Hparse.
        cbn [append Py.int_digits]. rewrite digit_val_digit_char by lia.
        f_equal. rewrite Nat2Z.inj_succ, Z.pow_succ_r by lia. lia.
      * rewrite Nat2Z.inj_succ, Z.pow_succ_r by lia. lia.
      * right. destruct Hlb as [Hz | Hlb]; [lia |].
        rewrite Nat2Z.inj_succ.
        replace (Z.succ (Z.of_nat (String.length ds)) - 1)
          with (Z.succ (Z.of_nat (String.length ds) - 1)) by lia.
        rewrite Z.pow_succ_r by lia. lia.
Qed.

Lemma digits_fuel n : 0 <= n -> 0 <= n < 2 ^ Z.of_nat (S (Z.to_nat (Z.log2 n))).
Proof.
  intros H. split; [exact H |].
  rewrite Nat2Z.inj_succ, Z2Nat.id by apply Z.log2_nonneg.
  destruct (Z.eq_dec n 0) as [-> | Hn]; [reflexivity |].
  apply Z.log2_spec. lia.
Qed.

(** [digits n] is the decimal numeral of [n]. *)
Lemma digits_spec n :
  0 <= n ->
  (1 <= String.length (Py.digits n))%nat /\
  (forall u a p, Py.int_digits (Py.digits n ++ u) a p
                 = Py.int_digits u (a * 10 ^ Z.of_nat (String.length (Py.digits n)) + n) true) /\
  n < 10 ^ Z.of_nat (String.length (Py.digits n)) /\
  (n = 0 \/ 10 ^ (Z.of_nat (String.length (Py.digits n)) - 1) <= n).
Proof.
  intros H. unfold Py.digits.
  destruct (digits_aux_spec _ n EmptyString (Nat.lt_0_succ _) (digits_fuel n H))
    as (ds & Heq & Hlen & Hparse & Hub & Hlb).
  rewrite Heq.
  rewrite string_app_nil_r. auto.
Qed.

Lemma all_digits_app s t :
  all_digits (s ++ t) = all_digits s && all_digits t.
Proof.
  induction s as [| c s IH]; [reflexivity |].
  cbn. destruct (Py.digit_val c); [exact IH | reflexivity].
Qed.

Lemma all_digits_zeros k : all_digits (Py.zeros k) = true.
Proof. induction k as [| k IH]; [reflexivity | exact IH]. Qed.

Lemma all_digits_digits_aux fuel :
  forall n t, 0 <= n -> all_digits t = true -> all_digits (Py.digits_aux fuel n t) = true.
Proof.
  induction fuel as [| fuel IH]; intros n t Hn Ht; [exact Ht |].
  assert (Hm : 0 <= n mod 10 < 10) by (apply Z.mod_pos_bound; lia).
  assert (Hd : all_digits (String (Py.digit_char (n mod 10)) t) = true).
  { cbn. rewrite digit_val_digit_char by lia. exact Ht. }
  cbn [Py.digits_aux]. destruct (n <? 10); [exact Hd |].
  apply IH; [apply Z.div_pos; lia | exact Hd].
Qed.

Lemma all_digits_digits n : 0 <= n -> all_digits (Py.digits n) = true.
Proof. intros H. apply all_digits_digits_aux; [exact H | reflexivity]. Qed.

Lemma digit_not_space c d : Py.digit_val c = Some d -> Py.isspace c = false.
Proof.
  destruct c as [[] [] [] [] [] [] [] []]; cbn; intros H;
    first [reflexivity | discriminate H].
Qed.

Lemma lstrip_digits s : all_digits s = true -> Py.lstrip s = s.
Proof.
  destruct s as [| c r]; [reflexivity |]. cbn.
  destruct (Py.digit_val c) eqn:E; [| discriminate].
  now rewrite (digit_not_space _ _ E).
Qed.

Lemma rstrip_digits s : all_digits s = true -> Py.rstrip s = s.
Proof.
  induction s as [| c r IH]; [reflexivity |]. cbn.
  destruct (Py.digit_val c) eqn:E; [| discriminate].
  intros H. rewrite (IH H), (digit_not_space _ _ E). now destruct r.
Qed.

Lemma int_opt_digits s :
  all_digits s = true -> Py.int_opt s = Py.int_digits s 0 false.
Proof.
  intros H. unfold Py.int_opt, Py.strip.
  rewrite (lstrip_digits _ H), (rstrip_digits _ H).
  destruct s as [| c r]; [reflexivity |].
  cbn in H. destruct (Py.digit_val c) eqn:E; [| discriminate].
  destruct c as [[] [] [] [] [] [] [] []]; first [reflexivity | discriminate E].
Qed.

(** The field [format(n, "03d")] writes for [n >= 0] reads back as [n]. *)
Lemma int_opt_zfill w n : 0 <= n -> Py.int_opt (Py.zfill w (Py.digits n)) = Some n.
Proof.
  intros Hn. unfold Py.zfill.
  rewrite int_opt_digits
    by (rewrite all_digits_app, all_digits_zeros, all_digits_digits by exact Hn; reflexivity).
  destruct (digits_spec n Hn) as (_ & Hparse & _).
  specialize (Hparse EmptyString 0). rewrite string_app_nil_r in Hparse.
  destruct (w - String.length (Py.digits n))%nat as [| k] eqn:E.
  - cbn [Py.zeros append]. rewrite Hparse. reflexivity.
  - rewrite int_digits_zeros_first by lia. rewrite Hparse. reflexivity.
Qed.

Lemma length_zeros k : String.length (Py.zeros k) = k.
Proof. induction k as [| k IH]; [reflexivity | cbn; now rewrite IH]. Qed.

Lemma length_zfill w s : String.length (Py.zfill w s) = Nat.max w (String.length s).
Proof. unfold Py.zfill. rewrite string_length_app, length_zeros. lia. Qed.

Lemma format_03d_nonneg n : 0 <= n -> Py.format_03d n = Py.zfill 3 (Py.digits n).
Proof.
  intros H. unfold Py.format_03d.
  destruct (n <? 0) eqn:E; [apply Z.ltb_lt in E; lia | reflexivity].
Qed.

Lemma count_digits_le_length s : (Py.count_digits s <= String.length s)%nat.
Proof.
  induction s as [| c r IH]; [apply Nat.le_refl |]. cbn [Py.count_digits String.length].
  destruct (Py.digit_val c); lia.
Qed.

(** [int] reads a numeral of at most 4300 characters. *)
Lemma int_of_numeral s n :
  Py.int_opt s = Some n -> (String.length s <= Py.int_max_str_digits)%nat -> Py.int s = Ok n.
Proof.
  intros Hn Hlen. unfold Py.int. pose proof (count_digits_le_length s) as Hc.
  destruct (Py.int_max_str_digits <? Py.count_digits s)%nat eqn:E.
  - apply Nat.ltb_lt in E. lia.
  - now rewrite Hn.
Qed.

(* ================================================================== *)
(** ** Sequence generator *)

(** C8. For every sequence value [n >= 1] the generators render
    [SO-YYYY-n] and [INV-YYYY-n] with [n] written in decimal, zero-padded
    to at least three digits and never truncated: the field is three
    characters wide or as wide as [n] needs, and reads back as [n]. The
    values 1, 42, 999 and 1000 give [SO-2025-001], [SO-2025-042],
    [SO-2025-999] and [SO-2025-1000]. *)
Theorem sequence_formatting :
  forall (year n : Z) (db : DB) (last : option string),
    1 <= n ->
    new_num last = Ok n ->
    (last_order year db = Ok last ->
     generate_order_number year db
     = Ok ("SO-" ++ Py.str year ++ "-" ++ Py.zfill 3 (Py.digits n))%string) /\
    (last_invoice year db = Ok last ->
     generate_invoice_number year db
     = Ok ("INV-" ++ Py.str year ++ "-" ++ Py.zfill 3 (Py.digits n))%string) /\
    String.length (Py.zfill 3 (Py.digits n)) = Nat.max 3 (String.length (Py.digits n)) /\
    Py.int_opt (Py.zfill 3 (Py.digits n)) = Some n /\
    10 ^ (Z.of_nat (String.length (Py.digits n)) - 1) <= n
      < 10 ^ Z.of_nat (String.length (Py.digits n)) /\
    generate_order_number 2025 (orders_numbered []) = Ok "SO-2025-001" /\
    generate_order_number 2025 (orders_numbered ["SO-2025-041"]) = Ok "SO-2025-042" /\
    generate_order_number 2025 (orders_numbered ["SO-2025-998"]) = Ok "SO-2025-999" /\
    generate_order_number 2025 (orders_numbered ["SO-2025-999"]) = Ok "SO-2025-1000".
Proof.
  intros year n db last Hn Hnew.
  assert (H0 : 0 <= n) by lia.
  destruct (digits_spec n H0) as (_ & _ & Hub & Hlb).
  repeat split.
  - intros Hlast. unfold generate_order_number.
    rewrite Hlast. cbn [Py.bind]. rewrite Hnew. cbn [Py.bind].
    now rewrite format_03d_nonneg.
  - intros Hlast. unfold generate_invoice_number.
    rewrite Hlast. cbn [Py.bind]. rewrite Hnew. cbn [Py.bind].
    now rewrite format_03d_nonneg.
  - apply length_zfill.
  - apply int_opt_zfill, H0.
  - destruct Hlb as [Hz | Hlb]; [lia | exact Hlb].
  - exact Hub.
Qed.

Lemma sequence_formatting_witness :
  generate_order_number 2025 (orders_numbered ["SO-2025-041"])
  = Ok ("SO-" ++ Py.str 2025 ++ "-" ++ Py.zfill 3 (Py.digits 42))%string /\
  Py.int_opt (Py.zfill 3 (Py.digits 42)) = Some 42.
Proof.
  destruct (sequence_formatting 2025 42 (orders_numbered ["SO-2025-041"])
              (Some "SO-2025-041") ltac:(lia) eq_refl)
    as (Ho & _ & _ & Hi & _).
  split; [apply Ho; reflexivity | exact Hi].
Defined.

Lemma ltb_false_trans (m b s : string) :
  String.ltb m b = false -> String.ltb b s = false -> String.ltb m s = false.
Proof.
  unfold String.ltb. intros Hmb Hbs.
  destruct (String.compare m s) eqn:Hms; try reflexivity. exfalso.
  apply String_as_OT.cmp_lt in Hms.
  destruct (String.compare b s) eqn:Hb; try discriminate.
  - apply String_as_OT.cmp_eq in Hb. subst b.
    apply String_as_OT.cmp_lt in Hms. unfold String_as_OT.cmp in Hms.
    now rewrite Hms in Hmb.
  - assert (Hsb : String_as_OT.lt s b).
    { apply String_as_OT.cmp_lt. rewrite String_as_OT.cmp_antisym.
      unfold String_as_OT.cmp. now rewrite Hb. }
    pose proof (String_as_OT.lt_trans _ _ _ Hms Hsb) as Hlt.
    apply String_as_OT.cmp_lt in Hlt. unfold String_as_OT.cmp in Hlt.
    now rewrite Hlt in Hmb.
Qed.

Lemma ltb_irrefl (s : string) : String.ltb s s = false.
Proof.
  unfold String.ltb.
  assert (E : String.compare s s = Eq) by now apply String_as_OT.cmp_eq.
  now rewrite E.
Qed.

Lemma ltb_asym (a b : string) : String.ltb a b = true -> String.ltb b a = false.
Proof.
  unfold String.ltb. intros H.
  assert (E : String.compare b a = CompOpp (String.compare a b))
    by apply String_as_OT.cmp_antisym.
  rewrite E. now destruct (String.compare a b).
Qed.

Lemma fold_largest rest :
  forall x,
    In (fold_left (fun best s => if String.ltb best s then s else best) rest x) (x :: rest) /\
    forall s, In s (x :: rest) ->
              String.ltb (fold_left (fun best s => if String.ltb best s then s else best) rest x) s
              = false.
Proof.
  induction rest as [| y rest IH]; intros x; cbn [fold_left].
  - split; [now left |]. intros s [<- | []]. apply ltb_irrefl.
  - destruct (String.ltb x y) eqn:E.
    + destruct (IH y) as (Hin & Hmax). split.
      * destruct Hin as [Hin | Hin]; [right; now left | right; now right].
      * intros s [Hs | Hs]; [subst s | now apply Hmax].
        apply ltb_false_trans with y; [apply Hmax; now left | now apply ltb_asym].
    + destruct (IH x) as (Hin & Hmax). split.
      * destruct Hin as [Hin | Hin]; [now left | right; now right].
      * intros s [Hs | [Hs | Hs]].
        -- subst s. apply Hmax. now left.
        -- subst s. apply ltb_false_trans with x; [apply Hmax; now left | exact E].
        -- apply Hmax. now right.
Qed.

(** [ORDER BY ... DESC LIMIT 1] answers a row that no row exceeds. *)
Lemma order_by_desc_limit_1_largest rows m :
  Sql.scalar_one_or_none (Sql.order_by_desc_limit_1 rows) = Ok (Some m) ->
  In m rows /\ forall s, In s rows -> String.ltb m s = false.
Proof.
  destruct rows as [| x rest]; cbn; intros H; inversion H.
  apply fold_largest.
Qed.

(** C10. When the largest stored number of the current year and kind (a
    stored number carrying the prefix that no other such number exceeds in
    string order) ends in a segment on which [int] raises [ValueError], the
    generator answers sequence number 1, whatever other numbers of that
    year are stored. [int] raises on a segment that is not a numeral (white
    space, a sign, digits) and on one of more than 4300 digits; the
    separators U+001C to U+001F are not white space to it. *)
Theorem unparseable_suffix_restarts_at_1 :
  forall (year : Z) (db : DB) (last seg : string),
    Py.index_last (Py.split "-" last) = Ok seg ->
    Py.int seg = Raise ValueError ->
    (Py.int_opt seg = None \/ (4300 < Py.count_digits seg)%nat) /\
    (last_order year db = Ok (Some last) ->
     generate_order_number year db = Ok ("SO-" ++ Py.str year ++ "-001")%string /\
     In last (map SalesOrder.order_number (sales_orders db)) /\
     forall s, In s (map SalesOrder.order_number (sales_orders db)) ->
               Sql.like_prefix ("SO-" ++ Py.str year ++ "-") s = true ->
               String.ltb last s = false) /\
    (last_invoice year db = Ok (Some last) ->
     generate_invoice_number year db = Ok ("INV-" ++ Py.str year ++ "-001")%string /\
     In last (map Invoice.invoice_number (invoices db)) /\
     forall s, In s (map Invoice.invoice_number (invoices db)) ->
               Sql.like_prefix ("INV-" ++ Py.str year ++ "-") s = true ->
               String.ltb last s = false).
Proof.
  intros year db last seg Hseg Hint.
  assert (Hnew : new_num (Some last) = Ok 1).
  { unfold new_num. destruct (Py.truthy last); [| reflexivity].
    rewrite Hseg. cbn [Py.bind]. rewrite Hint. reflexivity. }
  split; [| split; intros Hlast].
  - unfold Py.int in Hint.
    destruct (Py.int_max_str_digits <? Py.count_digits seg)%nat eqn:E.
    + right. now apply Nat.ltb_lt in E.
    + left. destruct (Py.int_opt seg); [discriminate | reflexivity].
  - split.
    + unfold generate_order_number. rewrite Hlast. cbn [Py.bind]. rewrite Hnew. reflexivity.
    + destruct (order_by_desc_limit_1_largest _ _ Hlast) as (Hin & Hmax).
      apply filter_In in Hin. split; [apply Hin |].
      intros s Hs Hp. apply Hmax, filter_In. now split.
  - split.
    + unfold generate_invoice_number. rewrite Hlast. cbn [Py.bind]. rewrite Hnew. reflexivity.
    + destruct (order_by_desc_limit_1_largest _ _ Hlast) as (Hin & Hmax).
      apply filter_In in Hin. split; [apply Hin |].
      intros s Hs Hp. apply Hmax, filter_In. now split.
Qed.

Lemma unparseable_suffix_restarts_at_1_witness :
  generate_order_number 2025 (orders_numbered ["SO-2025-001"; "SO-2025-abc"; "SO-2025-002"])
  = Ok "SO-2025-001" /\
  generate_invoice_number 2025
    (invoices_numbered ["INV-2025-007"; String.append "INV-2025-7" (String (ascii_of_nat 28) "")])
  = Ok "INV-2025-001" /\
  generate_invoice_number 2025
    (invoices_numbered ["INV-2025-007"; String.append "INV-2025- 7" (String (ascii_of_nat 160) "")])
  = Ok "INV-2025-008".
Proof.
  split; [| split].
  - apply (unparseable_suffix_restarts_at_1 2025
             (orders_numbered ["SO-2025-001"; "SO-2025-abc"; "SO-2025-002"])
             "SO-2025-abc" "abc" eq_refl eq_refl).
    reflexivity.
  - apply (unparseable_suffix_restarts_at_1 2025
             (invoices_numbered ["INV-2025-007";
                                 String.append "INV-2025-7" (String (ascii_of_nat 28) "")])
             (String.append "INV-2025-7" (String (ascii_of_nat 28) ""))
             (String "7" (String (ascii_of_nat 28) "")) eq_refl eq_refl).
    reflexivity.
  - reflexivity.
Defined.

(** C5. After the numbers 001 ... 1000 of a year have been issued, the
    generators answer 1000 again: the query takes the largest stored number
    as a string, which is the one ending in 999, not the one whose sequence
    number is largest. The numeric maximum plus one would be 1001. The
    invoice that is created next carries a number already in use and is
    refused by the [unique] column. *)
Theorem next_number_after_1000_is_1000_again :
  generate_order_number 2025 (orders_numbered (issued "SO" 2025 1000)) = Ok "SO-2025-1000" /\
  last_order 2025 (orders_numbered (issued "SO" 2025 1000)) = Ok (Some "SO-2025-999") /\
  existsb (String.eqb "SO-2025-1000") (issued "SO" 2025 1000) = true /\
  fold_left Z.max (stored_sequence_numbers "SO" 2025 (issued "SO" 2025 1000)) 0 = 1000 /\
  generate_invoice_number 2025 (invoices_numbered (issued "INV" 2025 1000)) = Ok "INV-2025-1000" /\
  existsb (String.eqb "INV-2025-1000") (issued "INV" 2025 1000) = true /\
  fold_left Z.max (stored_sequence_numbers "INV" 2025 (issued "INV" 2025 1000)) 0 = 1000 /\
  snd (Invoices.create_invoice sample_iso 2025
         (Invoices.mkRequest 1 "2025-03-01" "2025-04-01" None [Invoices.mkItem 1 1])
         (sample_db_invoiced (issued "INV" 2025 1000)))
  = Failed IntegrityError.
Proof. vm_compute. repeat split. Qed.

(* ================================================================== *)
(** ** Allocation ledger *)

Lemma fold_left_add_total xs : forall a, fold_left Z.add xs a = a + total xs.
Proof.
  induction xs as [| x xs IH]; intros a; cbn; [lia |].
  rewrite IH. unfold total. lia.
Qed.

Lemma scalar_or_0_sum xs : Sql.scalar_or_0 (Sql.sum xs) = total xs.
Proof.
  destruct xs as [| x xs]; [reflexivity |].
  unfold Sql.sum, Sql.scalar_or_0. rewrite fold_left_add_total.
  destruct (0 + total (x :: xs) =? 0) eqn:E; [apply Z.eqb_eq in E |]; lia.
Qed.

Lemma total_app xs ys : total (xs ++ ys) = total xs + total ys.
Proof.
  unfold total. induction xs as [| x xs IH]; cbn; [reflexivity | rewrite IH; lia].
Qed.

Lemma shipped_qty_consumed db line :
  Sql.scalar_or_0 (sum_quantity_shipped db line) = consumed shipment_track db line.
Proof. apply scalar_or_0_sum. Qed.

Lemma invoiced_qty_consumed db line :
  Sql.scalar_or_0 (sum_quantity_invoiced db line) = consumed invoice_track db line.
Proof. apply scalar_or_0_sum. Qed.

Lemma scalar_one_or_none_some {A : Type} (rows : list A) (x : A) :
  Sql.scalar_one_or_none rows = Ok (Some x) -> rows = [x].
Proof.
  destruct rows as [| y [| z rows]]; cbn; intros H; try discriminate.
  now inversion H.
Qed.

Lemma recorded_add_shipment_item tr db ev line :
  recorded tr (Shipments.add_shipment_item db ev) line
  = (recorded tr db line
     ++ match tr with
        | shipment_track =>
            if ShipmentItem.so_item_id ev =? line then [ShipmentItem.quantity_shipped ev] else []
        | invoice_track => []
        end)%list.
Proof.
  destruct tr; cbn [recorded Shipments.add_shipment_item shipment_items invoice_items];
    [| now rewrite app_nil_r].
  rewrite filter_app, map_app. cbn [filter].
  now destruct (ShipmentItem.so_item_id ev =? line).
Qed.

Lemma recorded_add_invoice_item tr db ev line :
  recorded tr (Invoices.add_invoice_item db ev) line
  = (recorded tr db line
     ++ match tr with
        | shipment_track => []
        | invoice_track =>
            if InvoiceItem.so_item_id ev =? line then [InvoiceItem.quantity_invoiced ev] else []
        end)%list.
Proof.
  destruct tr; cbn [recorded Invoices.add_invoice_item shipment_items invoice_items];
    [now rewrite app_nil_r |].
  rewrite filter_app, map_app. cbn [filter].
  now destruct (InvoiceItem.so_item_id ev =? line).
Qed.

Lemma consumed_add_shipment_item tr db ev line :
  consumed tr (Shipments.add_shipment_item db ev) line
  = consumed tr db line
    + match tr with
      | shipment_track =>
          if ShipmentItem.so_item_id ev =? line then ShipmentItem.quantity_shipped ev else 0
      | invoice_track => 0
      end.
Proof.
  unfold consumed. rewrite recorded_add_shipment_item, total_app.
  destruct tr; [destruct (ShipmentItem.so_item_id ev =? line) |]; cbn; lia.
Qed.

Lemma consumed_add_invoice_item tr db ev line :
  consumed tr (Invoices.add_invoice_item db ev) line
  = consumed tr db line
    + match tr with
      | shipment_track => 0
      | invoice_track =>
          if InvoiceItem.so_item_id ev =? line then InvoiceItem.quantity_invoiced ev else 0
      end.
Proof.
  unfold consumed. rewrite recorded_add_invoice_item, total_app.
  destruct tr; [| destruct (InvoiceItem.so_item_id ev =? line)]; cbn; lia.
Qed.

Lemma bind_integer_ok n m : Sql.bind_integer n = Ok m -> m = n /\ Sql.int32 n = true.
Proof.
  unfold Sql.bind_integer. destruct (Sql.int32 n); intros H; inversion H. now split.
Qed.

Lemma bind_integer_int32 n : Sql.int32 n = true -> Sql.bind_integer n = Ok n.
Proof. unfold Sql.bind_integer. now intros ->. Qed.

Lemma bind_integer_refused n : Sql.int32 n = false -> Sql.bind_integer n = Raise DBAPIError.
Proof. unfold Sql.bind_integer. now intros ->. Qed.

Lemma bind_optional_text_ok s t : Sql.bind_optional_text s = Ok t -> t = s.
Proof.
  destruct s as [s |]; cbn; [| now intros H; inversion H].
  unfold Sql.bind_text. destruct (Sql.no_nul s); cbn; intros H; now inversion H.
Qed.

(** The loop body on an existing line of the order: the capacity check
    decides, and then the range of the column. *)
Lemma ship_allocate_on_line db order shipment line q :
  select_so_item db (SOItem.id line) = [line] ->
  SOItem.sales_order_id line = SalesOrder.id order ->
  Sql.int32 (SOItem.id line) = true ->
  Shipments.allocate order shipment db (Shipments.mkItem (SOItem.id line) q)
  = if consumed shipment_track db (SOItem.id line) + q >? SOItem.quantity line
    then Raise (CapacityExceeded (SOItem.id line))
    else if Sql.int32 q
         then Ok (Shipments.add_shipment_item db
                    (ShipmentItem.mk (Sql.next_id (map ShipmentItem.id (shipment_items db)))
                                     (Shipment.id shipment) (SOItem.id line) q))
         else Raise DBAPIError.
Proof.
  intros Hsel Hown Hkey. unfold Shipments.allocate.
  cbn [Shipments.soItemId Shipments.quantity].
  rewrite (bind_integer_int32 _ Hkey). cbn [Py.bind].
  run_query Hsel.
  rewrite Hown, Z.eqb_refl. cbn [negb].
  rewrite shipped_qty_consumed.
  destruct (_ >? _); [reflexivity |].
  unfold Sql.bind_integer. destruct (Sql.int32 q); reflexivity.
Qed.

Lemma bill_allocate_on_line db order invoice line q :
  select_so_item db (SOItem.id line) = [line] ->
  SOItem.sales_order_id line = SalesOrder.id order ->
  Sql.int32 (SOItem.id line) = true ->
  Invoices.allocate order invoice db (Invoices.mkItem (SOItem.id line) q)
  = if consumed invoice_track db (SOItem.id line) + q >? SOItem.quantity line
    then Raise (CapacityExceeded (SOItem.id line))
    else if Sql.int32 q
         then Ok (Invoices.add_invoice_item db
                    (InvoiceItem.mk (Sql.next_id (map InvoiceItem.id (invoice_items db)))
                                    (Invoice.id invoice) (SOItem.id line) q))
         else Raise DBAPIError.
Proof.
  intros Hsel Hown Hkey. unfold Invoices.allocate.
  cbn [Invoices.soItemId Invoices.quantity].
  rewrite (bind_integer_int32 _ Hkey). cbn [Py.bind].
  run_query Hsel.
  rewrite Hown, Z.eqb_refl. cbn [negb].
  rewrite invoiced_qty_consumed.
  destruct (_ >? _); [reflexivity |].
  unfold Sql.bind_integer. destruct (Sql.int32 q); reflexivity.
Qed.

(** What a loop body that returned has done. *)
Lemma ship_allocate_ok order shipment db item db' :
  Shipments.allocate order shipment db item = Ok db' ->
  exists line,
    select_so_item db (Shipments.soItemId item) = [line] /\
    SOItem.sales_order_id line = SalesOrder.id order /\
    consumed shipment_track db (Shipments.soItemId item) + Shipments.quantity item
      <= SOItem.quantity line /\
    Sql.int32 (Shipments.soItemId item) = true /\
    Sql.int32 (Shipments.quantity item) = true /\
    db' = Shipments.add_shipment_item db (Shipments.new_shipment_item shipment db item).
Proof.
  unfold Shipments.allocate.
  destruct (Sql.bind_integer (Shipments.soItemId item)) as [k | e] eqn:Hkey;
    cbn [Py.bind]; [| discriminate].
  apply bind_integer_ok in Hkey as [-> Hkey].
  destruct (Sql.scalar_one_or_none (select_so_item db (Shipments.soItemId item)))
    as [[line |] | e] eqn:Hsel; cbn [Py.bind]; try discriminate.
  destruct (SOItem.sales_order_id line =? SalesOrder.id order) eqn:Hown;
    cbn [negb]; try discriminate.
  rewrite shipped_qty_consumed.
  destruct (_ >? _) eqn:Hcap; try discriminate.
  destruct (Sql.bind_integer (Shipments.quantity item)) as [q | e] eqn:Hq;
    cbn [Py.bind]; [| discriminate].
  apply bind_integer_ok in Hq as [_ Hq].
  intros H. inversion H; subst. exists line.
  apply scalar_one_or_none_some in Hsel. apply Z.eqb_eq in Hown.
  rewrite Z.gtb_ltb in Hcap. apply Z.ltb_ge in Hcap.
  repeat split; auto.
Qed.

Lemma bill_allocate_ok order invoice db item db' :
  Invoices.allocate order invoice db item = Ok db' ->
  exists line,
    select_so_item db (Invoices.soItemId item) = [line] /\
    SOItem.sales_order_id line = SalesOrder.id order /\
    consumed invoice_track db (Invoices.soItemId item) + Invoices.quantity item
      <= SOItem.quantity line /\
    Sql.int32 (Invoices.soItemId item) = true /\
    Sql.int32 (Invoices.quantity item) = true /\
    db' = Invoices.add_invoice_item db (Invoices.new_invoice_item invoice db item).
Proof.
  unfold Invoices.allocate.
  destruct (Sql.bind_integer (Invoices.soItemId item)) as [k | e] eqn:Hkey;
    cbn [Py.bind]; [| discriminate].
  apply bind_integer_ok in Hkey as [-> Hkey].
  destruct (Sql.scalar_one_or_none (select_so_item db (Invoices.soItemId item)))
    as [[line |] | e] eqn:Hsel; cbn [Py.bind]; try discriminate.
  destruct (SOItem.sales_order_id line =? SalesOrder.id order) eqn:Hown;
    cbn [negb]; try discriminate.
  rewrite invoiced_qty_consumed.
  destruct (_ >? _) eqn:Hcap; try discriminate.
  destruct (Sql.bind_integer (Invoices.quantity item)) as [q | e] eqn:Hq;
    cbn [Py.bind]; [| discriminate].
  apply bind_integer_ok in Hq as [_ Hq].
  intros H. inversion H; subst. exists line.
  apply scalar_one_or_none_some in Hsel. apply Z.eqb_eq in Hown.
  rewrite Z.gtb_ltb in Hcap. apply Z.ltb_ge in Hcap.
  repeat split; auto.
Qed.

(** What the loop over [request.items] has done when it returns: one event
    per item, nothing else touched, every line it wrote to within
    capacity. *)
Lemma ship_for_each_ok order shipment items :
  forall db db',
    for_each (Shipments.allocate order shipment) items db = Ok db' ->
    same_documents_but_events db db' /\
    (forall line,
        recorded shipment_track db' line
        = (recorded shipment_track db line ++ Shipments.quantities_on line items)%list) /\
    (forall line, recorded invoice_track db' line = recorded invoice_track db line) /\
    (forall l, In l (so_items db) ->
               consumed shipment_track db (SOItem.id l) <= SOItem.quantity l ->
               consumed shipment_track db' (SOItem.id l) <= SOItem.quantity l).
Proof.
  induction items as [| item items IH]; intros db db' H.
  - cbn in H. inversion H; subst. unfold same_documents_but_events.
    repeat split; auto.
    intros line. cbn. now rewrite app_nil_r.
  - cbn [for_each] in H.
    destruct (Shipments.allocate order shipment db item) as [db1 | e] eqn:Hstep;
      cbn [Py.bind] in H; [| discriminate].
    destruct (ship_allocate_ok _ _ _ _ _ Hstep) as (line0 & Hsel & _ & Hcap & _ & _ & ->).
    destruct (IH _ _ H) as ((Ho & Hi & Hs & Hv) & Hrec & Hoth & Hinv).
    cbn [Shipments.add_shipment_item sales_orders so_items shipments invoices] in *.
    unfold same_documents_but_events. repeat split; auto.
    + intros line. rewrite Hrec, recorded_add_shipment_item, <- app_assoc.
      cbn [Shipments.new_shipment_item ShipmentItem.so_item_id ShipmentItem.quantity_shipped].
      f_equal. unfold Shipments.quantities_on. cbn [filter].
      now destruct (Shipments.soItemId item =? line).
    + intros l Hin Hle. apply Hinv; [exact Hin |].
      rewrite consumed_add_shipment_item.
      cbn [Shipments.new_shipment_item ShipmentItem.so_item_id ShipmentItem.quantity_shipped].
      destruct (Shipments.soItemId item =? SOItem.id l) eqn:E; [| lia].
      apply Z.eqb_eq in E.
      assert (Hl0 : In l (select_so_item db (Shipments.soItemId item))).
      { unfold select_so_item. apply filter_In. split; [exact Hin |].
        apply Z.eqb_eq. now symmetry. }
      rewrite Hsel in Hl0. destruct Hl0 as [<- | []].
      rewrite <- E. lia.
Qed.

Lemma bill_for_each_ok order invoice items :
  forall db db',
    for_each (Invoices.allocate order invoice) items db = Ok db' ->
    same_documents_but_events db db' /\
    (forall line,
        recorded invoice_track db' line
        = (recorded invoice_track db line ++ Invoices.quantities_on line items)%list) /\
    (forall line, recorded shipment_track db' line = recorded shipment_track db line) /\
    (forall l, In l (so_items db) ->
               consumed invoice_track db (SOItem.id l) <= SOItem.quantity l ->
               consumed invoice_track db' (SOItem.id l) <= SOItem.quantity l).
Proof.
  induction items as [| item items IH]; intros db db' H.
  - cbn in H. inversion H; subst. unfold same_documents_but_events.
    repeat split; auto.
    intros line. cbn. now rewrite app_nil_r.
  - cbn [for_each] in H.
    destruct (Invoices.allocate order invoice db item) as [db1 | e] eqn:Hstep;
      cbn [Py.bind] in H; [| discriminate].
    destruct (bill_allocate_ok _ _ _ _ _ Hstep) as (line0 & Hsel & _ & Hcap & _ & _ & ->).
    destruct (IH _ _ H) as ((Ho & Hi & Hs & Hv) & Hrec & Hoth & Hinv).
    cbn [Invoices.add_invoice_item sales_orders so_items shipments invoices] in *.
    unfold same_documents_but_events. repeat split; auto.
    + intros line. rewrite Hrec, recorded_add_invoice_item, <- app_assoc.
      cbn [Invoices.new_invoice_item InvoiceItem.so_item_id InvoiceItem.quantity_invoiced].
      f_equal. unfold Invoices.quantities_on. cbn [filter].
      now destruct (Invoices.soItemId item =? line).
    + intros l Hin Hle. apply Hinv; [exact Hin |].
      rewrite consumed_add_invoice_item.
      cbn [Invoices.new_invoice_item InvoiceItem.so_item_id InvoiceItem.quantity_invoiced].
      destruct (Invoices.soItemId item =? SOItem.id l) eqn:E; [| lia].
      apply Z.eqb_eq in E.
      assert (Hl0 : In l (select_so_item db (Invoices.soItemId item))).
      { unfold select_so_item. apply filter_In. split; [exact Hin |].
        apply Z.eqb_eq. now symmetry. }
      rewrite Hsel in Hl0. destruct Hl0 as [<- | []].
      rewrite <- E. lia.
Qed.

(** A request that failed left the database as it found it. *)
Lemma create_shipment_failed iso r db db' e :
  Shipments.create_shipment iso r db = (db', Failed e) -> db' = db.
Proof.
  unfold Shipments.create_shipment.
  destruct (Shipments.create_shipment_body iso r db); intros H; inversion H; reflexivity.
Qed.

Lemma create_invoice_failed iso year r db db' e :
  Invoices.create_invoice iso year r db = (db', Failed e) -> db' = db.
Proof.
  unfold Invoices.create_invoice.
  destruct (Invoices.create_invoice_body iso year r db) as [[db1 n] | e1];
    intros H; inversion H; reflexivity.
Qed.

(** The steps of a request that succeeded. *)
Lemma create_shipment_success iso r db db' msg :
  Shipments.create_shipment iso r db = (db', Success msg) ->
  exists order shipment db1,
    select_sales_order db (Shipments.salesOrderId r) = [order] /\
    Shipments.new_shipment iso r db = Ok shipment /\
    for_each (Shipments.allocate order shipment) (Shipments.items r)
             (Shipments.add_shipment db shipment) = Ok db1 /\
    db' = update_sales_order db1 (SalesOrder.id order)
            (SalesOrder.set_shipment_status
               (Shipments.derive_status db1 (items_of db order))).
Proof.
  unfold Shipments.create_shipment, Shipments.create_shipment_body.
  destruct (Sql.bind_integer (Shipments.salesOrderId r)) as [k | e] eqn:Hkey;
    cbn [Py.bind]; [| discriminate].
  apply bind_integer_ok in Hkey as [-> Hkey].
  destruct (Sql.scalar_one_or_none (select_sales_order db (Shipments.salesOrderId r)))
    as [[order |] | e0] eqn:Hsel; cbn [Py.bind]; try discriminate.
  destruct (Shipments.new_shipment iso r db) as [shipment | e1] eqn:Hnew;
    cbn [Py.bind]; try discriminate.
  destruct (for_each _ _ _) as [db1 | e2] eqn:Hloop; cbn [Py.bind]; try discriminate.
  intros H. inversion H; subst.
  exists order, shipment, db1.
  apply scalar_one_or_none_some in Hsel. auto.
Qed.

Lemma create_invoice_success iso year r db db' number :
  Invoices.create_invoice iso year r db = (db', Success number) ->
  exists order invoice db0 db1,
    select_sales_order db (Invoices.salesOrderId r) = [order] /\
    Invoices.new_invoice iso year r order db = Ok invoice /\
    Invoices.flush_invoice db invoice = Ok db0 /\
    for_each (Invoices.allocate order invoice) (Invoices.items r) db0 = Ok db1 /\
    db' = update_sales_order db1 (SalesOrder.id order)
            (SalesOrder.set_invoice_status
               (Invoices.derive_status db1 (items_of db order))).
Proof.
  unfold Invoices.create_invoice, Invoices.create_invoice_body.
  destruct (Sql.bind_integer (Invoices.salesOrderId r)) as [k | e] eqn:Hkey;
    cbn [Py.bind]; [| discriminate].
  apply bind_integer_ok in Hkey as [-> Hkey].
  destruct (Sql.scalar_one_or_none (select_sales_order db (Invoices.salesOrderId r)))
    as [[order |] | e0] eqn:Hsel; cbn [Py.bind]; try discriminate.
  destruct (Invoices.new_invoice iso year r order db) as [invoice | e1] eqn:Hnew;
    cbn [Py.bind]; try discriminate.
  destruct (Invoices.flush_invoice db invoice) as [db0 | e2] eqn:Hflush;
    cbn [Py.bind]; try discriminate.
  destruct (for_each _ _ _) as [db1 | e3] eqn:Hloop; cbn [Py.bind]; try discriminate.
  intros H. inversion H; subst.
  exists order, invoice, db0, db1.
  apply scalar_one_or_none_some in Hsel. auto 10.
Qed.

(** The key of the order of a request that succeeded fits the column. *)
Lemma create_shipment_key iso r db db' msg :
  Shipments.create_shipment iso r db = (db', Success msg) ->
  Sql.int32 (Shipments.salesOrderId r) = true.
Proof.
  unfold Shipments.create_shipment, Shipments.create_shipment_body, Sql.bind_integer.
  destruct (Sql.int32 (Shipments.salesOrderId r)); [reflexivity | discriminate].
Qed.

Lemma create_invoice_key iso year r db db' number :
  Invoices.create_invoice iso year r db = (db', Success number) ->
  Sql.int32 (Invoices.salesOrderId r) = true.
Proof.
  unfold Invoices.create_invoice, Invoices.create_invoice_body, Sql.bind_integer.
  destruct (Sql.int32 (Invoices.salesOrderId r)); [reflexivity | discriminate].
Qed.

Lemma existsb_eqb_false (x : string) (l : list string) :
  existsb (String.eqb x) l = false -> ~ In x l.
Proof.
  intros H Hin. assert (existsb (String.eqb x) l = true); [| congruence].
  apply existsb_exists. exists x. split; [exact Hin | apply String.eqb_refl].
Qed.

(** The flush of a new invoice: its number was not stored, and the invoice
    is the last row of the table. *)
Lemma flush_invoice_inserted db inv db0 :
  Invoices.flush_invoice db inv = Ok db0 ->
  ~ In (Invoice.invoice_number inv) (map Invoice.invoice_number (invoices db)) /\
  db0 = mkDB (sales_orders db) (so_items db) (shipments db) (shipment_items db)
             (invoices db ++ [inv]) (invoice_items db).
Proof.
  unfold Invoices.flush_invoice.
  destruct (Sql.bind_optional_text _); cbn [Py.bind]; [| discriminate].
  destruct (existsb _ _) eqn:E; intros H; inversion H; subst.
  split; [now apply existsb_eqb_false | reflexivity].
Qed.

Lemma flush_invoice_ok db invoice db0 :
  Invoices.flush_invoice db invoice = Ok db0 ->
  sales_orders db0 = sales_orders db /\ so_items db0 = so_items db /\
  shipment_items db0 = shipment_items db /\ invoice_items db0 = invoice_items db.
Proof.
  unfold Invoices.flush_invoice.
  destruct (Sql.bind_optional_text _); cbn [Py.bind]; [| discriminate].
  destruct (existsb _ _); intros H; inversion H; subst.
  cbn. auto.
Qed.

Lemma create_shipment_effect iso r db db' msg :
  Shipments.create_shipment iso r db = (db', Success msg) ->
  ledger_effect (fun tr line => quantities_on tr line (Ship r)) db db'.
Proof.
  intros H. destruct (create_shipment_success _ _ _ _ _ H)
    as (order & shipment & db1 & _ & _ & Hloop & ->).
  destruct (ship_for_each_ok _ _ _ _ _ Hloop) as ((_ & Hi & _) & Hrec & Hoth & Hinv).
  cbn [Shipments.add_shipment so_items] in Hi.
  split; [exact Hi | split].
  - intros tr line. destruct tr.
    + exact (Hrec line).
    + cbn [quantities_on]. rewrite app_nil_r. exact (Hoth line).
  - intros tr l Hin Hle. destruct tr.
    + exact (Hinv l Hin Hle).
    + unfold consumed in *. cbn [recorded update_sales_order invoice_items].
      change (total (recorded invoice_track db1 (SOItem.id l)) <= SOItem.quantity l).
      rewrite Hoth. exact Hle.
Qed.

Lemma create_invoice_effect iso year r db db' number :
  Invoices.create_invoice iso year r db = (db', Success number) ->
  ledger_effect (fun tr line => quantities_on tr line (Bill r)) db db'.
Proof.
  intros H. destruct (create_invoice_success _ _ _ _ _ _ H)
    as (order & invoice & db0 & db1 & _ & _ & Hflush & Hloop & ->).
  destruct (flush_invoice_ok _ _ _ Hflush) as (_ & Hi0 & Hs0 & Hv0).
  destruct (bill_for_each_ok _ _ _ _ _ Hloop) as ((_ & Hi & _) & Hrec & Hoth & Hinv).
  assert (Hr0 : forall tr line, recorded tr db0 line = recorded tr db line).
  { intros tr line. destruct tr; cbn [recorded]; now rewrite ?Hs0, ?Hv0. }
  split; [cbn; congruence | split].
  - intros tr line. destruct tr.
    + cbn [quantities_on]. rewrite app_nil_r, <- Hr0. exact (Hoth line).
    + rewrite <- Hr0. exact (Hrec line).
  - intros tr l Hin Hle. destruct tr.
    + unfold consumed in *.
      change (total (recorded shipment_track db1 (SOItem.id l)) <= SOItem.quantity l).
      rewrite Hoth, Hr0. exact Hle.
    + apply (Hinv l); [now rewrite Hi0 |].
      unfold consumed in *. now rewrite Hr0.
Qed.

Lemma perform_cases iso year c db :
  perform iso year c db = (db, false) \/
  exists db', perform iso year c db = (db', true) /\ ledger_effect (fun tr line => quantities_on tr line c) db db'.
Proof.
  destruct c as [r | r]; cbn [perform].
  - destruct (Shipments.create_shipment iso r db) as [db' [msg | e]] eqn:H; cbn [is_success].
    + right. exists db'. split; [reflexivity |]. eapply create_shipment_effect, H.
    + left. now rewrite (create_shipment_failed _ _ _ _ _ H).
  - destruct (Invoices.create_invoice iso year r db) as [db' [n | e]] eqn:H; cbn [is_success].
    + right. exists db'. split; [reflexivity |]. eapply create_invoice_effect, H.
    + left. now rewrite (create_invoice_failed _ _ _ _ _ _ H).
Qed.

(** The ledger after a history of requests: on every line, the events
    recorded are those of the accepted requests, and a line within capacity
    stays within capacity. *)
Lemma run_ledger iso year tr line calls :
  forall db,
    In line (so_items db) ->
    consumed tr db (SOItem.id line) <= SOItem.quantity line ->
    In line (so_items (fst (run iso year calls db))) /\
    recorded tr (fst (run iso year calls db)) (SOItem.id line)
    = (recorded tr db (SOItem.id line)
       ++ flat_map (quantities_on tr (SOItem.id line)) (snd (run iso year calls db)))%list /\
    consumed tr (fst (run iso year calls db)) (SOItem.id line) <= SOItem.quantity line.
Proof.
  induction calls as [| c calls IH]; intros db Hin Hle.
  - cbn. rewrite app_nil_r. auto.
  - cbn [run].
    destruct (perform_cases iso year c db) as [Hrej | (db' & Hacc & Hi & Hrec & Hinv)].
    + rewrite Hrej. specialize (IH db Hin Hle).
      destruct (run iso year calls db) as [dbf cs]. exact IH.
    + rewrite Hacc.
      assert (Hin' : In line (so_items db')) by now rewrite Hi.
      specialize (IH db' Hin' (Hinv tr line Hin Hle)).
      destruct (run iso year calls db') as [dbf cs]. cbn [fst snd flat_map] in *.
      destruct IH as (H1 & H2 & H3). repeat split; auto.
      rewrite H2, Hrec, <- app_assoc. reflexivity.
Qed.

Lemma for_each_raise {A : Type} (body : DB -> A -> result DB) (pre post : list A) x e :
  forall db0 db,
    for_each body pre db0 = Ok db ->
    body db x = Raise e ->
    for_each body (pre ++ x :: post) db0 = Raise e.
Proof.
  induction pre as [| y pre IH]; intros db0 db Hpre Hx; cbn in *.
  - inversion Hpre; subst. now rewrite Hx.
  - destruct (body db0 y) as [db1 | e1]; cbn [Py.bind] in *; [| discriminate].
    eapply IH; eauto.
Qed.

(** A request one of whose items raises is answered with the failure, on
    the database it found. *)
Lemma create_shipment_raise iso request db0 order shipment pre item post db e :
  Sql.int32 (Shipments.salesOrderId request) = true ->
  select_sales_order db0 (Shipments.salesOrderId request) = [order] ->
  Shipments.new_shipment iso request db0 = Ok shipment ->
  Shipments.items request = (pre ++ item :: post)%list ->
  for_each (Shipments.allocate order shipment) pre (Shipments.add_shipment db0 shipment)
  = Ok db ->
  Shipments.allocate order shipment db item = Raise e ->
  Shipments.create_shipment iso request db0 = (db0, Failed e).
Proof.
  intros Hkey Hsel Hnew Hitems Hpre Hstep.
  unfold Shipments.create_shipment, Shipments.create_shipment_body.
  rewrite (bind_integer_int32 _ Hkey). cbn [Py.bind].
  run_query Hsel. rewrite Hnew. cbn [Py.bind].
  now rewrite Hitems, (for_each_raise _ pre post item e _ db Hpre Hstep).
Qed.

Lemma create_invoice_raise iso year request db0 order invoice pre item post db1 db e :
  Sql.int32 (Invoices.salesOrderId request) = true ->
  select_sales_order db0 (Invoices.salesOrderId request) = [order] ->
  Invoices.new_invoice iso year request order db0 = Ok invoice ->
  Invoices.flush_invoice db0 invoice = Ok db1 ->
  Invoices.items request = (pre ++ item :: post)%list ->
  for_each (Invoices.allocate order invoice) pre db1 = Ok db ->
  Invoices.allocate order invoice db item = Raise e ->
  Invoices.create_invoice iso year request db0 = (db0, Failed e).
Proof.
  intros Hkey Hsel Hnew Hflush Hitems Hpre Hstep.
  unfold Invoices.create_invoice, Invoices.create_invoice_body.
  rewrite (bind_integer_int32 _ Hkey). cbn [Py.bind].
  run_query Hsel. rewrite Hnew. cbn [Py.bind].
  rewrite Hflush. cbn [Py.bind].
  now rewrite Hitems, (for_each_raise _ pre post item e _ db Hpre Hstep).
Qed.

(** A request made of one item that passes the capacity check and fits the
    column is committed, with exactly that quantity recorded for the
    line. *)
Lemma ship_single_item_committed iso request db order shipment line q :
  Sql.int32 (Shipments.salesOrderId request) = true ->
  select_sales_order db (Shipments.salesOrderId request) = [order] ->
  Shipments.new_shipment iso request db = Ok shipment ->
  Shipments.items request = [Shipments.mkItem (SOItem.id line) q] ->
  select_so_item db (SOItem.id line) = [line] ->
  SOItem.sales_order_id line = SalesOrder.id order ->
  Sql.int32 (SOItem.id line) = true ->
  consumed shipment_track db (SOItem.id line) + q <= SOItem.quantity line ->
  Sql.int32 q = true ->
  exists db',
    Shipments.create_shipment iso request db
    = (db', Success "Shipment created successfully") /\
    recorded shipment_track db' (SOItem.id line)
    = (recorded shipment_track db (SOItem.id line) ++ [q])%list.
Proof.
  intros Hkey Ho Hnew Hitems Hsel Hown Hline Hle Hq.
  unfold Shipments.create_shipment, Shipments.create_shipment_body.
  rewrite (bind_integer_int32 _ Hkey). cbn [Py.bind].
  run_query Ho. rewrite Hnew. cbn [Py.bind].
  rewrite Hitems. cbn [for_each].
  rewrite (ship_allocate_on_line (Shipments.add_shipment db shipment) _ _ _ _ Hsel Hown Hline).
  change (consumed shipment_track (Shipments.add_shipment db shipment) (SOItem.id line))
    with (consumed shipment_track db (SOItem.id line)).
  decide_capacity. rewrite Hq.
  cbn [Py.bind]. eexists. split; [reflexivity |].
  cbn [recorded update_sales_order Shipments.add_shipment_item Shipments.add_shipment
       shipment_items].
  rewrite filter_app, map_app. cbn [filter ShipmentItem.so_item_id].
  now rewrite Z.eqb_refl.
Qed.

Lemma bill_single_item_committed iso year request db db1 order invoice line q :
  Sql.int32 (Invoices.salesOrderId request) = true ->
  select_sales_order db (Invoices.salesOrderId request) = [order] ->
  Invoices.new_invoice iso year request order db = Ok invoice ->
  Invoices.flush_invoice db invoice = Ok db1 ->
  Invoices.items request = [Invoices.mkItem (SOItem.id line) q] ->
  select_so_item db (SOItem.id line) = [line] ->
  SOItem.sales_order_id line = SalesOrder.id order ->
  Sql.int32 (SOItem.id line) = true ->
  consumed invoice_track db (SOItem.id line) + q <= SOItem.quantity line ->
  Sql.int32 q = true ->
  exists db',
    Invoices.create_invoice iso year request db
    = (db', Success (Invoice.invoice_number invoice)) /\
    recorded invoice_track db' (SOItem.id line)
    = (recorded invoice_track db (SOItem.id line) ++ [q])%list.
Proof.
  intros Hkey Ho Hnew Hflush Hitems Hsel Hown Hline Hle Hq.
  destruct (flush_invoice_ok _ _ _ Hflush) as (_ & Hi1 & Hs1 & Hv1).
  assert (Hsel1 : select_so_item db1 (SOItem.id line) = [line])
    by (unfold select_so_item in *; now rewrite Hi1).
  assert (Hc1 : consumed invoice_track db1 (SOItem.id line)
                = consumed invoice_track db (SOItem.id line))
    by (unfold consumed, recorded; now rewrite Hv1).
  unfold Invoices.create_invoice, Invoices.create_invoice_body.
  rewrite (bind_integer_int32 _ Hkey). cbn [Py.bind].
  run_query Ho. rewrite Hnew. cbn [Py.bind].
  rewrite Hflush. cbn [Py.bind]. rewrite Hitems. cbn [for_each].
  rewrite (bill_allocate_on_line db1 _ _ _ _ Hsel1 Hown Hline), Hc1.
  decide_capacity. rewrite Hq.
  cbn [Py.bind]. eexists. split; [reflexivity |].
  cbn [recorded update_sales_order Invoices.add_invoice_item invoice_items].
  rewrite Hv1, filter_app, map_app. cbn [filter InvoiceItem.so_item_id].
  now rewrite Z.eqb_refl.
Qed.

(** C1, as the code has it. On an existing line of the order, with
    [alreadyConsumed] the sum of the quantities recorded for the line on the
    track: when [alreadyConsumed + quantity > orderedQuantity] the
    allocation raises [CapacityExceeded], and the request it is part of is
    answered with that failure on the database it found, so that no event,
    document or status change is persisted. Otherwise, when the quantity
    fits the 32 bits of the [Integer] column, the allocation adds exactly
    one event, carrying that quantity for that line, and a request made of
    that one item is committed with that quantity recorded; when the
    quantity does not fit, the driver refuses it and the request is
    answered with that failure on the database it found. This holds on the
    shipment and on the invoice track; the invoice requests are taken on a
    table whose invoice numbers have fewer than 4300 characters, so that
    the number generator stays within the size Python formats. *)
Theorem allocation_checks_capacity :
  forall (db : DB) (order : SalesOrder.t) (line : SOItem.t) (q : Z),
    select_so_item db (SOItem.id line) = [line] ->
    SOItem.sales_order_id line = SalesOrder.id order ->
    Sql.int32 (SOItem.id line) = true ->
    (forall shipment reason,
        (consumed shipment_track db (SOItem.id line) + q > SOItem.quantity line /\
         reason = CapacityExceeded (SOItem.id line)) \/
        (consumed shipment_track db (SOItem.id line) + q <= SOItem.quantity line /\
         Sql.int32 q = false /\ reason = DBAPIError) ->
        Shipments.allocate order shipment db (Shipments.mkItem (SOItem.id line) q)
        = Raise reason /\
        forall iso request db0 pre post,
          Sql.int32 (Shipments.salesOrderId request) = true ->
          select_sales_order db0 (Shipments.salesOrderId request) = [order] ->
          Shipments.new_shipment iso request db0 = Ok shipment ->
          Shipments.items request = (pre ++ Shipments.mkItem (SOItem.id line) q :: post)%list ->
          for_each (Shipments.allocate order shipment) pre (Shipments.add_shipment db0 shipment)
          = Ok db ->
          Shipments.create_shipment iso request db0 = (db0, Failed reason)) /\
    (consumed shipment_track db (SOItem.id line) + q <= SOItem.quantity line ->
     Sql.int32 q = true ->
     forall shipment,
       (exists ev db',
           Shipments.allocate order shipment db (Shipments.mkItem (SOItem.id line) q)
           = Ok db' /\
           ShipmentItem.so_item_id ev = SOItem.id line /\
           ShipmentItem.quantity_shipped ev = q /\
           ShipmentItem.shipment_id ev = Shipment.id shipment /\
           shipment_items db' = (shipment_items db ++ [ev])%list /\
           invoice_items db' = invoice_items db /\
           same_documents_but_events db db') /\
       (forall iso request,
           Sql.int32 (Shipments.salesOrderId request) = true ->
           select_sales_order db (Shipments.salesOrderId request) = [order] ->
           Shipments.new_shipment iso request db = Ok shipment ->
           Shipments.items request = [Shipments.mkItem (SOItem.id line) q] ->
           exists db',
             Shipments.create_shipment iso request db
             = (db', Success "Shipment created successfully") /\
             recorded shipment_track db' (SOItem.id line)
             = (recorded shipment_track db (SOItem.id line) ++ [q])%list)) /\
    (forall invoice reason,
        (consumed invoice_track db (SOItem.id line) + q > SOItem.quantity line /\
         reason = CapacityExceeded (SOItem.id line)) \/
        (consumed invoice_track db (SOItem.id line) + q <= SOItem.quantity line /\
         Sql.int32 q = false /\ reason = DBAPIError) ->
        Invoices.allocate order invoice db (Invoices.mkItem (SOItem.id line) q)
        = Raise reason /\
        forall iso year request db0 db1 pre post,
          Sql.int32 (Invoices.salesOrderId request) = true ->
          select_sales_order db0 (Invoices.salesOrderId request) = [order] ->
          Forall (fun s => (String.length s < Py.int_max_str_digits)%nat)
                 (map Invoice.invoice_number (invoices db0)) ->
          Invoices.new_invoice iso year request order db0 = Ok invoice ->
          Invoices.flush_invoice db0 invoice = Ok db1 ->
          Invoices.items request = (pre ++ Invoices.mkItem (SOItem.id line) q :: post)%list ->
          for_each (Invoices.allocate order invoice) pre db1 = Ok db ->
          Invoices.create_invoice iso year request db0 = (db0, Failed reason)) /\
    (consumed invoice_track db (SOItem.id line) + q <= SOItem.quantity line ->
     Sql.int32 q = true ->
     forall invoice,
       (exists ev db',
           Invoices.allocate order invoice db (Invoices.mkItem (SOItem.id line) q)
           = Ok db' /\
           InvoiceItem.so_item_id ev = SOItem.id line /\
           InvoiceItem.quantity_invoiced ev = q /\
           InvoiceItem.invoice_id ev = Invoice.id invoice /\
           invoice_items db' = (invoice_items db ++ [ev])%list /\
           shipment_items db' = shipment_items db /\
           same_documents_but_events db db') /\
       (forall iso year request db1,
           Sql.int32 (Invoices.salesOrderId request) = true ->
           select_sales_order db (Invoices.salesOrderId request) = [order] ->
           Forall (fun s => (String.length s < Py.int_max_str_digits)%nat)
                  (map Invoice.invoice_number (invoices db)) ->
           Invoices.new_invoice iso year request order db = Ok invoice ->
           Invoices.flush_invoice db invoice = Ok db1 ->
           Invoices.items request = [Invoices.mkItem (SOItem.id line) q] ->
           exists db',
             Invoices.create_invoice iso year request db
             = (db', Success (Invoice.invoice_number invoice)) /\
             recorded invoice_track db' (SOItem.id line)
             = (recorded invoice_track db (SOItem.id line) ++ [q])%list)).
Proof.
  intros db order line q Hsel Hown Hline.
  split; [| split; [| split]].
  - intros shipment reason Hcase.
    assert (Hstep : Shipments.allocate order shipment db (Shipments.mkItem (SOItem.id line) q)
                    = Raise reason).
    { rewrite (ship_allocate_on_line _ _ _ _ _ Hsel Hown Hline).
      destruct Hcase as [[Hgt ->] | (Hle & Hq & ->)]; decide_capacity; [reflexivity |].
      now rewrite Hq. }
    split; [exact Hstep |].
    intros iso request db0 pre post Hkey Ho Hnew Hitems Hpre.
    eapply create_shipment_raise; eauto.
  - intros Hle Hq shipment. split.
    + rewrite (ship_allocate_on_line _ _ _ _ _ Hsel Hown Hline).
      decide_capacity. rewrite Hq.
      exists (ShipmentItem.mk (Sql.next_id (map ShipmentItem.id (shipment_items db)))
                              (Shipment.id shipment) (SOItem.id line) q).
      eexists. split; [reflexivity |].
      unfold same_documents_but_events. cbn. auto 10.
    + intros iso request Hkey Ho Hnew Hitems.
      eapply ship_single_item_committed; eauto.
  - intros invoice reason Hcase.
    assert (Hstep : Invoices.allocate order invoice db (Invoices.mkItem (SOItem.id line) q)
                    = Raise reason).
    { rewrite (bill_allocate_on_line _ _ _ _ _ Hsel Hown Hline).
      destruct Hcase as [[Hgt ->] | (Hle & Hq & ->)]; decide_capacity; [reflexivity |].
      now rewrite Hq. }
    split; [exact Hstep |].
    intros iso year request db0 db1 pre post Hkey Ho _ Hnew Hflush Hitems Hpre.
    eapply create_invoice_raise; eauto.
  - intros Hle Hq invoice. split.
    + rewrite (bill_allocate_on_line _ _ _ _ _ Hsel Hown Hline).
      decide_capacity. rewrite Hq.
      exists (InvoiceItem.mk (Sql.next_id (map InvoiceItem.id (invoice_items db)))
                             (Invoice.id invoice) (SOItem.id line) q).
      eexists. split; [reflexivity |].
      unfold same_documents_but_events. cbn. auto 10.
    + intros iso year request db1 Hkey Ho _ Hnew Hflush Hitems.
      eapply bill_single_item_committed; eauto.
Qed.

Lemma allocation_checks_capacity_witness :
  Shipments.create_shipment sample_iso
    (Shipments.mkRequest 1 "2025-03-01" "dhl" None [Shipments.mkItem 2 5; Shipments.mkItem 1 11])
    sample_db
  = (sample_db, Failed (CapacityExceeded 1)) /\
  exists ev db',
    Invoices.allocate (sample_order 1 "SO-2025-001") (sample_invoice "INV-2025-001") sample_db
                      (Invoices.mkItem 1 10)
    = Ok db' /\
    InvoiceItem.quantity_invoiced ev = 10 /\
    invoice_items db' = (invoice_items sample_db ++ [ev])%list.
Proof.
  split.
  - pose (db := Shipments.add_shipment_item
                  (Shipments.add_shipment sample_db (Shipment.mk 1 1 "dhl" (Some 0) None))
                  (ShipmentItem.mk 1 1 2 5)).
    destruct (allocation_checks_capacity db (sample_order 1 "SO-2025-001")
                (SOItem.mk 1 1 7 10 1000 1000) 11 eq_refl eq_refl eq_refl) as (Hrej & _).
    destruct (Hrej (Shipment.mk 1 1 "dhl" (Some 0) None) (CapacityExceeded 1)
                   ltac:(left; split; [vm_compute; reflexivity | reflexivity]))
      as (_ & Hreq).
    apply (Hreq sample_iso
             (Shipments.mkRequest 1 "2025-03-01" "dhl" None
                [Shipments.mkItem 2 5; Shipments.mkItem 1 11])
             sample_db [Shipments.mkItem 2 5] []); reflexivity.
  - destruct (allocation_checks_capacity sample_db (sample_order 1 "SO-2025-001")
                (SOItem.mk 1 1 7 10 1000 1000) 10 eq_refl eq_refl eq_refl) as (_ & _ & _ & Hacc).
    destruct (Hacc ltac:(vm_compute; discriminate) eq_refl (sample_invoice "INV-2025-001"))
      as ((ev & db' & H1 & _ & H2 & _ & H3 & _) & _).
    exists ev, db'. auto.
Defined.

(** C1, counterexample. A quantity within the capacity of the line and
    below the 32 bits of the column is not recorded: the shipment and the
    invoice request are refused by the driver and leave the database as
    they found it. And a committed shipment request is answered with a
    message, not with the event. *)
Lemma quantity_outside_the_column_is_refused :
  consumed shipment_track sample_db 1 + -2147483649 <= 10 /\
  Shipments.create_shipment sample_iso
    (Shipments.mkRequest 1 "2025-03-01" "dhl" None [Shipments.mkItem 1 (-2147483649)])
    sample_db
  = (sample_db, Failed DBAPIError) /\
  Invoices.create_invoice sample_iso 2025
    (Invoices.mkRequest 1 "2025-03-01" "2025-04-01" None [Invoices.mkItem 1 (-2147483649)])
    sample_db
  = (sample_db, Failed DBAPIError) /\
  snd (Shipments.create_shipment sample_iso
         (Shipments.mkRequest 1 "2025-03-01" "dhl" None [Shipments.mkItem 1 4]) sample_db)
  = Success "Shipment created successfully".
Proof.
  split; [vm_compute; discriminate |]. repeat split.
Qed.

(** C2. Requests served one after the other, from a database with no
    event recorded for a line on a track: the events recorded for the line
    are exactly the quantities of the accepted requests; their sum never
    exceeds the ordered quantity; and a request that would push the sum
    above the ordered quantity is rejected and leaves the database, hence
    the events, as they were. *)
Theorem capacity_invariant :
  forall iso year (tr : Track) (calls : list Call) (db : DB) (line : SOItem.t),
    In line (so_items db) ->
    recorded tr db (SOItem.id line) = [] ->
    0 <= SOItem.quantity line ->
    recorded tr (fst (run iso year calls db)) (SOItem.id line)
    = flat_map (quantities_on tr (SOItem.id line)) (snd (run iso year calls db)) /\
    total (flat_map (quantities_on tr (SOItem.id line)) (snd (run iso year calls db)))
    <= SOItem.quantity line /\
    (forall pre c,
        total (flat_map (quantities_on tr (SOItem.id line)) (snd (run iso year pre db)))
        + total (quantities_on tr (SOItem.id line) c) > SOItem.quantity line ->
        perform iso year c (fst (run iso year pre db)) = (fst (run iso year pre db), false)).
Proof.
  intros iso year tr calls db line Hin Hnone Hq.
  assert (H0 : consumed tr db (SOItem.id line) <= SOItem.quantity line).
  { unfold consumed. rewrite Hnone. exact Hq. }
  destruct (run_ledger iso year tr line calls db Hin H0) as (_ & Hrec & Hle).
  rewrite Hnone in Hrec. cbn [app] in Hrec.
  split; [exact Hrec | split].
  - unfold consumed in Hle. now rewrite Hrec in Hle.
  - intros pre c Hgt.
    destruct (run_ledger iso year tr line pre db Hin H0) as (Hin1 & Hrec1 & Hle1).
    rewrite Hnone in Hrec1. cbn [app] in Hrec1.
    destruct (perform_cases iso year c (fst (run iso year pre db)))
      as [Hrej | (db' & _ & _ & Hrec' & Hinv)]; [exact Hrej | exfalso].
    specialize (Hinv tr line Hin1 Hle1). unfold consumed in Hinv.
    rewrite Hrec', total_app, Hrec1 in Hinv. lia.
Qed.

Lemma capacity_invariant_witness :
  recorded shipment_track
    (fst (run sample_iso 2025
            [Ship (Shipments.mkRequest 1 "" "dhl" None [Shipments.mkItem 1 4]);
             Ship (Shipments.mkRequest 1 "" "dhl" None [Shipments.mkItem 1 7]);
             Ship (Shipments.mkRequest 1 "" "dhl" None [Shipments.mkItem 1 6])]
            sample_db)) 1
  = [4; 6].
Proof.
  destruct (capacity_invariant sample_iso 2025 shipment_track
              [Ship (Shipments.mkRequest 1 "" "dhl" None [Shipments.mkItem 1 4]);
               Ship (Shipments.mkRequest 1 "" "dhl" None [Shipments.mkItem 1 7]);
               Ship (Shipments.mkRequest 1 "" "dhl" None [Shipments.mkItem 1 6])]
              sample_db (SOItem.mk 1 1 7 10 1000 1000)
              ltac:(left; reflexivity) eq_refl ltac:(cbn; lia)) as (Hrec & _).
  cbn [SOItem.id] in Hrec. rewrite Hrec. vm_compute. reflexivity.
Defined.

(** C6, as the code has it. Nothing rejects a quantity for being zero or
    negative. On an existing line of the order that is within capacity, an
    allocation of a quantity [q <= 0] that fits the 32 bits of the column is
    accepted and adds one event carrying [q], and a request made of that
    one item is committed (an invoice request on a table whose invoice
    numbers have fewer than 4300 characters, the size Python formats); a
    quantity below the 32 bits is refused by the driver, as any value
    outside the column is, and not for its sign. *)
Theorem nonpositive_quantity_is_allocated :
  forall (db : DB) (order : SalesOrder.t) (line : SOItem.t) (q : Z),
    select_so_item db (SOItem.id line) = [line] ->
    SOItem.sales_order_id line = SalesOrder.id order ->
    Sql.int32 (SOItem.id line) = true ->
    q <= 0 ->
    (consumed shipment_track db (SOItem.id line) <= SOItem.quantity line ->
     (-2147483648 <= q ->
      (forall shipment,
          exists ev,
            Shipments.allocate order shipment db (Shipments.mkItem (SOItem.id line) q)
            = Ok (Shipments.add_shipment_item db ev) /\
            ShipmentItem.quantity_shipped ev = q) /\
      (forall iso request shipment,
          Sql.int32 (Shipments.salesOrderId request) = true ->
          select_sales_order db (Shipments.salesOrderId request) = [order] ->
          Shipments.new_shipment iso request db = Ok shipment ->
          Shipments.items request = [Shipments.mkItem (SOItem.id line) q] ->
          exists db',
            Shipments.create_shipment iso request db
            = (db', Success "Shipment created successfully") /\
            recorded shipment_track db' (SOItem.id line)
            = (recorded shipment_track db (SOItem.id line) ++ [q])%list)) /\
     (q < -2147483648 ->
      forall shipment,
        Shipments.allocate order shipment db (Shipments.mkItem (SOItem.id line) q)
        = Raise DBAPIError)) /\
    (consumed invoice_track db (SOItem.id line) <= SOItem.quantity line ->
     (-2147483648 <= q ->
      (forall invoice,
          exists ev,
            Invoices.allocate order invoice db (Invoices.mkItem (SOItem.id line) q)
            = Ok (Invoices.add_invoice_item db ev) /\
            InvoiceItem.quantity_invoiced ev = q) /\
      (forall iso year request invoice db1,
          Sql.int32 (Invoices.salesOrderId request) = true ->
          select_sales_order db (Invoices.salesOrderId request) = [order] ->
          Forall (fun s => (String.length s < Py.int_max_str_digits)%nat)
                 (map Invoice.invoice_number (invoices db)) ->
          Invoices.new_invoice iso year request order db = Ok invoice ->
          Invoices.flush_invoice db invoice = Ok db1 ->
          Invoices.items request = [Invoices.mkItem (SOItem.id line) q] ->
          exists db',
            Invoices.create_invoice iso year request db
            = (db', Success (Invoice.invoice_number invoice)) /\
            recorded invoice_track db' (SOItem.id line)
            = (recorded invoice_track db (SOItem.id line) ++ [q])%list)) /\
     (q < -2147483648 ->
      forall invoice,
        Invoices.allocate order invoice db (Invoices.mkItem (SOItem.id line) q)
        = Raise DBAPIError)).
Proof.
  intros db order line q Hsel Hown Hline Hq.
  assert (Hin : -2147483648 <= q -> Sql.int32 q = true).
  { intros H. unfold Sql.int32. apply andb_true_intro. split; apply Z.leb_le; lia. }
  assert (Hout : q < -2147483648 -> Sql.int32 q = false).
  { intros H. unfold Sql.int32. apply andb_false_intro1. apply Z.leb_gt. lia. }
  split.
  - intros Hle. split.
    + intros Hlow. split.
      * intros shipment. rewrite (ship_allocate_on_line _ _ _ _ _ Hsel Hown Hline).
        decide_capacity. rewrite (Hin Hlow).
        eexists. split; reflexivity.
      * intros iso request shipment Hkey Ho Hnew Hitems.
        eapply ship_single_item_committed; eauto. lia.
    + intros Hlow shipment. rewrite (ship_allocate_on_line _ _ _ _ _ Hsel Hown Hline).
      decide_capacity. now rewrite (Hout Hlow).
  - intros Hle. split.
    + intros Hlow. split.
      * intros invoice. rewrite (bill_allocate_on_line _ _ _ _ _ Hsel Hown Hline).
        decide_capacity. rewrite (Hin Hlow).
        eexists. split; reflexivity.
      * intros iso year request invoice db1 Hkey Ho _ Hnew Hflush Hitems.
        eapply bill_single_item_committed; eauto. lia.
    + intros Hlow invoice. rewrite (bill_allocate_on_line _ _ _ _ _ Hsel Hown Hline).
      decide_capacity. now rewrite (Hout Hlow).
Qed.

Lemma nonpositive_quantity_is_allocated_witness :
  exists db',
    Shipments.create_shipment sample_iso
      (Shipments.mkRequest 1 "2025-03-01" "dhl" None [Shipments.mkItem 1 (-3)]) sample_db
    = (db', Success "Shipment created successfully") /\
    recorded shipment_track db' 1 = [-3].
Proof.
  destruct (nonpositive_quantity_is_allocated sample_db (sample_order 1 "SO-2025-001")
              (SOItem.mk 1 1 7 10 1000 1000) (-3) eq_refl eq_refl eq_refl ltac:(lia))
    as (Hship & _).
  destruct (Hship ltac:(vm_compute; discriminate)) as (Hacc & _).
  destruct (Hacc ltac:(lia)) as (_ & Hreq).
  apply (Hreq sample_iso
           (Shipments.mkRequest 1 "2025-03-01" "dhl" None [Shipments.mkItem 1 (-3)])
           (Shipment.mk 1 1 "dhl" (Some 0) None)); reflexivity.
Defined.

(** C6, counterexample. A shipment of quantity 0 on one line and of
    quantity -3 on another is accepted, and both events are recorded. *)
Lemma nonpositive_quantity_not_rejected :
  exists db',
    Shipments.create_shipment sample_iso
      (Shipments.mkRequest 1 "2025-03-01" "dhl" None
         [Shipments.mkItem 1 0; Shipments.mkItem 2 (-3)]) sample_db
    = (db', Success "Shipment created successfully") /\
    recorded shipment_track db' 1 = [0] /\
    recorded shipment_track db' 2 = [-3] /\
    exists db'',
      Invoices.create_invoice sample_iso 2025
        (Invoices.mkRequest 1 "2025-03-01" "2025-04-01" None [Invoices.mkItem 1 (-3)]) sample_db
      = (db'', Success "INV-2025-001") /\
      recorded invoice_track db'' 1 = [-3].
Proof.
  eexists. split; [vm_compute; reflexivity |].
  split; [reflexivity |]. split; [reflexivity |].
  eexists. split; [vm_compute; reflexivity | reflexivity].
Qed.

(* ================================================================== *)
(** ** Status aggregator *)

Lemma ship_status_loop db items :
  forall fully has_partial,
    Shipments.status_loop db items fully has_partial
    = (fully && forallb (fun l => negb (consumed shipment_track db (SOItem.id l)
                                          <? SOItem.quantity l)) items,
       has_partial || existsb (fun l => consumed shipment_track db (SOItem.id l) >? 0) items).
Proof.
  induction items as [| l items IH]; intros fully has_partial; cbn [Shipments.status_loop].
  - cbn. now rewrite andb_true_r, orb_false_r.
  - rewrite IH, shipped_qty_consumed. cbn [forallb existsb].
    destruct (_ <? _), (_ >? _), fully, has_partial; reflexivity.
Qed.

Lemma bill_status_loop db items :
  forall fully has_partial,
    Invoices.status_loop db items fully has_partial
    = (fully && forallb (fun l => negb (consumed invoice_track db (SOItem.id l)
                                          <? SOItem.quantity l)) items,
       has_partial || existsb (fun l => consumed invoice_track db (SOItem.id l) >? 0) items).
Proof.
  induction items as [| l items IH]; intros fully has_partial; cbn [Invoices.status_loop].
  - cbn. now rewrite andb_true_r, orb_false_r.
  - rewrite IH, invoiced_qty_consumed. cbn [forallb existsb].
    destruct (_ <? _), (_ >? _), fully, has_partial; reflexivity.
Qed.

(** On lines within capacity, "not below the ordered quantity" is "equal to
    the ordered quantity". *)
Lemma forallb_reached_is_equal tr db lines :
  within_capacity tr db lines ->
  forallb (fun l => negb (consumed tr db (SOItem.id l) <? SOItem.quantity l)) lines
  = forallb (fun l => consumed tr db (SOItem.id l) =? SOItem.quantity l) lines.
Proof.
  induction lines as [| l lines IH]; intros Hcap; [reflexivity |].
  cbn [forallb]. rewrite IH by (intros l' Hl'; apply Hcap; now right).
  f_equal. specialize (Hcap l (or_introl eq_refl)).
  destruct (_ <? _) eqn:E1, (_ =? _) eqn:E2; cbn [negb]; try reflexivity.
  - apply Z.ltb_lt in E1. apply Z.eqb_eq in E2. lia.
  - apply Z.ltb_ge in E1. apply Z.eqb_neq in E2. lia.
Qed.

Lemma ship_derive_status_spec db lines :
  lines <> [] ->
  within_capacity shipment_track db lines ->
  Shipments.derive_status db lines
  = to_shipment_status (deriveStatus_spec lines (consumed shipment_track db)).
Proof.
  intros Hne Hcap. unfold Shipments.derive_status, deriveStatus_spec.
  rewrite ship_status_loop, (forallb_reached_is_equal _ _ _ Hcap).
  destruct lines as [| l lines]; [congruence |].
  cbn [andb orb]. destruct (forallb _ _); [reflexivity |].
  destruct (existsb _ _); reflexivity.
Qed.

Lemma bill_derive_status_spec db lines :
  lines <> [] ->
  within_capacity invoice_track db lines ->
  Invoices.derive_status db lines
  = to_invoice_status (deriveStatus_spec lines (consumed invoice_track db)).
Proof.
  intros Hne Hcap. unfold Invoices.derive_status, deriveStatus_spec.
  rewrite bill_status_loop, (forallb_reached_is_equal _ _ _ Hcap).
  destruct lines as [| l lines]; [congruence |].
  cbn [andb orb]. destruct (forallb _ _); [reflexivity |].
  destruct (existsb _ _); reflexivity.
Qed.

Lemma select_updated_sales_order db order_id f :
  (forall o, SalesOrder.id (f o) = SalesOrder.id o) ->
  select_sales_order (update_sales_order db order_id f) order_id
  = map f (select_sales_order db order_id).
Proof.
  intros Hid. unfold select_sales_order, update_sales_order. cbn [sales_orders].
  induction (sales_orders db) as [| o os IH]; [reflexivity |].
  cbn [map filter]. destruct (SalesOrder.id o =? order_id) eqn:E.
  - rewrite Hid, E. cbn [map]. now rewrite IH.
  - rewrite E. exact IH.
Qed.

(** C3. After a successful fulfillment request on an order with at least
    one line, all of them within capacity when the request arrives, the row
    of the order in the committed database has, in the status field of the
    affected track, the status recomputed from the events the database now
    holds: complete when every line is consumed exactly, else partial when
    some line is consumed at all, else none. The status of the other track,
    the number of the order and its lines are as before, and the lines are
    still within capacity. *)
Theorem status_after_fulfillment :
  forall iso year (db : DB) (order : SalesOrder.t),
    select_sales_order db (SalesOrder.id order) = [order] ->
    items_of db order <> [] ->
    (forall request db' msg,
        Shipments.salesOrderId request = SalesOrder.id order ->
        within_capacity shipment_track db (items_of db order) ->
        Shipments.create_shipment iso request db = (db', Success msg) ->
        exists stored,
          select_sales_order db' (SalesOrder.id order) = [stored] /\
          SalesOrder.shipment_status stored
          = to_shipment_status
              (deriveStatus_spec (items_of db' stored) (consumed shipment_track db')) /\
          SalesOrder.invoice_status stored = SalesOrder.invoice_status order /\
          SalesOrder.order_number stored = SalesOrder.order_number order /\
          items_of db' stored = items_of db order /\
          within_capacity shipment_track db' (items_of db' stored)) /\
    (forall request db' number,
        Invoices.salesOrderId request = SalesOrder.id order ->
        within_capacity invoice_track db (items_of db order) ->
        Invoices.create_invoice iso year request db = (db', Success number) ->
        exists stored,
          select_sales_order db' (SalesOrder.id order) = [stored] /\
          SalesOrder.invoice_status stored
          = to_invoice_status
              (deriveStatus_spec (items_of db' stored) (consumed invoice_track db')) /\
          SalesOrder.shipment_status stored = SalesOrder.shipment_status order /\
          SalesOrder.order_number stored = SalesOrder.order_number order /\
          items_of db' stored = items_of db order /\
          within_capacity invoice_track db' (items_of db' stored)).
Proof.
  intros iso year db order Hsel Hne. split.
  - intros request db' msg Hid Hcap H.
    destruct (create_shipment_success _ _ _ _ _ H)
      as (order0 & shipment & db1 & Hsel0 & _ & Hloop & ->).
    rewrite Hid, Hsel in Hsel0. inversion Hsel0; subst order0.
    destruct (ship_for_each_ok _ _ _ _ _ Hloop) as ((Ho & Hi & _) & _ & _ & Hinv).
    cbn [Shipments.add_shipment sales_orders so_items] in Ho, Hi.
    assert (Hcap1 : within_capacity shipment_track db1 (items_of db order)).
    { intros l Hl. apply Hinv; [| exact (Hcap l Hl)].
      cbn [Shipments.add_shipment so_items]. unfold items_of in Hl.
      now apply filter_In in Hl. }
    exists (SalesOrder.set_shipment_status
              (Shipments.derive_status db1 (items_of db order)) order).
    assert (Hitems : items_of
                       (update_sales_order db1 (SalesOrder.id order)
                          (SalesOrder.set_shipment_status
                             (Shipments.derive_status db1 (items_of db order))))
                       (SalesOrder.set_shipment_status
                          (Shipments.derive_status db1 (items_of db order)) order)
                     = items_of db order).
    { unfold items_of. cbn [update_sales_order so_items SalesOrder.set_shipment_status
                            SalesOrder.id]. now rewrite Hi. }
    rewrite Hitems. split; [| split; [| split; [| split; [| split]]]];
      try reflexivity.
    + rewrite select_updated_sales_order by reflexivity.
      unfold select_sales_order in *. rewrite Ho, Hsel. reflexivity.
    + cbn [SalesOrder.shipment_status SalesOrder.set_shipment_status].
      rewrite (ship_derive_status_spec _ _ Hne Hcap1). reflexivity.
    + exact Hcap1.
  - intros request db' number Hid Hcap H.
    destruct (create_invoice_success _ _ _ _ _ _ H)
      as (order0 & invoice & db0 & db1 & Hsel0 & _ & Hflush & Hloop & ->).
    rewrite Hid, Hsel in Hsel0. inversion Hsel0; subst order0.
    destruct (flush_invoice_ok _ _ _ Hflush) as (Ho0 & Hi0 & _ & Hv0).
    destruct (bill_for_each_ok _ _ _ _ _ Hloop) as ((Ho & Hi & _) & _ & _ & Hinv).
    assert (Hcap1 : within_capacity invoice_track db1 (items_of db order)).
    { intros l Hl. apply Hinv.
      - rewrite Hi0. unfold items_of in Hl. now apply filter_In in Hl.
      - unfold consumed, recorded. rewrite Hv0. exact (Hcap l Hl). }
    exists (SalesOrder.set_invoice_status
              (Invoices.derive_status db1 (items_of db order)) order).
    assert (Hitems : items_of
                       (update_sales_order db1 (SalesOrder.id order)
                          (SalesOrder.set_invoice_status
                             (Invoices.derive_status db1 (items_of db order))))
                       (SalesOrder.set_invoice_status
                          (Invoices.derive_status db1 (items_of db order)) order)
                     = items_of db order).
    { unfold items_of. cbn [update_sales_order so_items SalesOrder.set_invoice_status
                            SalesOrder.id]. now rewrite Hi, Hi0. }
    rewrite Hitems. split; [| split; [| split; [| split; [| split]]]];
      try reflexivity.
    + rewrite select_updated_sales_order by reflexivity.
      unfold select_sales_order in *. rewrite Ho, Ho0, Hsel. reflexivity.
    + cbn [SalesOrder.invoice_status SalesOrder.set_invoice_status].
      rewrite (bill_derive_status_spec _ _ Hne Hcap1). reflexivity.
    + exact Hcap1.
Qed.

Lemma status_after_fulfillment_witness :
  exists db' stored,
    Shipments.create_shipment sample_iso
      (Shipments.mkRequest 1 "2025-03-01" "dhl" None [Shipments.mkItem 1 4]) sample_db
    = (db', Success "Shipment created successfully") /\
    SalesOrder.shipment_status (sample_order 1 "SO-2025-001") = not_shipped /\
    select_sales_order db' 1 = [stored] /\
    SalesOrder.shipment_status stored = shipment_partial.
Proof.
  destruct (status_after_fulfillment sample_iso 2025 sample_db (sample_order 1 "SO-2025-001")
              eq_refl ltac:(discriminate)) as (Hship & _).
  pose (request := Shipments.mkRequest 1 "2025-03-01" "dhl" None [Shipments.mkItem 1 4]).
  destruct (Shipments.create_shipment sample_iso request sample_db) as [db' resp] eqn:Hreq.
  assert (Hresp : resp = Success "Shipment created successfully")
    by (vm_compute in Hreq; now inversion Hreq).
  subst resp.
  destruct (Hship request db' _ eq_refl
              ltac:(intros l Hl; vm_compute in Hl;
                    destruct Hl as [<- | [<- | []]]; vm_compute; discriminate)
              Hreq)
    as (stored & Hsel & Hst & _ & _ & Hitems & _).
  exists db', stored. split; [exact Hreq | split; [reflexivity | split; [exact Hsel |]]].
  rewrite Hst, Hitems. vm_compute in Hreq. inversion Hreq; subst db'. reflexivity.
Defined.

(** C4. For an order without lines the loop leaves [fully_shipped] and
    [fully_invoiced] at [True]: the status derived is complete on both
    tracks, where the specification asks for none. A shipment without items
    on the line-less order 2 of the sample database marks it [shipped]. *)
Theorem order_without_lines_is_derived_complete :
  (forall db, Shipments.derive_status db [] = shipped) /\
  (forall db, Invoices.derive_status db [] = invoiced) /\
  (forall consumed_of, deriveStatus_spec [] consumed_of = agg_none) /\
  items_of sample_db (sample_order 2 "SO-2025-002") = [] /\
  map SalesOrder.shipment_status
      (select_sales_order
         (fst (Shipments.create_shipment sample_iso
                 (Shipments.mkRequest 2 "2025-03-01" "dhl" None []) sample_db)) 2)
  = [shipped] /\
  map SalesOrder.invoice_status
      (select_sales_order
         (fst (Invoices.create_invoice sample_iso 2025
                 (Invoices.mkRequest 2 "2025-03-01" "2025-04-01" None []) sample_db)) 2)
  = [invoiced].
Proof. repeat split. Qed.

(* ================================================================== *)
(** ** Order totals *)




(* ================================================================== *)
(** ** Further properties of the sequence generators *)

Lemma split_not_nil sep s : Py.split sep s <> [].
Proof.
  induction s as [| c r IH]; cbn; [discriminate |].
  destruct (c =? sep)%char; [discriminate |].
  destruct (Py.split sep r); discriminate.
Qed.

Lemma index_last_cons {A : Type} (x : A) (l : list A) :
  l <> [] -> Py.index_last (x :: l) = Py.index_last l.
Proof.
  intros Hl. unfold Py.index_last. cbn [rev].
  destruct (rev l) as [| y ys] eqn:E.
  - apply (f_equal (@rev A)) in E. rewrite rev_involutive in E. now subst.
  - reflexivity.
Qed.

(** The segments [split] cuts contain no separator. *)
Lemma split_segments_free sep s :
  forall seg, In seg (Py.split sep s) -> occurs sep seg = false.
Proof.
  induction s as [| c r IH]; cbn [Py.split]; intros seg Hin.
  - destruct Hin as [<- | []]. reflexivity.
  - destruct (c =? sep)%char eqn:E.
    + destruct Hin as [<- | Hin]; [reflexivity | now apply IH].
    + destruct (Py.split sep r) as [| seg0 segs] eqn:Es.
      * destruct Hin as [<- | []]. cbn. now rewrite E.
      * destruct Hin as [<- | Hin].
        -- cbn. rewrite E. apply IH. now left.
        -- apply IH. now right.
Qed.

Lemma index_last_in {A : Type} (l : list A) (x : A) : Py.index_last l = Ok x -> In x l.
Proof.
  unfold Py.index_last. destruct (rev l) as [| y ys] eqn:E; intros H; inversion H; subst.
  apply in_rev. rewrite E. now left.
Qed.

(** A string without the separator is its own last segment, also behind
    any text that ends in the separator. *)
Lemma split_free sep f : occurs sep f = false -> Py.split sep f = [f].
Proof.
  induction f as [| c r IH]; cbn; intros H; [reflexivity |].
  apply orb_false_iff in H. destruct H as (Hc & Hr).
  rewrite Hc, (IH Hr). reflexivity.
Qed.

Lemma split_after_separator sep a f :
  exists seg segs, Py.split sep (a ++ String sep f) = seg :: segs /\ segs <> [].
Proof.
  induction a as [| c a IH]; cbn [append Py.split].
  - rewrite Ascii.eqb_refl. eexists. eexists. split; [reflexivity | apply split_not_nil].
  - destruct (c =? sep)%char.
    + eexists. eexists. split; [reflexivity | apply split_not_nil].
    + destruct IH as (seg & segs & -> & Hne). eexists. eexists. split; [reflexivity | exact Hne].
Qed.

Lemma last_segment_after sep a f :
  Py.index_last (Py.split sep (a ++ String sep f)) = Py.index_last (Py.split sep f).
Proof.
  induction a as [| c a IH]; cbn [append Py.split].
  - rewrite Ascii.eqb_refl. apply index_last_cons, split_not_nil.
  - destruct (c =? sep)%char.
    + rewrite index_last_cons by apply split_not_nil. exact IH.
    + destruct (split_after_separator sep a f) as (seg & segs & E & Hne).
      rewrite E in *. rewrite index_last_cons by exact Hne.
      rewrite index_last_cons in IH by exact Hne. exact IH.
Qed.

Lemma last_segment_of_number p f :
  occurs "-" f = false ->
  Py.index_last (Py.split "-" (p ++ "-" ++ f)) = Ok f.
Proof.
  intros Hf. change (p ++ "-" ++ f)%string with (p ++ String "-" f)%string.
  rewrite last_segment_after, (split_free _ _ Hf). reflexivity.
Qed.

Lemma digit_is_not_dash c d : Py.digit_val c = Some d -> (c =? "-")%char = false.
Proof.
  destruct c as [[] [] [] [] [] [] [] []]; cbn; intros H;
    first [reflexivity | discriminate H].
Qed.

Lemma all_digits_no_dash s : all_digits s = true -> occurs "-" s = false.
Proof.
  induction s as [| c r IH]; [reflexivity |]. cbn.
  destruct (Py.digit_val c) eqn:E; [| discriminate].
  intros H. now rewrite (digit_is_not_dash _ _ E), (IH H).
Qed.

Lemma all_digits_zfill w n : 0 <= n -> all_digits (Py.zfill w (Py.digits n)) = true.
Proof.
  intros H. unfold Py.zfill.
  now rewrite all_digits_app, all_digits_zeros, all_digits_digits.
Qed.

Lemma int_digits_nonneg s :
  forall acc p v, 0 <= acc -> Py.int_digits s acc p = Some v -> 0 <= v.
Proof.
  induction s as [| c r IH]; intros acc p v Hacc; cbn [Py.int_digits].
  - destruct p; intros H; inversion H; now subst.
  - destruct (Py.digit_val c) as [d |] eqn:E.
    + apply IH. unfold Py.digit_val in E.
      destruct (_ && _) eqn:B; [| discriminate]. inversion E; subst.
      apply andb_true_iff in B. destruct B as (B1 & B2). apply Z.leb_le in B1. lia.
    + destruct ((c =? "_")%char && p); [now apply IH | discriminate].
Qed.

Lemma occurs_lstrip c s : occurs c s = false -> occurs c (Py.lstrip s) = false.
Proof.
  induction s as [| d r IH]; [reflexivity |]. cbn [Py.lstrip].
  destruct (Py.isspace d); [| auto].
  cbn. intros H. apply orb_false_iff in H. now apply IH.
Qed.

Lemma occurs_rstrip c s : occurs c s = false -> occurs c (Py.rstrip s) = false.
Proof.
  induction s as [| d r IH]; [reflexivity |]. cbn [Py.rstrip occurs].
  intros H. apply orb_false_iff in H. destruct H as (Hd & Hr).
  specialize (IH Hr). destruct (Py.rstrip r) as [| e r'].
  - destruct (Py.isspace d); [reflexivity | cbn; now rewrite Hd].
  - cbn [occurs]. now rewrite Hd.
Qed.

(** [int] of a text without a minus sign is not negative. *)
Lemma int_opt_nonneg s v : occurs "-" s = false -> Py.int_opt s = Some v -> 0 <= v.
Proof.
  intros Hs. unfold Py.int_opt, Py.strip.
  pose proof (occurs_rstrip _ _ (occurs_lstrip _ _ Hs)) as Ht.
  destruct (Py.rstrip (Py.lstrip s)) as [| c r]; [discriminate |].
  cbn [occurs] in Ht. apply orb_false_iff in Ht. destruct Ht as (Hc & _).
  destruct c as [[] [] [] [] [] [] [] []]; try discriminate Hc;
    apply int_digits_nonneg; lia.
Qed.

(** The value [new_num] takes is at least 1, whatever the last stored
    number is. *)
Lemma new_num_positive last : exists n, new_num last = Ok n /\ 1 <= n.
Proof.
  destruct last as [s |]; cbn [new_num]; [| exists 1; split; [reflexivity | lia]].
  destruct (Py.truthy s); [| exists 1; split; [reflexivity | lia]].
  destruct (Py.index_last (Py.split "-" s)) as [seg | e] eqn:Hseg.
  - cbn [Py.bind]. unfold Py.int.
    destruct (Py.int_max_str_digits <? Py.count_digits seg)%nat;
      [exists 1; split; [reflexivity | lia] |].
    destruct (Py.int_opt seg) as [v |] eqn:Hint.
    + exists (v + 1). split; [reflexivity |].
      assert (0 <= v); [| lia].
      apply (int_opt_nonneg seg); [| exact Hint].
      apply (split_segments_free "-" s), index_last_in, Hseg.
    + exists 1. split; [reflexivity | lia].
  - exfalso. unfold Py.index_last in Hseg.
    destruct (rev (Py.split "-" s)) eqn:E; [| discriminate].
    apply (f_equal (@rev string)) in E. rewrite rev_involutive in E.
    now apply (split_not_nil "-" s).
Qed.

Lemma order_by_desc_limit_1_short rows :
  exists r, Sql.scalar_one_or_none (Sql.order_by_desc_limit_1 rows) = Ok r.
Proof. destruct rows; eexists; reflexivity. Qed.

(** *** The size of the numbers *)

Lemma length_lstrip s : (String.length (Py.lstrip s) <= String.length s)%nat.
Proof.
  induction s as [| c r IH]; [apply Nat.le_refl |]. cbn [Py.lstrip].
  destruct (Py.isspace c); [| apply Nat.le_refl]. cbn [String.length]. lia.
Qed.

Lemma length_rstrip s : (String.length (Py.rstrip s) <= String.length s)%nat.
Proof.
  induction s as [| c r IH]; [apply Nat.le_refl |]. cbn [Py.rstrip].
  destruct (Py.rstrip r) as [| d r'].
  - destruct (Py.isspace c); cbn [String.length] in *; lia.
  - cbn [String.length] in *. lia.
Qed.

Lemma length_strip s : (String.length (Py.strip s) <= String.length s)%nat.
Proof.
  unfold Py.strip. etransitivity; [apply length_rstrip | apply length_lstrip].
Qed.

Lemma length_split_segment sep s :
  forall seg, In seg (Py.split sep s) -> (String.length seg <= String.length s)%nat.
Proof.
  induction s as [| c r IH]; cbn [Py.split]; intros seg Hin.
  - destruct Hin as [<- | []]. apply Nat.le_refl.
  - destruct (c =? sep)%char.
    + destruct Hin as [<- | Hin]; cbn [String.length]; [lia |].
      specialize (IH _ Hin). lia.
    + destruct (Py.split sep r) as [| seg0 segs] eqn:Es.
      * destruct Hin as [<- | []]. cbn [String.length]. lia.
      * destruct Hin as [<- | Hin]; cbn [String.length].
        -- specialize (IH seg0 (or_introl eq_refl)). lia.
        -- specialize (IH seg (or_intror Hin)). lia.
Qed.

Lemma digit_val_bounds c d : Py.digit_val c = Some d -> 0 <= d <= 9.
Proof.
  unfold Py.digit_val. destruct (_ && _) eqn:B; [| discriminate].
  intros H. inversion H; subst. apply andb_true_iff in B. destruct B as (B1 & B2).
  apply Z.leb_le in B1. apply Z.leb_le in B2. lia.
Qed.

(** A numeral of [k] characters denotes a number below [10 ^ k]. *)
Lemma int_digits_below s :
  forall acc p v,
    0 <= acc ->
    Py.int_digits s acc p = Some v ->
    v < (acc + 1) * 10 ^ Z.of_nat (String.length s).
Proof.
  induction s as [| c r IH]; intros acc p v Hacc; cbn [Py.int_digits String.length].
  - destruct p; intros H; inversion H; subst. cbn. lia.
  - rewrite Nat2Z.inj_succ, Z.pow_succ_r by apply Nat2Z.is_nonneg.
    assert (Hpow : 0 < 10 ^ Z.of_nat (String.length r))
      by (apply Z.pow_pos_nonneg; [lia | apply Nat2Z.is_nonneg]).
    destruct (Py.digit_val c) as [d |] eqn:E.
    + intros H. apply digit_val_bounds in E.
      apply IH in H; [| lia]. nia.
    + destruct ((c =? "_")%char && p); [| discriminate].
      intros H. apply IH in H; [| exact Hacc]. nia.
Qed.

Lemma int_opt_below s v :
  Py.int_opt s = Some v -> v < 10 ^ Z.of_nat (String.length s).
Proof.
  unfold Py.int_opt. pose proof (length_strip s) as Hlen.
  assert (Hmono : forall k, (k <= String.length s)%nat ->
                            10 ^ Z.of_nat k <= 10 ^ Z.of_nat (String.length s))
    by (intros k Hk; apply Z.pow_le_mono_r; lia).
  assert (Hplain : forall t, (String.length t <= String.length s)%nat ->
                             Py.int_digits t 0 false = Some v ->
                             v < 10 ^ Z.of_nat (String.length s)).
  { intros t Ht H. apply int_digits_below in H; [| lia].
    specialize (Hmono _ Ht). lia. }
  destruct (Py.strip s) as [| c r] eqn:Et; [now apply Hplain |].
  assert (Hr : (String.length r <= String.length s)%nat)
    by (cbn [String.length] in Hlen; lia).
  assert (Hneg : option_map Z.opp (Py.int_digits r 0 false) = Some v ->
                 v < 10 ^ Z.of_nat (String.length s)).
  { destruct (Py.int_digits r 0 false) as [v' |] eqn:E; [| discriminate].
    cbn. intros H. inversion H; subst.
    apply int_digits_nonneg in E; [| lia].
    assert (0 < 10 ^ Z.of_nat (String.length s))
      by (apply Z.pow_pos_nonneg; [lia | apply Nat2Z.is_nonneg]).
    lia. }
  destruct c as [[] [] [] [] [] [] [] []];
    first [exact Hneg | now apply Hplain | apply Hplain; exact Hlen].
Qed.

(** The value of [new_num] after a stored number of at most [k] characters
    is at most [10 ^ k]. *)
Lemma new_num_below last n (k : nat) :
  (forall s, last = Some s -> (String.length s <= k)%nat) ->
  new_num last = Ok n ->
  n <= 10 ^ Z.of_nat k.
Proof.
  intros Hlen.
  assert (Hone : 1 <= 10 ^ Z.of_nat k)
    by (pose proof (Z.pow_pos_nonneg 10 (Z.of_nat k) ltac:(lia) (Nat2Z.is_nonneg k)); lia).
  destruct last as [s |]; cbn [new_num];
    [| intros H; inversion H; subst; exact Hone].
  specialize (Hlen s eq_refl).
  destruct (Py.truthy s); [| intros H; inversion H; subst; exact Hone].
  destruct (Py.index_last (Py.split "-" s)) as [seg | e] eqn:Hseg; cbn [Py.bind].
  - unfold Py.int.
    destruct (Py.int_max_str_digits <? Py.count_digits seg)%nat;
      [intros H; inversion H; subst; exact Hone |].
    destruct (Py.int_opt seg) as [v |] eqn:Hint;
      [| intros H; inversion H; subst; exact Hone].
    cbn. intros H. inversion H; subst n.
    apply int_opt_below in Hint.
    pose proof (length_split_segment "-" s seg (index_last_in _ _ Hseg)) as Hs.
    assert (10 ^ Z.of_nat (String.length seg) <= 10 ^ Z.of_nat k)
      by (apply Z.pow_le_mono_r; lia).
    lia.
  - destruct e; cbn; intros H; inversion H; subst; exact Hone.
Qed.

(** A positive number up to [10 ^ k] has at most [k + 1] digits. *)
Lemma length_digits_below n (k : nat) :
  1 <= n <= 10 ^ Z.of_nat k -> (String.length (Py.digits n) <= S k)%nat.
Proof.
  intros Hn. destruct (digits_spec n ltac:(lia)) as (_ & _ & _ & [Hz | Hlb]); [lia |].
  destruct (Nat.le_gt_cases (String.length (Py.digits n)) (S k)) as [Hle | Hgt];
    [exact Hle | exfalso].
  assert (10 ^ Z.of_nat (S k) <= 10 ^ (Z.of_nat (String.length (Py.digits n)) - 1))
    by (apply Z.pow_le_mono_r; lia).
  assert (10 ^ Z.of_nat k < 10 ^ Z.of_nat (S k))
    by (apply Z.pow_lt_mono_r; lia).
  lia.
Qed.

Lemma last_row_stored rows r s :
  Sql.scalar_one_or_none (Sql.order_by_desc_limit_1 rows) = Ok r ->
  r = Some s -> In s rows.
Proof.
  intros H ->. now apply order_by_desc_limit_1_largest in H.
Qed.

(** What the generators answer on a table whose numbers of the kind and
    year have at most [k] characters. *)
Lemma generate_well_formed (kind : string) (year : Z) (numbers : list string) (k : nat) :
  Forall (fun s => (String.length s <= k)%nat) numbers ->
  (S k <= Py.int_max_str_digits)%nat ->
  exists n,
    1 <= n /\
    (String.length (Py.digits n) <= Py.int_max_str_digits)%nat /\
    (last <- Sql.scalar_one_or_none
               (Sql.order_by_desc_limit_1
                  (filter (Sql.like_prefix (kind ++ Py.str year ++ "-")) numbers)) ;;
     n <- new_num last ;;
     Ok (kind ++ Py.str year ++ "-" ++ Py.format_03d n)%string)
    = Ok (kind ++ Py.str year ++ "-" ++ Py.format_03d n)%string /\
    Py.index_last (Py.split "-" (kind ++ Py.str year ++ "-" ++ Py.format_03d n))
    = Ok (Py.format_03d n) /\
    Py.int (Py.format_03d n) = Ok n.
Proof.
  intros Hshort Hk.
  destruct (order_by_desc_limit_1_short
              (filter (Sql.like_prefix (kind ++ Py.str year ++ "-")) numbers)) as (r & Hr).
  rewrite Hr. cbn [Py.bind].
  destruct (new_num_positive r) as (n & Hnew & Hn). rewrite Hnew. cbn [Py.bind].
  assert (Hbelow : n <= 10 ^ Z.of_nat k).
  { apply (new_num_below r); [| exact Hnew].
    intros s Hs. pose proof (last_row_stored _ _ _ Hr Hs) as Hin.
    apply filter_In in Hin as [Hin _]. rewrite Forall_forall in Hshort. now apply Hshort. }
  assert (Hdigits : (String.length (Py.digits n) <= Py.int_max_str_digits)%nat).
  { etransitivity; [apply (length_digits_below n k); lia | exact Hk]. }
  exists n. split; [exact Hn | split; [exact Hdigits | split; [reflexivity |]]].
  rewrite format_03d_nonneg by lia. split.
  - change (kind ++ Py.str year ++ "-" ++ Py.zfill 3 (Py.digits n))%string
      with (kind ++ (Py.str year ++ "-" ++ Py.zfill 3 (Py.digits n)))%string.
    rewrite <- string_app_assoc.
    apply last_segment_of_number, all_digits_no_dash, all_digits_zfill. lia.
  - apply int_of_numeral; [apply int_opt_zfill; lia |].
    rewrite length_zfill. unfold Py.int_max_str_digits in *. lia.
Qed.

(** X1. On a table whose stored numbers have fewer than 4300 characters
    the generators return: they answer [SO-year-field] and
    [INV-year-field] where [field] is the zero-padded numeral of a sequence
    number [n >= 1] of at most 4300 digits, the size up to which Python
    converts between [int] and [str]; the last [-]-separated segment of
    the answer is that field, and [int] reads it back as [n]. A number the
    generator produced is therefore never unparseable for the next call. *)
Theorem generated_numbers_are_well_formed :
  forall (year : Z) (db : DB),
    Forall (fun s => (String.length s < Py.int_max_str_digits)%nat)
           (map SalesOrder.order_number (sales_orders db)) ->
    Forall (fun s => (String.length s < Py.int_max_str_digits)%nat)
           (map Invoice.invoice_number (invoices db)) ->
    (exists n,
        1 <= n /\
        (String.length (Py.digits n) <= Py.int_max_str_digits)%nat /\
        generate_order_number year db
        = Ok ("SO-" ++ Py.str year ++ "-" ++ Py.format_03d n)%string /\
        Py.index_last (Py.split "-" ("SO-" ++ Py.str year ++ "-" ++ Py.format_03d n))
        = Ok (Py.format_03d n) /\
        Py.int (Py.format_03d n) = Ok n) /\
    (exists n,
        1 <= n /\
        (String.length (Py.digits n) <= Py.int_max_str_digits)%nat /\
        generate_invoice_number year db
        = Ok ("INV-" ++ Py.str year ++ "-" ++ Py.format_03d n)%string /\
        Py.index_last (Py.split "-" ("INV-" ++ Py.str year ++ "-" ++ Py.format_03d n))
        = Ok (Py.format_03d n) /\
        Py.int (Py.format_03d n) = Ok n).
Proof.
  intros year db Horders Hinvoices.
  assert (Hshort : forall numbers,
            Forall (fun s => (String.length s < Py.int_max_str_digits)%nat) numbers ->
            Forall (fun s => (String.length s <= 4299)%nat) numbers).
  { intros numbers H. eapply Forall_impl; [| exact H]. cbn beta.
    unfold Py.int_max_str_digits. intros s Hs. lia. }
  split.
  - exact (generate_well_formed "SO-" year _ 4299 (Hshort _ Horders) (Nat.le_refl _)).
  - exact (generate_well_formed "INV-" year _ 4299 (Hshort _ Hinvoices) (Nat.le_refl _)).
Qed.

Lemma generated_numbers_are_well_formed_witness :
  exists n,
    generate_order_number 2025 (orders_numbered ["SO-2025-041"; "SO-2025-7x"])
    = Ok ("SO-" ++ Py.str 2025 ++ "-" ++ Py.format_03d n)%string /\
    Py.int (Py.format_03d n) = Ok n.
Proof.
  destruct (generated_numbers_are_well_formed 2025
              (orders_numbered ["SO-2025-041"; "SO-2025-7x"]))
    as ((n & _ & _ & Hgen & _ & Hint) & _).
  - repeat (constructor; [apply Nat.ltb_lt; vm_compute; reflexivity |]). constructor.
  - constructor.
  - exists n. split; assumption.
Defined.

Lemma ascii_compare_refl c : Ascii.compare c c = Eq.
Proof. unfold Ascii.compare. apply N.compare_refl. Qed.

Lemma string_compare_app p a b :
  String.compare (p ++ a) (p ++ b) = String.compare a b.
Proof.
  induction p as [| c p IH]; [reflexivity |].
  cbn [append String.compare]. now rewrite ascii_compare_refl.
Qed.

Lemma prefix_app p x : String.prefix p (p ++ x) = true.
Proof.
  induction p as [| c p IH]; cbn; [now destruct x |].
  destruct (ascii_dec c c); [exact IH | congruence].
Qed.

Lemma string_app_inv_l (p a b : string) : (p ++ a)%string = (p ++ b)%string -> a = b.
Proof. induction p as [| c p IH]; cbn; intros H; [exact H | inversion H; auto]. Qed.

Lemma digits_value_bounds s :
  all_digits s = true -> 0 <= digits_value s < 10 ^ Z.of_nat (String.length s).
Proof.
  induction s as [| c r IH]; cbn [all_digits digits_value String.length]; [cbn; lia |].
  destruct (Py.digit_val c) as [d |] eqn:E; [| discriminate]. intros H.
  specialize (IH H). unfold Py.digit_val in E.
  destruct (_ && _) eqn:B; [| discriminate]. inversion E; subst.
  apply andb_true_iff in B. destruct B as (B1 & B2).
  apply Z.leb_le in B1. apply Z.leb_le in B2.
  rewrite Nat2Z.inj_succ, Z.pow_succ_r by lia. nia.
Qed.

Lemma digit_compare c1 c2 d1 d2 :
  Py.digit_val c1 = Some d1 -> Py.digit_val c2 = Some d2 ->
  Ascii.compare c1 c2 = Z.compare d1 d2.
Proof.
  unfold Py.digit_val, Ascii.compare, nat_of_ascii. intros H1 H2.
  destruct (_ && _); [| discriminate]. inversion H1; subst.
  destruct (_ && _); [| discriminate]. inversion H2; subst.
  rewrite !N_nat_Z, <- N2Z.inj_compare.
  destruct (Z.compare_spec (Z.of_N (N_of_ascii c1)) (Z.of_N (N_of_ascii c2)));
    destruct (Z.compare_spec (Z.of_N (N_of_ascii c1) - 48) (Z.of_N (N_of_ascii c2) - 48));
    try reflexivity; lia.
Qed.

(** Numerals of the same width compare as the numbers they denote. *)
Lemma digits_compare s :
  forall t,
    all_digits s = true -> all_digits t = true ->
    String.length s = String.length t ->
    String.compare s t = Z.compare (digits_value s) (digits_value t).
Proof.
  induction s as [| c s IH]; intros [| d t] Hs Ht Hlen; try discriminate; [reflexivity |].
  cbn [all_digits digits_value String.compare String.length] in *.
  destruct (Py.digit_val c) as [x |] eqn:Ec; [| discriminate].
  destruct (Py.digit_val d) as [y |] eqn:Ed; [| discriminate].
  inversion Hlen as [Hl]. rewrite (digit_compare _ _ _ _ Ec Ed), Hl.
  pose proof (digits_value_bounds s Hs) as Bs. pose proof (digits_value_bounds t Ht) as Bt.
  rewrite Hl in Bs. specialize (IH t Hs Ht Hl).
  set (P := 10 ^ Z.of_nat (String.length t)) in *.
  destruct (Z.compare_spec x y) as [-> | Hxy | Hxy].
  - rewrite IH. symmetry. apply Z.add_compare_mono_l.
  - symmetry. apply Z.compare_lt_iff. nia.
  - symmetry. apply Z.compare_gt_iff. nia.
Qed.

Lemma int_digits_value s :
  forall acc, all_digits s = true ->
    Py.int_digits s acc true
    = Some (acc * 10 ^ Z.of_nat (String.length s) + digits_value s).
Proof.
  induction s as [| c r IH]; intros acc; cbn [all_digits Py.int_digits digits_value String.length].
  - intros _. f_equal. cbn. lia.
  - destruct (Py.digit_val c) as [d |]; [| discriminate]. intros H.
    rewrite (IH _ H). f_equal. rewrite Nat2Z.inj_succ, Z.pow_succ_r by lia. lia.
Qed.

Lemma int_opt_value s :
  all_digits s = true -> s <> EmptyString -> Py.int_opt s = Some (digits_value s).
Proof.
  intros H Hne. rewrite (int_opt_digits _ H).
  destruct s as [| c r]; [congruence |].
  cbn [all_digits Py.int_digits digits_value] in *.
  destruct (Py.digit_val c) as [d |]; [| discriminate].
  rewrite (int_digits_value _ _ H). f_equal; lia.
Qed.

Lemma length_digits_upto_999 n :
  0 <= n <= 999 -> String.length (Py.zfill 3 (Py.digits n)) = 3%nat.
Proof.
  intros Hn. rewrite length_zfill.
  destruct (digits_spec n ltac:(lia)) as (H1 & _ & _ & Hlb).
  assert (String.length (Py.digits n) <= 3)%nat; [| lia].
  destruct Hlb as [-> | Hlb]; [cbn; lia |].
  destruct (le_lt_dec (String.length (Py.digits n)) 3) as [Hle | Hgt]; [exact Hle | exfalso].
  assert (10 ^ 3 <= 10 ^ (Z.of_nat (String.length (Py.digits n)) - 1))
    by (apply Z.pow_le_mono_r; lia).
  change (10 ^ 3) with 1000 in *. lia.
Qed.

Lemma digits_value_field n : 0 <= n -> digits_value (Py.format_03d n) = n.
Proof.
  intros Hn. rewrite format_03d_nonneg by exact Hn.
  pose proof (int_opt_zfill 3 n Hn) as H.
  rewrite int_opt_value in H.
  - injection H as H. exact H.
  - now apply all_digits_zfill.
  - intros E. apply (f_equal String.length) in E. rewrite length_zfill in E. cbn [String.length] in E. lia.
Qed.

(** Among numbers of one kind and year with sequence numbers up to 999,
    the order of the strings is the order of the sequence numbers. *)
Lemma number_ltb p a b :
  0 <= a <= 999 -> 0 <= b <= 999 ->
  String.ltb (p ++ Py.format_03d a) (p ++ Py.format_03d b) = (a <? b).
Proof.
  intros Ha Hb. unfold String.ltb. rewrite string_compare_app.
  rewrite digits_compare.
  - rewrite !digits_value_field by lia.
    destruct (Z.compare_spec a b); destruct (a <? b) eqn:E; try reflexivity;
      first [apply Z.ltb_lt in E | apply Z.ltb_ge in E]; lia.
  - rewrite format_03d_nonneg by lia. apply all_digits_zfill. lia.
  - rewrite format_03d_nonneg by lia. apply all_digits_zfill. lia.
  - rewrite !format_03d_nonneg by lia. now rewrite !length_digits_upto_999.
Qed.

Lemma fold_largest_number p rest :
  forall k,
    0 <= k <= 999 ->
    (forall j, In j rest -> 0 <= j <= 999) ->
    fold_left (fun best s => if String.ltb best s then s else best)
              (map (fun j => p ++ Py.format_03d j)%string rest) (p ++ Py.format_03d k)%string
    = (p ++ Py.format_03d (fold_left Z.max rest k))%string /\
    0 <= fold_left Z.max rest k <= 999.
Proof.
  induction rest as [| j rest IH]; intros k Hk Hrest; cbn [map fold_left]; [auto |].
  assert (Hj : 0 <= j <= 999) by (apply Hrest; now left).
  rewrite number_ltb by assumption.
  destruct (k <? j) eqn:E.
  - apply Z.ltb_lt in E. rewrite Z.max_r by lia.
    apply IH; [exact Hj | intros; apply Hrest; now right].
  - apply Z.ltb_ge in E. rewrite Z.max_l by lia.
    apply IH; [exact Hk | intros; apply Hrest; now right].
Qed.

Lemma fold_max_ge ks : forall a k, In k ks -> k <= fold_left Z.max ks a.
Proof.
  assert (Hmono : forall ks a, a <= fold_left Z.max ks a).
  { induction ks0 as [| x ks0 IH]; intros a; cbn; [lia |].
    specialize (IH (Z.max a x)). lia. }
  induction ks as [| x ks IH]; intros a k Hin; [destruct Hin |].
  cbn. destruct Hin as [<- | Hin]; [| now apply IH].
  specialize (Hmono ks (Z.max a x)). lia.
Qed.

(** The answer of a generator whose matching rows are the numbers of the
    sequence numbers [ks], all up to 999. *)
Lemma new_num_of_numbers p ks :
  (forall k, In k ks -> 0 <= k <= 999) ->
  (r <- Sql.scalar_one_or_none
          (Sql.order_by_desc_limit_1
             (map (fun k => p ++ "-" ++ Py.format_03d k)%string ks)) ;;
   new_num r)
  = Ok (1 + fold_left Z.max ks 0).
Proof.
  intros Hks. destruct ks as [| k rest]; [reflexivity |].
  cbn [map Sql.order_by_desc_limit_1 Sql.scalar_one_or_none Py.bind].
  assert (Hk : 0 <= k <= 999) by (apply Hks; now left).
  destruct (fold_largest_number (p ++ "-") rest k Hk
              ltac:(intros; apply Hks; now right)) as (Hmax & Hm).
  assert (Happ : forall j, (p ++ "-" ++ Py.format_03d j)%string
                           = ((p ++ "-") ++ Py.format_03d j)%string)
    by (intros; now rewrite string_app_assoc).
  rewrite (map_ext _ _ Happ), Happ, Hmax, <- Happ.
  cbn [fold_left]. rewrite (Z.max_r 0 k) by lia.
  set (m := fold_left Z.max rest k) in *.
  unfold new_num.
  assert (Ht : Py.truthy (p ++ "-" ++ Py.format_03d m) = true)
    by (destruct p; reflexivity).
  rewrite Ht, last_segment_of_number.
  - cbn [Py.bind].
    rewrite (int_of_numeral (Py.format_03d m) m).
    + cbn [Py.bind Py.try_except_value_index]. f_equal. lia.
    + rewrite format_03d_nonneg by lia. apply int_opt_zfill. lia.
    + rewrite format_03d_nonneg, length_digits_upto_999 by lia.
      unfold Py.int_max_str_digits. lia.
  - rewrite format_03d_nonneg by lia. apply all_digits_no_dash, all_digits_zfill. lia.
Qed.

Lemma number_shape (kind y f : string) :
  (kind ++ y ++ "-" ++ f)%string = ((kind ++ y ++ "-") ++ f)%string.
Proof. now rewrite !string_app_assoc. Qed.

Lemma number_shape' (kind y f : string) :
  (kind ++ y ++ "-" ++ f)%string = ((kind ++ y) ++ "-" ++ f)%string.
Proof. now rewrite !string_app_assoc. Qed.

(** The generator on a table whose rows of the kind and year are the
    numbers of [ks]. *)
Lemma generate_from_numbers (kind : string) (year : Z) (numbers : list string) (ks : list Z) :
  (forall k, In k ks -> 0 <= k <= 999) ->
  filter (Sql.like_prefix (kind ++ Py.str year ++ "-")) numbers
  = map (fun k => kind ++ Py.str year ++ "-" ++ Py.format_03d k)%string ks ->
  (r <- Sql.scalar_one_or_none
          (Sql.order_by_desc_limit_1
             (filter (Sql.like_prefix (kind ++ Py.str year ++ "-")) numbers)) ;;
   new_num r)
  = Ok (1 + fold_left Z.max ks 0) /\
  ~ In (kind ++ Py.str year ++ "-" ++ Py.format_03d (1 + fold_left Z.max ks 0))%string numbers.
Proof.
  intros Hks Hrows. split.
  - rewrite Hrows.
    rewrite (map_ext _ (fun k => ((kind ++ Py.str year) ++ "-" ++ Py.format_03d k)%string))
      by (intros; apply number_shape').
    now apply new_num_of_numbers.
  - intros Hin.
    assert (Hf : In (kind ++ Py.str year ++ "-" ++ Py.format_03d (1 + fold_left Z.max ks 0))%string
                    (filter (Sql.like_prefix (kind ++ Py.str year ++ "-")) numbers)).
    { apply filter_In. split; [exact Hin |].
      unfold Sql.like_prefix. rewrite number_shape. apply prefix_app. }
    rewrite Hrows in Hf. apply in_map_iff in Hf. destruct Hf as (k & Heq & Hk).
    rewrite !number_shape in Heq. apply string_app_inv_l in Heq.
    assert (Hk0 : 0 <= k <= 999) by now apply Hks.
    assert (Hm : k <= fold_left Z.max ks 0) by now apply fold_max_ge.
    apply (f_equal digits_value) in Heq.
    rewrite !digits_value_field in Heq by lia. lia.
Qed.

(** X2. When the stored numbers of the kind and year are those of the
    sequence numbers [ks], in any order and with any gaps, all up to 999,
    the generator answers the number of the largest of them plus one (001
    when there is none), and this number is not among the stored ones. *)
Theorem next_number_is_largest_plus_one :
  forall (year : Z) (db : DB) (ks : list Z),
    (forall k, In k ks -> 0 <= k <= 999) ->
    (filter (Sql.like_prefix ("SO-" ++ Py.str year ++ "-"))
            (map SalesOrder.order_number (sales_orders db))
     = map (fun k => "SO-" ++ Py.str year ++ "-" ++ Py.format_03d k)%string ks ->
     generate_order_number year db
     = Ok ("SO-" ++ Py.str year ++ "-" ++ Py.format_03d (1 + fold_left Z.max ks 0))%string /\
     ~ In ("SO-" ++ Py.str year ++ "-" ++ Py.format_03d (1 + fold_left Z.max ks 0))%string
          (map SalesOrder.order_number (sales_orders db))) /\
    (filter (Sql.like_prefix ("INV-" ++ Py.str year ++ "-"))
            (map Invoice.invoice_number (invoices db))
     = map (fun k => "INV-" ++ Py.str year ++ "-" ++ Py.format_03d k)%string ks ->
     generate_invoice_number year db
     = Ok ("INV-" ++ Py.str year ++ "-" ++ Py.format_03d (1 + fold_left Z.max ks 0))%string /\
     ~ In ("INV-" ++ Py.str year ++ "-" ++ Py.format_03d (1 + fold_left Z.max ks 0))%string
          (map Invoice.invoice_number (invoices db))).
Proof.
  intros year db ks Hks. split; intros Hrows.
  - destruct (generate_from_numbers "SO-" year _ ks Hks Hrows) as (Hnew & Hfresh).
    split; [| exact Hfresh].
    unfold generate_order_number, last_order.
    destruct (Sql.scalar_one_or_none _) as [r | e] eqn:E; cbn [Py.bind] in *;
      [| discriminate].
    now rewrite Hnew.
  - destruct (generate_from_numbers "INV-" year _ ks Hks Hrows) as (Hnew & Hfresh).
    split; [| exact Hfresh].
    unfold generate_invoice_number, last_invoice.
    destruct (Sql.scalar_one_or_none _) as [r | e] eqn:E; cbn [Py.bind] in *;
      [| discriminate].
    now rewrite Hnew.
Qed.

Lemma next_number_is_largest_plus_one_witness :
  generate_order_number 2025 (orders_numbered ["SO-2025-007"; "SO-2024-300"; "SO-2025-120"])
  = Ok "SO-2025-121".
Proof.
  destruct (next_number_is_largest_plus_one 2025
              (orders_numbered ["SO-2025-007"; "SO-2024-300"; "SO-2025-120"]) [7; 120]
              ltac:(intros k [<- | [<- | []]]; lia)) as (Ho & _).
  destruct (Ho eq_refl) as (H & _). exact H.
Defined.

Lemma fold_largest_app q rest :
  forall x,
    fold_left (fun best s => if String.ltb best s then s else best)
              (map (append q) rest) (q ++ x)%string
    = (q ++ fold_left (fun best s => if String.ltb best s then s else best) rest x)%string.
Proof.
  induction rest as [| y rest IH]; intros x; [reflexivity |].
  cbn [map fold_left]. unfold String.ltb at 2 4. rewrite string_compare_app.
  destruct (String.compare x y); apply IH.
Qed.

Lemma order_by_desc_limit_1_app q fields :
  Sql.order_by_desc_limit_1 (map (append q) fields)
  = map (append q) (Sql.order_by_desc_limit_1 fields).
Proof.
  destruct fields as [| x rest]; [reflexivity |].
  cbn [map Sql.order_by_desc_limit_1]. now rewrite fold_largest_app.
Qed.

Lemma fold_max_seq n : fold_left Z.max (map Z.of_nat (seq 1 n)) 0 = Z.of_nat n.
Proof.
  induction n as [| n IH]; [reflexivity |].
  rewrite seq_S, map_app, fold_left_app, IH. cbn [map fold_left Nat.add]. lia.
Qed.

Lemma issued_S kind year n :
  issued kind year (S n)
  = (issued kind year n
     ++ [kind ++ "-" ++ Py.str year ++ "-" ++ Py.format_03d (Z.of_nat (S n))]%string)%list.
Proof. unfold issued. now rewrite seq_S, map_app. Qed.

(** Of the numbers 001 ... 1000 the one ending in 999 is the largest
    string. *)
Lemma largest_field_of_1000 :
  Sql.order_by_desc_limit_1 (map (fun k => Py.format_03d (Z.of_nat k)) (seq 1 1000)) = ["999"].
Proof. vm_compute. reflexivity. Qed.

(** Once the numbers 001 ... 1000 of a kind and year are stored, the
    generator answers 1000, which is stored. *)
Lemma generate_after_1000 (kind : string) (year : Z) (numbers : list string) :
  filter (Sql.like_prefix (kind ++ "-" ++ Py.str year ++ "-")) numbers = issued kind year 1000 ->
  (r <- Sql.scalar_one_or_none
          (Sql.order_by_desc_limit_1
             (filter (Sql.like_prefix (kind ++ "-" ++ Py.str year ++ "-")) numbers)) ;;
   new_num r)
  = Ok 1000 /\
  In (kind ++ "-" ++ Py.str year ++ "-" ++ Py.format_03d 1000)%string numbers.
Proof.
  intros Hrows. split.
  - rewrite Hrows. unfold issued.
    rewrite (map_ext _ (fun k => append (kind ++ "-" ++ Py.str year ++ "-")
                                        (Py.format_03d (Z.of_nat k))))
      by (intros; now rewrite !string_app_assoc).
    rewrite <- (map_map (fun k => Py.format_03d (Z.of_nat k))
                        (append (kind ++ "-" ++ Py.str year ++ "-"))).
    rewrite order_by_desc_limit_1_app, largest_field_of_1000.
    cbn [map Sql.scalar_one_or_none Py.bind]. unfold new_num.
    assert (Ht : Py.truthy ((kind ++ "-" ++ Py.str year ++ "-") ++ "999") = true)
      by (destruct kind; reflexivity).
    rewrite Ht.
    replace ((kind ++ "-" ++ Py.str year ++ "-") ++ "999")%string
      with ((kind ++ "-" ++ Py.str year) ++ "-" ++ "999")%string
      by now rewrite !string_app_assoc.
    rewrite last_segment_of_number by reflexivity. reflexivity.
  - assert (Hin : In (kind ++ "-" ++ Py.str year ++ "-" ++ Py.format_03d 1000)%string
                     (issued kind year 1000)).
    { unfold issued. apply in_map_iff. exists 1000%nat. split; [reflexivity |].
      apply in_seq. lia. }
    rewrite <- Hrows in Hin. now apply filter_In in Hin.
Qed.

(** What a committed [create_invoice] did to the invoice table. *)
Lemma create_invoice_number iso year r db db' number :
  Invoices.create_invoice iso year r db = (db', Success number) ->
  generate_invoice_number year db = Ok number /\
  ~ In number (map Invoice.invoice_number (invoices db)) /\
  map Invoice.invoice_number (invoices db')
  = (map Invoice.invoice_number (invoices db) ++ [number])%list.
Proof.
  intros H.
  assert (Hpay : exists order invoice db0 db1,
             Invoices.new_invoice iso year r order db = Ok invoice /\
             Invoices.flush_invoice db invoice = Ok db0 /\
             for_each (Invoices.allocate order invoice) (Invoices.items r) db0 = Ok db1 /\
             invoices db' = invoices db1 /\ number = Invoice.invoice_number invoice).
  { revert H. unfold Invoices.create_invoice, Invoices.create_invoice_body.
    destruct (Sql.bind_integer (Invoices.salesOrderId r)) as [k | e]; cbn [Py.bind];
      [| discriminate].
    destruct (Sql.scalar_one_or_none (select_sales_order db k))
      as [[order |] | e0]; cbn [Py.bind]; try discriminate.
    destruct (Invoices.new_invoice iso year r order db) as [invoice | e1] eqn:Hnew;
      cbn [Py.bind]; try discriminate.
    destruct (Invoices.flush_invoice db invoice) as [db0 | e2] eqn:Hflush;
      cbn [Py.bind]; try discriminate.
    destruct (for_each (Invoices.allocate order invoice) (Invoices.items r) db0)
      as [db1 | e3] eqn:Hloop; cbn [Py.bind]; try discriminate.
    intros H. inversion H; subst. exists order, invoice, db0, db1. auto. }
  destruct Hpay as (order & invoice & db0 & db1 & Hnew & Hflush & Hloop & Hinv & ->).
  destruct (bill_for_each_ok _ _ _ _ _ Hloop) as ((_ & _ & _ & Hv) & _).
  unfold Invoices.new_invoice in Hnew.
  destruct (generate_invoice_number year db) as [n |] eqn:Hgen; cbn [Py.bind] in Hnew;
    [| discriminate].
  destruct (iso (Invoices.date_ r)); cbn [Py.bind] in Hnew; [| discriminate].
  destruct (iso (Invoices.dueDate r)); cbn [Py.bind] in Hnew; [| discriminate].
  inversion Hnew; subst invoice. cbn [Invoice.invoice_number] in *.
  destruct (flush_invoice_inserted _ _ _ Hflush) as [Hfresh ->].
  cbn [invoices Invoice.invoice_number] in *. split; [reflexivity | split].
  - exact Hfresh.
  - rewrite Hinv, Hv, map_app. reflexivity.
Qed.

Lemma create_shipment_keeps_invoices iso r db db' resp :
  Shipments.create_shipment iso r db = (db', resp) -> invoices db' = invoices db.
Proof.
  destruct resp as [msg | e]; intros H.
  - destruct (create_shipment_success _ _ _ _ _ H) as (order & shipment & db1 & _ & _ & Hloop & ->).
    destruct (ship_for_each_ok _ _ _ _ _ Hloop) as ((_ & _ & _ & Hv) & _). exact Hv.
  - now rewrite (create_shipment_failed _ _ _ _ _ H).
Qed.

(** X3. Whatever requests are served, from a database without invoice of
    the year: the invoice numbers of the year are, in the order the
    invoices were created, INV-year-001, INV-year-002, ... without gap or
    repetition, and there are never more than 1000 of them, since after the
    number 1000 every further invoice is refused. *)
Theorem invoice_numbers_are_consecutive :
  forall iso (year : Z) (calls : list Call) (db0 : DB),
    filter (Sql.like_prefix ("INV-" ++ Py.str year ++ "-"))
           (map Invoice.invoice_number (invoices db0)) = [] ->
    exists n,
      (n <= 1000)%nat /\
      filter (Sql.like_prefix ("INV-" ++ Py.str year ++ "-"))
             (map Invoice.invoice_number (invoices (fst (run iso year calls db0))))
      = issued "INV" year n.
Proof.
  intros iso year calls db0 H0.
  assert (Hgen : forall calls db n,
             (n <= 1000)%nat ->
             filter (Sql.like_prefix ("INV-" ++ Py.str year ++ "-"))
                    (map Invoice.invoice_number (invoices db)) = issued "INV" year n ->
             exists m, (m <= 1000)%nat /\
               filter (Sql.like_prefix ("INV-" ++ Py.str year ++ "-"))
                      (map Invoice.invoice_number (invoices (fst (run iso year calls db))))
               = issued "INV" year m).
  { clear. induction calls as [| c calls IH]; intros db n Hn Hrows.
    - exists n. auto.
    - cbn [run]. destruct c as [r | r]; cbn [perform].
      + destruct (Shipments.create_shipment iso r db) as [db' resp] eqn:Hc.
        pose proof (create_shipment_keeps_invoices _ _ _ _ _ Hc) as Hv.
        destruct (IH db' n Hn ltac:(now rewrite Hv)) as (m & Hm & Hrows').
        exists m. destruct (run iso year calls db'). auto.
      + destruct (Invoices.create_invoice iso year r db) as [db' [number | e]] eqn:Hc.
        * destruct (create_invoice_number _ _ _ _ _ _ Hc) as (Hnum & Hfresh & Hnumbers).
          assert (Hcase : (n <= 999)%nat \/ n = 1000%nat) by lia.
          destruct Hcase as [Hsmall | ->].
          -- assert (Hks : forall k, In k (map Z.of_nat (seq 1 n)) -> 0 <= k <= 999).
             { intros k Hk. apply in_map_iff in Hk. destruct Hk as (j & <- & Hj).
               apply in_seq in Hj. lia. }
             assert (Hrows2 : filter (Sql.like_prefix ("INV-" ++ Py.str year ++ "-"))
                                     (map Invoice.invoice_number (invoices db))
                              = map (fun k => "INV-" ++ Py.str year ++ "-" ++ Py.format_03d k)%string
                                    (map Z.of_nat (seq 1 n))).
             { rewrite Hrows. unfold issued. now rewrite map_map. }
             destruct (generate_from_numbers "INV-" year _ _ Hks Hrows2) as (Hnew & _).
             assert (Hgen : generate_invoice_number year db
                            = Ok ("INV-" ++ Py.str year ++ "-"
                                  ++ Py.format_03d (1 + fold_left Z.max (map Z.of_nat (seq 1 n)) 0))%string).
             { unfold generate_invoice_number, last_invoice.
               destruct (Sql.scalar_one_or_none _) as [l | e]; cbn [Py.bind] in *;
                 [| discriminate].
               now rewrite Hnew. }
             assert (Hnumber : number
                               = ("INV-" ++ Py.str year ++ "-"
                                  ++ Py.format_03d (Z.of_nat (S n)))%string).
             { rewrite Hnum in Hgen. rewrite fold_max_seq in Hgen.
               replace (1 + Z.of_nat n) with (Z.of_nat (S n)) in Hgen by lia.
               congruence. }
             assert (Hp : Sql.like_prefix ("INV-" ++ Py.str year ++ "-") number = true).
             { rewrite Hnumber. unfold Sql.like_prefix.
               rewrite (number_shape "INV-" (Py.str year)). apply prefix_app. }
             destruct (IH db' (S n) ltac:(lia)) as (m & Hm & Hrows').
             { rewrite Hnumbers, filter_app, Hrows, issued_S. f_equal.
               cbn [filter]. rewrite Hp, Hnumber. reflexivity. }
             exists m. destruct (run iso year calls db'). auto.
          -- exfalso.
             destruct (generate_after_1000 "INV" year _ Hrows) as (Hnew & Hin).
             apply Hfresh. unfold generate_invoice_number, last_invoice in Hnum.
             change ("INV-" ++ Py.str year ++ "-")%string
               with ("INV" ++ "-" ++ Py.str year ++ "-")%string in Hnum.
             destruct (Sql.scalar_one_or_none _) as [l | e]; cbn [Py.bind] in *;
               [| discriminate].
             rewrite Hnew in Hnum. cbn [Py.bind] in Hnum. inversion Hnum. exact Hin.
        * rewrite (create_invoice_failed _ _ _ _ _ _ Hc).
          destruct (IH db n Hn Hrows) as (m & Hm & Hrows').
          exists m. destruct (run iso year calls db). auto. }
  apply (Hgen calls db0 0%nat); [lia | exact H0].
Qed.

Lemma invoice_numbers_are_consecutive_witness :
  exists n,
    (n <= 1000)%nat /\
    filter (Sql.like_prefix ("INV-" ++ Py.str 2025 ++ "-"))
           (map Invoice.invoice_number
                (invoices (fst (run sample_iso 2025
                                  [Bill (Invoices.mkRequest 1 "a" "b" None [Invoices.mkItem 1 1]);
                                   Bill (Invoices.mkRequest 1 "a" "b" None [Invoices.mkItem 1 99]);
                                   Bill (Invoices.mkRequest 1 "a" "b" None [])]
                                  sample_db))))
    = issued "INV" 2025 n.
Proof. apply (invoice_numbers_are_consecutive sample_iso 2025 _ sample_db). reflexivity. Defined.

(* ================================================================== *)
(** ** Further properties of the fulfillment routers *)

Lemma shipped_quantities_loop_map db items :
  forall response,
    shipped_quantities_loop db items response
    = (response
       ++ map (fun item => ShippedQuantityResponse.mk
                             (Py.str (SOItem.id item))
                             (consumed shipment_track db (SOItem.id item))) items)%list.
Proof.
  induction items as [| item items IH]; intros response; cbn [shipped_quantities_loop map].
  - now rewrite app_nil_r.
  - rewrite IH, shipped_qty_consumed, <- app_assoc. reflexivity.
Qed.

Lemma invoiced_quantities_loop_map db items :
  forall response,
    invoiced_quantities_loop db items response
    = (response
       ++ map (fun item => InvoicedQuantityResponse.mk
                             (Py.str (SOItem.id item))
                             (consumed invoice_track db (SOItem.id item))) items)%list.
Proof.
  induction items as [| item items IH]; intros response; cbn [invoiced_quantities_loop map].
  - now rewrite app_nil_r.
  - rewrite IH, invoiced_qty_consumed, <- app_assoc. reflexivity.
Qed.

Lemma select_sales_order_id db k order :
  select_sales_order db k = [order] -> SalesOrder.id order = k.
Proof.
  intros H. assert (Hin : In order (select_sales_order db k)) by (rewrite H; now left).
  unfold select_sales_order in Hin. apply filter_In in Hin. now apply Z.eqb_eq.
Qed.

(** What the loop over [request.items] leaves, table by table: the events
    it appends, one per item and all on the new document, and nothing else;
    every item names a line of the order. *)
Lemma ship_for_each_tables order shipment items :
  forall db db',
    for_each (Shipments.allocate order shipment) items db = Ok db' ->
    sales_orders db' = sales_orders db /\ so_items db' = so_items db /\
    shipments db' = shipments db /\ invoices db' = invoices db /\
    invoice_items db' = invoice_items db /\
    (exists evs,
        shipment_items db' = (shipment_items db ++ evs)%list /\
        map ShipmentItem.so_item_id evs = map Shipments.soItemId items /\
        map ShipmentItem.quantity_shipped evs = map Shipments.quantity items /\
        Forall (fun e => ShipmentItem.shipment_id e = Shipment.id shipment) evs) /\
    Forall (fun item => exists line,
                select_so_item db (Shipments.soItemId item) = [line] /\
                SOItem.sales_order_id line = SalesOrder.id order) items.
Proof.
  induction items as [| item items IH]; intros db db' H.
  - cbn in H. inversion H; subst. repeat split; auto.
    exists []. rewrite app_nil_r. auto.
  - cbn [for_each] in H.
    destruct (Shipments.allocate order shipment db item) as [db1 | e] eqn:Hstep;
      cbn [Py.bind] in H; [| discriminate].
    destruct (ship_allocate_ok _ _ _ _ _ Hstep) as (line & Hsel & Hown & _ & _ & _ & ->).
    destruct (IH _ _ H) as (Ho & Hi & Hs & Hv & Hii & (evs & Hevs & Hl & Hq & Hd) & Hall).
    cbn [Shipments.add_shipment_item sales_orders so_items shipments invoices
         invoice_items shipment_items] in *.
    repeat split; auto.
    + exists (Shipments.new_shipment_item shipment db item :: evs).
      rewrite Hevs, <- app_assoc. split; [reflexivity |].
      cbn [map Shipments.new_shipment_item ShipmentItem.so_item_id
           ShipmentItem.quantity_shipped].
      rewrite Hl, Hq. repeat split. constructor; [reflexivity | exact Hd].
    + constructor; [exists line; auto |].
      eapply Forall_impl; [| exact Hall]. cbn.
      intros it (l & Hl0 & Ho0). exists l. split; [| exact Ho0].
      unfold select_so_item in *. exact Hl0.
Qed.

Lemma bill_for_each_tables order invoice items :
  forall db db',
    for_each (Invoices.allocate order invoice) items db = Ok db' ->
    sales_orders db' = sales_orders db /\ so_items db' = so_items db /\
    shipments db' = shipments db /\ invoices db' = invoices db /\
    shipment_items db' = shipment_items db /\
    (exists evs,
        invoice_items db' = (invoice_items db ++ evs)%list /\
        map InvoiceItem.so_item_id evs = map Invoices.soItemId items /\
        map InvoiceItem.quantity_invoiced evs = map Invoices.quantity items /\
        Forall (fun e => InvoiceItem.invoice_id e = Invoice.id invoice) evs) /\
    Forall (fun item => exists line,
                select_so_item db (Invoices.soItemId item) = [line] /\
                SOItem.sales_order_id line = SalesOrder.id order) items.
Proof.
  induction items as [| item items IH]; intros db db' H.
  - cbn in H. inversion H; subst. repeat split; auto.
    exists []. rewrite app_nil_r. auto.
  - cbn [for_each] in H.
    destruct (Invoices.allocate order invoice db item) as [db1 | e] eqn:Hstep;
      cbn [Py.bind] in H; [| discriminate].
    destruct (bill_allocate_ok _ _ _ _ _ Hstep) as (line & Hsel & Hown & _ & _ & _ & ->).
    destruct (IH _ _ H) as (Ho & Hi & Hs & Hv & Hii & (evs & Hevs & Hl & Hq & Hd) & Hall).
    cbn [Invoices.add_invoice_item sales_orders so_items shipments invoices
         invoice_items shipment_items] in *.
    repeat split; auto.
    + exists (Invoices.new_invoice_item invoice db item :: evs).
      rewrite Hevs, <- app_assoc. split; [reflexivity |].
      cbn [map Invoices.new_invoice_item InvoiceItem.so_item_id
           InvoiceItem.quantity_invoiced].
      rewrite Hl, Hq. repeat split. constructor; [reflexivity | exact Hd].
    + constructor; [exists line; auto |].
      eapply Forall_impl; [| exact Hall]. cbn.
      intros it (l & Hl0 & Ho0). exists l. split; [| exact Ho0].
      unfold select_so_item in *. exact Hl0.
Qed.

Lemma forallb_pointwise {A : Type} (f g : A -> bool) (l : list A) :
  (forall x, In x l -> f x = g x) -> forallb f l = forallb g l.
Proof.
  induction l as [| x l IH]; intros H; [reflexivity |]. cbn.
  rewrite (H x (or_introl eq_refl)), IH; [reflexivity |]. intros; apply H; now right.
Qed.

Lemma existsb_pointwise {A : Type} (f g : A -> bool) (l : list A) :
  (forall x, In x l -> f x = g x) -> existsb f l = existsb g l.
Proof.
  induction l as [| x l IH]; intros H; [reflexivity |]. cbn.
  rewrite (H x (or_introl eq_refl)), IH; [reflexivity |]. intros; apply H; now right.
Qed.

Lemma ship_derive_status_ext db db' items :
  (forall line, consumed shipment_track db' line = consumed shipment_track db line) ->
  Shipments.derive_status db' items = Shipments.derive_status db items.
Proof.
  intros H. unfold Shipments.derive_status. rewrite !ship_status_loop.
  rewrite (forallb_pointwise _ (fun l => negb (consumed shipment_track db (SOItem.id l)
                                               <? SOItem.quantity l)))
    by (intros; now rewrite H).
  rewrite (existsb_pointwise _ (fun l => consumed shipment_track db (SOItem.id l) >? 0))
    by (intros; now rewrite H).
  reflexivity.
Qed.

Lemma bill_derive_status_ext db db' items :
  (forall line, consumed invoice_track db' line = consumed invoice_track db line) ->
  Invoices.derive_status db' items = Invoices.derive_status db items.
Proof.
  intros H. unfold Invoices.derive_status. rewrite !bill_status_loop.
  rewrite (forallb_pointwise _ (fun l => negb (consumed invoice_track db (SOItem.id l)
                                               <? SOItem.quantity l)))
    by (intros; now rewrite H).
  rewrite (existsb_pointwise _ (fun l => consumed invoice_track db (SOItem.id l) >? 0))
    by (intros; now rewrite H).
  reflexivity.
Qed.

(** The database a committed request leaves, table by table. *)
Lemma create_shipment_tables iso r db db' msg :
  Shipments.create_shipment iso r db = (db', Success msg) ->
  exists order shipment st evs,
    select_sales_order db (Shipments.salesOrderId r) = [order] /\
    Shipments.new_shipment iso r db = Ok shipment /\
    so_items db' = so_items db /\
    invoices db' = invoices db /\
    invoice_items db' = invoice_items db /\
    shipments db' = (shipments db ++ [shipment])%list /\
    shipment_items db' = (shipment_items db ++ evs)%list /\
    sales_orders db'
    = map (fun o => if SalesOrder.id o =? Shipments.salesOrderId r
                    then SalesOrder.set_shipment_status st o else o) (sales_orders db) /\
    map ShipmentItem.so_item_id evs = map Shipments.soItemId (Shipments.items r) /\
    map ShipmentItem.quantity_shipped evs = map Shipments.quantity (Shipments.items r) /\
    Forall (fun e => ShipmentItem.shipment_id e = Shipment.id shipment) evs /\
    Forall (fun item => exists line,
                select_so_item db (Shipments.soItemId item) = [line] /\
                SOItem.sales_order_id line = Shipments.salesOrderId r) (Shipments.items r) /\
    st = Shipments.derive_status db' (items_of db order).
Proof.
  intros H. destruct (create_shipment_success _ _ _ _ _ H)
    as (order & shipment & db1 & Hsel & Hnew & Hloop & ->).
  destruct (ship_for_each_tables _ _ _ _ _ Hloop)
    as (Ho & Hi & Hs & Hv & Hii & (evs & Hevs & Hl & Hq & Hd) & Hall).
  cbn [Shipments.add_shipment sales_orders so_items shipments invoices invoice_items
       shipment_items] in *.
  pose proof (select_sales_order_id _ _ _ Hsel) as Hid. rewrite Hid in Hall.
  exists order, shipment. eexists. exists evs.
  cbn [update_sales_order sales_orders so_items shipments invoices invoice_items
       shipment_items].
  rewrite Ho, Hid. repeat split; try assumption; try reflexivity.
  symmetry. now apply ship_derive_status_ext.
Qed.

Lemma create_invoice_tables iso year r db db' number :
  Invoices.create_invoice iso year r db = (db', Success number) ->
  exists order invoice st evs,
    select_sales_order db (Invoices.salesOrderId r) = [order] /\
    Invoices.new_invoice iso year r order db = Ok invoice /\
    so_items db' = so_items db /\
    shipments db' = shipments db /\
    shipment_items db' = shipment_items db /\
    invoices db' = (invoices db ++ [invoice])%list /\
    invoice_items db' = (invoice_items db ++ evs)%list /\
    sales_orders db'
    = map (fun o => if SalesOrder.id o =? Invoices.salesOrderId r
                    then SalesOrder.set_invoice_status st o else o) (sales_orders db) /\
    map InvoiceItem.so_item_id evs = map Invoices.soItemId (Invoices.items r) /\
    map InvoiceItem.quantity_invoiced evs = map Invoices.quantity (Invoices.items r) /\
    Forall (fun e => InvoiceItem.invoice_id e = Invoice.id invoice) evs /\
    Forall (fun item => exists line,
                select_so_item db (Invoices.soItemId item) = [line] /\
                SOItem.sales_order_id line = Invoices.salesOrderId r) (Invoices.items r) /\
    st = Invoices.derive_status db' (items_of db order).
Proof.
  intros H. destruct (create_invoice_success _ _ _ _ _ _ H)
    as (order & invoice & db0 & db1 & Hsel & Hnew & Hflush & Hloop & ->).
  destruct (bill_for_each_tables _ _ _ _ _ Hloop)
    as (Ho & Hi & Hs & Hv & Hii & (evs & Hevs & Hl & Hq & Hd) & Hall).
  destruct (flush_invoice_inserted _ _ _ Hflush) as [_ ->].
  cbn [sales_orders so_items shipments invoices invoice_items shipment_items] in *.
  pose proof (select_sales_order_id _ _ _ Hsel) as Hid. rewrite Hid in Hall.
  exists order, invoice. eexists. exists evs.
  cbn [update_sales_order sales_orders so_items shipments invoices invoice_items
       shipment_items].
  rewrite Ho, Hid. repeat split; try assumption; try reflexivity.
  symmetry. now apply bill_derive_status_ext.
Qed.

Lemma get_shipped_quantities_found db k order :
  Sql.int32 k = true ->
  select_sales_order db k = [order] ->
  get_shipped_quantities k db
  = Ok (map (fun item => ShippedQuantityResponse.mk
                           (Py.str (SOItem.id item))
                           (consumed shipment_track db (SOItem.id item)))
            (items_of db order)).
Proof.
  intros Hk H. unfold get_shipped_quantities.
  rewrite (bind_integer_int32 _ Hk). cbn [Py.bind]. run_query H.
  now rewrite shipped_quantities_loop_map.
Qed.

Lemma get_invoiced_quantities_found db k order :
  Sql.int32 k = true ->
  select_sales_order db k = [order] ->
  get_invoiced_quantities k db
  = Ok (map (fun item => InvoicedQuantityResponse.mk
                           (Py.str (SOItem.id item))
                           (consumed invoice_track db (SOItem.id item)))
            (items_of db order)).
Proof.
  intros Hk H. unfold get_invoiced_quantities.
  rewrite (bind_integer_int32 _ Hk). cbn [Py.bind]. run_query H.
  now rewrite invoiced_quantities_loop_map.
Qed.

Lemma select_mapped_sales_order (l : list SalesOrder.t) k (f : SalesOrder.t -> SalesOrder.t) :
  (forall o, SalesOrder.id (f o) = SalesOrder.id o) ->
  filter (fun o => SalesOrder.id o =? k)
         (map (fun o => if SalesOrder.id o =? k then f o else o) l)
  = map f (filter (fun o => SalesOrder.id o =? k) l).
Proof.
  intros Hid. induction l as [| o os IH]; [reflexivity |].
  cbn [map filter]. destruct (SalesOrder.id o =? k) eqn:E.
  - rewrite Hid, E. cbn [map]. now rewrite IH.
  - rewrite E. exact IH.
Qed.

(** X4. After a committed shipment request, [get_shipped_quantities] of
    the order answers, line by line, what it answered before plus the
    quantities the request asked for on that line, and
    [get_invoiced_quantities] answers what it answered before; likewise
    with the tracks exchanged after a committed invoice request. *)
Theorem reported_quantities_follow_requests :
  forall iso year (db : DB) (order : SalesOrder.t),
    select_sales_order db (SalesOrder.id order) = [order] ->
    (forall request db' msg,
        Shipments.salesOrderId request = SalesOrder.id order ->
        Shipments.create_shipment iso request db = (db', Success msg) ->
        get_shipped_quantities (SalesOrder.id order) db'
        = Ok (map (fun item =>
                     ShippedQuantityResponse.mk
                       (Py.str (SOItem.id item))
                       (consumed shipment_track db (SOItem.id item)
                        + total (Shipments.quantities_on (SOItem.id item)
                                                         (Shipments.items request))))
                  (items_of db order)) /\
        get_invoiced_quantities (SalesOrder.id order) db'
        = get_invoiced_quantities (SalesOrder.id order) db) /\
    (forall request db' number,
        Invoices.salesOrderId request = SalesOrder.id order ->
        Invoices.create_invoice iso year request db = (db', Success number) ->
        get_invoiced_quantities (SalesOrder.id order) db'
        = Ok (map (fun item =>
                     InvoicedQuantityResponse.mk
                       (Py.str (SOItem.id item))
                       (consumed invoice_track db (SOItem.id item)
                        + total (Invoices.quantities_on (SOItem.id item)
                                                        (Invoices.items request))))
                  (items_of db order)) /\
        get_shipped_quantities (SalesOrder.id order) db'
        = get_shipped_quantities (SalesOrder.id order) db).
Proof.
  intros iso year db order Hsel. split.
  - intros request db' msg Hid H.
    pose proof (create_shipment_key _ _ _ _ _ H) as Hk. rewrite Hid in Hk.
    destruct (create_shipment_effect _ _ _ _ _ H) as (_ & Hrec & _).
    destruct (create_shipment_tables _ _ _ _ _ H)
      as (order0 & shipment & st & evs & _ & _ & Hi & _ & _ & _ & _ & Hso & _).
    assert (Hsel' : select_sales_order db' (SalesOrder.id order)
                    = [SalesOrder.set_shipment_status st order]).
    { unfold select_sales_order in *. rewrite Hso, Hid.
      rewrite select_mapped_sales_order by reflexivity. now rewrite Hsel. }
    assert (Hitems : items_of db' (SalesOrder.set_shipment_status st order) = items_of db order)
      by (unfold items_of; now rewrite Hi).
    rewrite (get_shipped_quantities_found _ _ _ Hk Hsel'),
            (get_invoiced_quantities_found _ _ _ Hk Hsel'),
            (get_invoiced_quantities_found _ _ _ Hk Hsel), Hitems.
    split; f_equal; apply map_ext; intros item; f_equal; unfold consumed.
    + rewrite (Hrec shipment_track). cbn [quantities_on]. apply total_app.
    + rewrite (Hrec invoice_track). cbn [quantities_on]. now rewrite app_nil_r.
  - intros request db' number Hid H.
    pose proof (create_invoice_key _ _ _ _ _ _ H) as Hk. rewrite Hid in Hk.
    destruct (create_invoice_effect _ _ _ _ _ _ H) as (_ & Hrec & _).
    destruct (create_invoice_tables _ _ _ _ _ _ H)
      as (order0 & invoice & st & evs & _ & _ & Hi & _ & _ & _ & _ & Hso & _).
    assert (Hsel' : select_sales_order db' (SalesOrder.id order)
                    = [SalesOrder.set_invoice_status st order]).
    { unfold select_sales_order in *. rewrite Hso, Hid.
      rewrite select_mapped_sales_order by reflexivity. now rewrite Hsel. }
    assert (Hitems : items_of db' (SalesOrder.set_invoice_status st order) = items_of db order)
      by (unfold items_of; now rewrite Hi).
    rewrite (get_invoiced_quantities_found _ _ _ Hk Hsel'),
            (get_shipped_quantities_found _ _ _ Hk Hsel'),
            (get_shipped_quantities_found _ _ _ Hk Hsel), Hitems.
    split; f_equal; apply map_ext; intros item; f_equal; unfold consumed.
    + rewrite (Hrec invoice_track). cbn [quantities_on]. apply total_app.
    + rewrite (Hrec shipment_track). cbn [quantities_on]. now rewrite app_nil_r.
Qed.

Lemma reported_quantities_follow_requests_witness :
  get_shipped_quantities 1
    (fst (Shipments.create_shipment sample_iso
            (Shipments.mkRequest 1 "" "dhl" None [Shipments.mkItem 1 4; Shipments.mkItem 1 3])
            sample_db))
  = Ok [ShippedQuantityResponse.mk "1" 7; ShippedQuantityResponse.mk "2" 0].
Proof.
  destruct (reported_quantities_follow_requests sample_iso 2025 sample_db
              (sample_order 1 "SO-2025-001") eq_refl) as (Hship & _).
  destruct (Shipments.create_shipment sample_iso
              (Shipments.mkRequest 1 "" "dhl" None [Shipments.mkItem 1 4; Shipments.mkItem 1 3])
              sample_db) as [db' resp] eqn:Hreq.
  assert (Hresp : resp = Success "Shipment created successfully")
    by (vm_compute in Hreq; now inversion Hreq).
  subst resp.
  destruct (Hship (Shipments.mkRequest 1 "" "dhl" None [Shipments.mkItem 1 4; Shipments.mkItem 1 3])
                  db' _ eq_refl Hreq) as (H & _).
  cbn [fst SalesOrder.id sample_order] in *. rewrite H. vm_compute. reflexivity.
Defined.

(** X5. A committed shipment request changes nothing but the shipment
    track of its own order: lines, invoices and invoice events are as
    before, and the orders are as before except that the orders with the
    requested key carry the new shipment status. A committed invoice
    request, likewise, leaves lines, shipments and shipment events, and of
    the orders changes only the invoice status of its own. *)
Theorem fulfillment_changes_one_track_of_one_order :
  forall iso year (db : DB),
    (forall request db' msg,
        Shipments.create_shipment iso request db = (db', Success msg) ->
        so_items db' = so_items db /\
        invoices db' = invoices db /\
        invoice_items db' = invoice_items db /\
        exists st,
          sales_orders db'
          = map (fun o => if SalesOrder.id o =? Shipments.salesOrderId request
                          then SalesOrder.set_shipment_status st o else o)
                (sales_orders db)) /\
    (forall request db' number,
        Invoices.create_invoice iso year request db = (db', Success number) ->
        so_items db' = so_items db /\
        shipments db' = shipments db /\
        shipment_items db' = shipment_items db /\
        exists st,
          sales_orders db'
          = map (fun o => if SalesOrder.id o =? Invoices.salesOrderId request
                          then SalesOrder.set_invoice_status st o else o)
                (sales_orders db)).
Proof.
  intros iso year db. split.
  - intros request db' msg H.
    destruct (create_shipment_tables _ _ _ _ _ H)
      as (order & shipment & st & evs & _ & _ & Hi & Hv & Hii & _ & _ & Hso & _).
    repeat split; try assumption. now exists st.
  - intros request db' number H.
    destruct (create_invoice_tables _ _ _ _ _ _ H)
      as (order & invoice & st & evs & _ & _ & Hi & Hs & Hsi & _ & _ & Hso & _).
    repeat split; try assumption. now exists st.
Qed.

Lemma fulfillment_changes_one_track_of_one_order_witness :
  invoice_items
    (fst (Shipments.create_shipment sample_iso
            (Shipments.mkRequest 1 "" "dhl" None [Shipments.mkItem 1 4]) sample_db))
  = invoice_items sample_db.
Proof.
  destruct (fulfillment_changes_one_track_of_one_order sample_iso 2025 sample_db) as (Hship & _).
  destruct (Shipments.create_shipment sample_iso
              (Shipments.mkRequest 1 "" "dhl" None [Shipments.mkItem 1 4]) sample_db)
    as [db' resp] eqn:Hreq.
  assert (Hresp : resp = Success "Shipment created successfully")
    by (vm_compute in Hreq; now inversion Hreq).
  subst resp. destruct (Hship _ db' _ Hreq) as (_ & _ & H & _). exact H.
Defined.

(** X6. A request is refused as a whole, and leaves the database as it
    found it, as soon as one of its items names a line that is not a line
    of the requested order: a key no line has, or the key of a line of
    another order. *)
Theorem items_must_be_lines_of_the_order :
  forall iso year (db : DB),
    (forall request item,
        In item (Shipments.items request) ->
        (forall line, select_so_item db (Shipments.soItemId item) = [line] ->
                      SOItem.sales_order_id line <> Shipments.salesOrderId request) ->
        exists e, Shipments.create_shipment iso request db = (db, Failed e)) /\
    (forall request item,
        In item (Invoices.items request) ->
        (forall line, select_so_item db (Invoices.soItemId item) = [line] ->
                      SOItem.sales_order_id line <> Invoices.salesOrderId request) ->
        exists e, Invoices.create_invoice iso year request db = (db, Failed e)).
Proof.
  intros iso year db. split.
  - intros request item Hin Hforeign.
    destruct (Shipments.create_shipment iso request db) as [db' [msg | e]] eqn:H.
    + exfalso. destruct (create_shipment_tables _ _ _ _ _ H)
        as (order & shipment & st & evs & _ & _ & _ & _ & _ & _ & _ & _ & _ & _ & _ & Hall & _).
      rewrite Forall_forall in Hall. destruct (Hall item Hin) as (line & Hsel & Hown).
      exact (Hforeign line Hsel Hown).
    + exists e. now rewrite (create_shipment_failed _ _ _ _ _ H).
  - intros request item Hin Hforeign.
    destruct (Invoices.create_invoice iso year request db) as [db' [number | e]] eqn:H.
    + exfalso. destruct (create_invoice_tables _ _ _ _ _ _ H)
        as (order & invoice & st & evs & _ & _ & _ & _ & _ & _ & _ & _ & _ & _ & _ & Hall & _).
      rewrite Forall_forall in Hall. destruct (Hall item Hin) as (line & Hsel & Hown).
      exact (Hforeign line Hsel Hown).
    + exists e. now rewrite (create_invoice_failed _ _ _ _ _ _ H).
Qed.

Lemma items_must_be_lines_of_the_order_witness :
  exists e,
    Shipments.create_shipment sample_iso
      (Shipments.mkRequest 2 "" "dhl" None [Shipments.mkItem 1 1]) sample_db
    = (sample_db, Failed e).
Proof.
  destruct (items_must_be_lines_of_the_order sample_iso 2025 sample_db) as (Hship & _).
  apply (Hship (Shipments.mkRequest 2 "" "dhl" None [Shipments.mkItem 1 1])
               (Shipments.mkItem 1 1)).
  - now left.
  - intros line Hsel. vm_compute in Hsel. inversion Hsel; subst line. cbn. lia.
Defined.

Lemma grows_from_refl db : grows_from db db.
Proof.
  unfold grows_from. repeat split; exists []; now rewrite app_nil_r.
Qed.

Lemma grows_from_trans db1 db2 db3 :
  grows_from db1 db2 -> grows_from db2 db3 -> grows_from db1 db3.
Proof.
  intros (Hi & Ho & (a & Ha) & (b & Hb) & (c & Hc) & (d & Hd))
         (Hi' & Ho' & (a' & Ha') & (b' & Hb') & (c' & Hc') & (d' & Hd')).
  unfold grows_from. rewrite Hi', Hi, Ho', Ho, Ha', Ha, Hb', Hb, Hc', Hc, Hd', Hd.
  rewrite <- !app_assoc. repeat split; eexists; reflexivity.
Qed.

Lemma map_conditional_fields (l : list SalesOrder.t) k (f : SalesOrder.t -> SalesOrder.t) :
  (forall o, (SalesOrder.id (f o), SalesOrder.order_number (f o), SalesOrder.customer_id (f o),
              SalesOrder.payment_status (f o))
             = (SalesOrder.id o, SalesOrder.order_number o, SalesOrder.customer_id o,
                SalesOrder.payment_status o)) ->
  map (fun o => (SalesOrder.id o, SalesOrder.order_number o, SalesOrder.customer_id o,
                 SalesOrder.payment_status o))
      (map (fun o => if SalesOrder.id o =? k then f o else o) l)
  = map (fun o => (SalesOrder.id o, SalesOrder.order_number o, SalesOrder.customer_id o,
                   SalesOrder.payment_status o)) l.
Proof.
  intros Hf. rewrite map_map. apply map_ext. intros o.
  destruct (SalesOrder.id o =? k); [apply Hf | reflexivity].
Qed.

Lemma perform_grows iso year c db : grows_from db (fst (perform iso year c db)).
Proof.
  destruct c as [r | r]; cbn [perform].
  - destruct (Shipments.create_shipment iso r db) as [db' [msg | e]] eqn:H; cbn [fst].
    + destruct (create_shipment_tables _ _ _ _ _ H)
        as (order & shipment & st & evs & _ & _ & Hi & Hv & Hii & Hs & Hsi & Hso & _).
      unfold grows_from. rewrite Hi, Hv, Hii, Hs, Hsi, Hso.
      rewrite map_conditional_fields by reflexivity.
      repeat split; try (eexists; reflexivity); exists []; now rewrite app_nil_r.
    + rewrite (create_shipment_failed _ _ _ _ _ H). apply grows_from_refl.
  - destruct (Invoices.create_invoice iso year r db) as [db' [number | e]] eqn:H; cbn [fst].
    + destruct (create_invoice_tables _ _ _ _ _ _ H)
        as (order & invoice & st & evs & _ & _ & Hi & Hs & Hsi & Hv & Hii & Hso & _).
      unfold grows_from. rewrite Hi, Hv, Hii, Hs, Hsi, Hso.
      rewrite map_conditional_fields by reflexivity.
      repeat split; try (eexists; reflexivity); exists []; now rewrite app_nil_r.
    + rewrite (create_invoice_failed _ _ _ _ _ _ H). apply grows_from_refl.
Qed.

(** X7. Whatever requests are served, nothing stored is removed or
    rewritten: the lines stay as they are, the orders keep key, number,
    customer and payment status, and every document and event table is the
    table before followed by the new rows. *)
Theorem histories_only_append :
  forall iso year (calls : list Call) (db : DB),
    grows_from db (fst (run iso year calls db)).
Proof.
  intros iso year calls. induction calls as [| c calls IH]; intros db.
  - apply grows_from_refl.
  - cbn [run]. pose proof (perform_grows iso year c db) as Hc.
    destruct (perform iso year c db) as [db' accepted]. cbn [fst] in Hc.
    specialize (IH db'). destruct (run iso year calls db') as [db'' cs]. cbn [fst] in *.
    eapply grows_from_trans; eassumption.
Qed.

(* ------------------------------------------------------------------ *)
(** *** Invariants of the stored tables *)

Lemma run_invariant iso year (P : DB -> Prop) :
  (forall c db, P db -> P (fst (perform iso year c db))) ->
  forall calls db, P db -> P (fst (run iso year calls db)).
Proof.
  intros Hstep. induction calls as [| c calls IH]; intros db HP; [exact HP |].
  cbn [run]. pose proof (Hstep c db HP) as Hc.
  destruct (perform iso year c db) as [db' accepted]. cbn [fst] in Hc.
  specialize (IH db' Hc). now destruct (run iso year calls db') as [db'' cs].
Qed.

Lemma fold_left_adds_total {A : Type} (f : Z -> A -> Z) (g : A -> Z) (l : list A) :
  (forall a x, f a x = a + g x) ->
  forall acc, fold_left f l acc = acc + total (map g l).
Proof.
  intros Hf. induction l as [| x l IH]; intros acc; cbn; [lia |].
  rewrite IH, Hf. unfold total. lia.
Qed.

Lemma total_map_filter {A : Type} (c : A -> bool) (q : A -> Z) (l : list A) :
  total (map q (filter c l)) = total (map (fun x => if c x then q x else 0) l).
Proof.
  induction l as [| x l IH]; [reflexivity |]. cbn [filter map].
  destruct (c x); cbn [map total fold_right] in *; unfold total in *; lia.
Qed.

Lemma total_map_add {A : Type} (f g : A -> Z) (l : list A) :
  total (map (fun x => f x + g x) l) = total (map f l) + total (map g l).
Proof.
  induction l as [| x l IH]; [reflexivity |]. cbn [map]. unfold total in *. cbn. lia.
Qed.

Lemma total_map_zero {A : Type} (l : list A) : total (map (fun _ => 0) l) = 0.
Proof.
  induction l as [| x l IH]; [reflexivity |]. unfold total in *. cbn. lia.
Qed.

(** Among shipments with distinct keys, exactly one carries a given key. *)
Lemma total_single_shipment (p : Shipment.t -> bool) (v : Z) (l : list Shipment.t) s0 :
  NoDup (map Shipment.id l) ->
  In s0 l ->
  p s0 = true ->
  total (map (fun s => if Shipment.id s0 =? Shipment.id s then v else 0) (filter p l)) = v.
Proof.
  induction l as [| s l IH]; intros Hnd Hin Hp; [destruct Hin |].
  cbn [map] in Hnd. apply NoDup_cons_iff in Hnd as [Hfresh Hnd].
  cbn [filter]. destruct Hin as [-> | Hin].
  - rewrite Hp. cbn [map]. rewrite Z.eqb_refl.
    assert (Hrest : total (map (fun s => if Shipment.id s0 =? Shipment.id s then v else 0)
                               (filter p l)) = 0).
    { rewrite (map_ext_in _ (fun _ => 0)); [apply total_map_zero |].
      intros s Hs. apply filter_In in Hs as [Hs _].
      destruct (Shipment.id s0 =? Shipment.id s) eqn:E; [| reflexivity].
      exfalso. apply Hfresh. apply Z.eqb_eq in E. rewrite E. now apply in_map. }
    unfold total in *. cbn [fold_right]. lia.
  - assert (Hne : (Shipment.id s0 =? Shipment.id s) = false).
    { apply Z.eqb_neq. intros E. apply Hfresh. rewrite <- E. now apply in_map. }
    destruct (p s); [| now apply IH].
    cbn [map]. rewrite Hne. specialize (IH Hnd Hin Hp). unfold total in *. cbn [fold_right]. lia.
Qed.

(** The two nested loops of [list_sales_orders] count every event of the
    line once, when every such event hangs on one shipment of the order. *)
Lemma nested_loops_count_once (k order : Z) (S : list Shipment.t) :
  NoDup (map Shipment.id S) ->
  forall E : list ShipmentItem.t,
    (forall e, In e E -> ShipmentItem.so_item_id e = k ->
               exists s, In s S /\ Shipment.id s = ShipmentItem.shipment_id e /\
                         Shipment.sales_order_id s = order) ->
    total (map (fun s =>
                  total (map (fun e => if ShipmentItem.so_item_id e =? k
                                       then ShipmentItem.quantity_shipped e else 0)
                             (filter (fun e => ShipmentItem.shipment_id e =? Shipment.id s) E)))
               (filter (fun s => Shipment.sales_order_id s =? order) S))
    = total (map (fun e => if ShipmentItem.so_item_id e =? k
                           then ShipmentItem.quantity_shipped e else 0) E).
Proof.
  intros Hnd. induction E as [| e E IH]; intros Hown.
  - cbn [filter map]. apply total_map_zero.
  - rewrite (map_ext _
               (fun s => (if ShipmentItem.shipment_id e =? Shipment.id s
                          then if ShipmentItem.so_item_id e =? k
                               then ShipmentItem.quantity_shipped e else 0
                          else 0)
                         + total (map (fun e => if ShipmentItem.so_item_id e =? k
                                                then ShipmentItem.quantity_shipped e else 0)
                                      (filter (fun e => ShipmentItem.shipment_id e =? Shipment.id s)
                                              E)))).
    2:{ intros s. cbn [filter].
        destruct (ShipmentItem.shipment_id e =? Shipment.id s); [| lia].
        cbn [map]. unfold total. cbn [fold_right]. lia. }
    rewrite total_map_add, IH by (intros e' He'; apply Hown; now right).
    cbn [map]. unfold total at 3. cbn [fold_right]. fold (total (map (fun e0 : ShipmentItem.t =>
      if ShipmentItem.so_item_id e0 =? k then ShipmentItem.quantity_shipped e0 else 0) E)).
    f_equal.
    destruct (ShipmentItem.so_item_id e =? k) eqn:Ek.
    + apply Z.eqb_eq in Ek. destruct (Hown e (or_introl eq_refl) Ek) as (s0 & Hin & Hid & Hord).
      rewrite <- Hid.
      apply (total_single_shipment (fun s => Shipment.sales_order_id s =? order)); try assumption.
      now apply Z.eqb_eq.
    + rewrite (map_ext _ (fun _ => 0)); [apply total_map_zero |].
      intros s. now destruct (ShipmentItem.shipment_id e =? Shipment.id s).
Qed.

Lemma shipped_quantity_consumed db order item :
  shipments_consistent db ->
  In item (items_of db order) ->
  shipped_quantity db order item = consumed shipment_track db (SOItem.id item).
Proof.
  intros [Hnd Hown] Hitem. apply filter_In in Hitem as [Hin Hord]. apply Z.eqb_eq in Hord.
  unfold shipped_quantity.
  rewrite (fold_left_adds_total _
             (fun s => total (map (fun e => if ShipmentItem.so_item_id e =? SOItem.id item
                                            then ShipmentItem.quantity_shipped e else 0)
                                  (shipment_items_of db s)))).
  2:{ intros a s.
      apply (fold_left_adds_total _
               (fun e => if ShipmentItem.so_item_id e =? SOItem.id item
                         then ShipmentItem.quantity_shipped e else 0)).
      intros a' e. destruct (_ =? _); lia. }
  unfold shipments_of, shipment_items_of, consumed. cbn [recorded].
  rewrite (total_map_filter (fun e => ShipmentItem.so_item_id e =? SOItem.id item)
                            ShipmentItem.quantity_shipped (shipment_items db)), Z.add_0_l.
  apply nested_loops_count_once; [exact Hnd |].
  intros e He Hk. destruct (Hown e He) as (s & Hs & Hid & Hline).
  exists s. repeat split; try assumption.
  rewrite <- (Hline item Hin (eq_sym Hk)). exact Hord.
Qed.

Lemma next_id_fresh ids : ~ In (Sql.next_id ids) ids.
Proof.
  intros Hin. pose proof (fold_max_ge ids 0 _ Hin) as H. unfold Sql.next_id in H. lia.
Qed.

Lemma new_shipment_fields iso r db shipment :
  Shipments.new_shipment iso r db = Ok shipment ->
  Shipment.id shipment = Sql.next_id (map Shipment.id (shipments db)) /\
  Shipment.sales_order_id shipment = Shipments.salesOrderId r.
Proof.
  unfold Shipments.new_shipment. intros H.
  destruct (if Py.truthy (Shipments.date_ r)
            then d <- iso (Shipments.date_ r) ;; Ok (Some d) else Ok None) as [d | e];
    cbn [Py.bind] in H; [| discriminate].
  destruct (Sql.bind_text (Shipments.carrier r)); cbn [Py.bind] in H; [| discriminate].
  destruct (Sql.bind_optional_text (Shipments.tracker r)); cbn [Py.bind] in H;
    [| discriminate].
  inversion H; subst; now split.
Qed.

Lemma selected_line_is_the_line db k line l :
  select_so_item db k = [line] -> In l (so_items db) -> SOItem.id l = k -> l = line.
Proof.
  intros Hsel Hin Hid.
  assert (H : In l (select_so_item db k)) by (apply filter_In; split; [assumption | now apply Z.eqb_eq]).
  rewrite Hsel in H. destruct H as [H | []]. now symmetry.
Qed.

Lemma perform_keeps_shipments_consistent iso year c db :
  shipments_consistent db -> shipments_consistent (fst (perform iso year c db)).
Proof.
  intros [Hnd Hown]. destruct c as [r | r]; cbn [perform].
  - destruct (Shipments.create_shipment iso r db) as [db' [msg | e]] eqn:H; cbn [fst].
    + destruct (create_shipment_tables _ _ _ _ _ H)
        as (order & shipment & st & evs & _ & Hnew & Hi & _ & _ & Hs & Hsi & _ & Hl & _
            & Hdoc & Hall & _).
      destruct (new_shipment_fields _ _ _ _ Hnew) as [Hid Hord].
      split.
      * rewrite Hs, map_app. apply NoDup_app; [exact Hnd | repeat constructor; intros [] |].
        intros a Ha [<- | []]. rewrite Hid in Ha. exact (next_id_fresh _ Ha).
      * intros e He. rewrite Hsi in He. apply in_app_or in He as [He | He].
        -- destruct (Hown e He) as (s & Hin & Hsid & Hline).
           exists s. rewrite Hs, Hi. repeat split; try assumption.
           apply in_or_app. now left.
        -- exists shipment. rewrite Hs, Hi. split; [apply in_or_app; right; now left |].
           rewrite Forall_forall in Hdoc, Hall. split; [symmetry; now apply Hdoc |].
           intros line Hin Hk.
           assert (Hnamed : In (ShipmentItem.so_item_id e) (map Shipments.soItemId (Shipments.items r)))
             by (rewrite <- Hl; now apply in_map).
           apply in_map_iff in Hnamed as (item & Hitem & Hin').
           destruct (Hall item Hin') as (line0 & Hsel & Hown0).
           rewrite (selected_line_is_the_line _ _ _ _ Hsel Hin) by congruence.
           congruence.
    + now rewrite (create_shipment_failed _ _ _ _ _ H).
  - destruct (Invoices.create_invoice iso year r db) as [db' [number | e]] eqn:H; cbn [fst].
    + destruct (create_invoice_tables _ _ _ _ _ _ H)
        as (order & invoice & st & evs & _ & _ & Hi & Hs & Hsi & _).
      unfold shipments_consistent. rewrite Hi, Hs, Hsi. now split.
    + now rewrite (create_invoice_failed _ _ _ _ _ _ H).
Qed.

(** X8. Shipments keep distinct keys and every shipment event hangs on a
    shipment of the order its line belongs to, whatever requests are
    served; and then the [shipped_quantity] that the two nested loops of
    [list_sales_orders] compute for a line of an order is the sum that
    [get_shipped_quantities] and the capacity check of [create_shipment]
    read from the events of the line. *)
Theorem listed_shipped_quantity_is_consumed :
  forall iso year (calls : list Call) (db : DB),
    shipments_consistent db ->
    shipments_consistent (fst (run iso year calls db)) /\
    forall order item,
      In item (items_of (fst (run iso year calls db)) order) ->
      shipped_quantity (fst (run iso year calls db)) order item
      = consumed shipment_track (fst (run iso year calls db)) (SOItem.id item).
Proof.
  intros iso year calls db H.
  assert (H' : shipments_consistent (fst (run iso year calls db))).
  { apply (run_invariant iso year shipments_consistent); [| exact H].
    intros c db0. apply perform_keeps_shipments_consistent. }
  split; [exact H' |]. intros order item. now apply shipped_quantity_consumed.
Qed.

Lemma listed_shipped_quantity_is_consumed_witness :
  shipped_quantity
    (fst (run sample_iso 2025
            [Ship (Shipments.mkRequest 1 "" "dhl" None [Shipments.mkItem 1 4; Shipments.mkItem 2 1]);
             Ship (Shipments.mkRequest 1 "" "ups" None [Shipments.mkItem 1 3])]
            sample_db))
    (sample_order 1 "SO-2025-001") (SOItem.mk 1 1 7 10 1000 1000)
  = 7.
Proof.
  assert (H0 : shipments_consistent sample_db).
  { split; [constructor | intros e []]. }
  destruct (listed_shipped_quantity_is_consumed sample_iso 2025
              [Ship (Shipments.mkRequest 1 "" "dhl" None [Shipments.mkItem 1 4; Shipments.mkItem 2 1]);
               Ship (Shipments.mkRequest 1 "" "ups" None [Shipments.mkItem 1 3])]
              sample_db H0) as (_ & H).
  rewrite H; [vm_compute; reflexivity |]. vm_compute. now left.
Defined.

Lemma ship_derive_status_on db db' items :
  (forall l, In l items ->
             consumed shipment_track db' (SOItem.id l) = consumed shipment_track db (SOItem.id l)) ->
  Shipments.derive_status db' items = Shipments.derive_status db items.
Proof.
  intros H. unfold Shipments.derive_status. rewrite !ship_status_loop.
  rewrite (forallb_pointwise _ (fun l => negb (consumed shipment_track db (SOItem.id l)
                                               <? SOItem.quantity l)) items)
    by (intros l Hl; now rewrite (H l Hl)).
  rewrite (existsb_pointwise _ (fun l => consumed shipment_track db (SOItem.id l) >? 0) items)
    by (intros l Hl; now rewrite (H l Hl)).
  reflexivity.
Qed.

Lemma bill_derive_status_on db db' items :
  (forall l, In l items ->
             consumed invoice_track db' (SOItem.id l) = consumed invoice_track db (SOItem.id l)) ->
  Invoices.derive_status db' items = Invoices.derive_status db items.
Proof.
  intros H. unfold Invoices.derive_status. rewrite !bill_status_loop.
  rewrite (forallb_pointwise _ (fun l => negb (consumed invoice_track db (SOItem.id l)
                                               <? SOItem.quantity l)) items)
    by (intros l Hl; now rewrite (H l Hl)).
  rewrite (existsb_pointwise _ (fun l => consumed invoice_track db (SOItem.id l) >? 0) items)
    by (intros l Hl; now rewrite (H l Hl)).
  reflexivity.
Qed.

(** The lines of another order are not named by the items of an accepted
    request. *)
Lemma ship_other_order_untouched db k (items : list Shipments.ShipmentItemCreate) l :
  Forall (fun item => exists line,
              select_so_item db (Shipments.soItemId item) = [line] /\
              SOItem.sales_order_id line = k) items ->
  In l (so_items db) ->
  SOItem.sales_order_id l <> k ->
  Shipments.quantities_on (SOItem.id l) items = [].
Proof.
  intros Hall Hin Hne. unfold Shipments.quantities_on.
  induction Hall as [| item items (line & Hsel & Hown) Hall IH]; [reflexivity |].
  cbn [filter]. destruct (Shipments.soItemId item =? SOItem.id l) eqn:E; [| exact IH].
  exfalso. apply Z.eqb_eq in E.
  rewrite <- (selected_line_is_the_line _ _ _ _ Hsel Hin (eq_sym E)) in Hown. contradiction.
Qed.

Lemma bill_other_order_untouched db k (items : list Invoices.InvoiceItemCreate) l :
  Forall (fun item => exists line,
              select_so_item db (Invoices.soItemId item) = [line] /\
              SOItem.sales_order_id line = k) items ->
  In l (so_items db) ->
  SOItem.sales_order_id l <> k ->
  Invoices.quantities_on (SOItem.id l) items = [].
Proof.
  intros Hall Hin Hne. unfold Invoices.quantities_on.
  induction Hall as [| item items (line & Hsel & Hown) Hall IH]; [reflexivity |].
  cbn [filter]. destruct (Invoices.soItemId item =? SOItem.id l) eqn:E; [| exact IH].
  exfalso. apply Z.eqb_eq in E.
  rewrite <- (selected_line_is_the_line _ _ _ _ Hsel Hin (eq_sym E)) in Hown. contradiction.
Qed.

Lemma selected_order_is_the_order db k order o :
  select_sales_order db k = [order] -> In o (sales_orders db) -> SalesOrder.id o = k -> o = order.
Proof.
  intros Hsel Hin Hid.
  assert (H : In o (select_sales_order db k))
    by (apply filter_In; split; [assumption | now apply Z.eqb_eq]).
  rewrite Hsel in H. destruct H as [H | []]. now symmetry.
Qed.

Lemma perform_keeps_statuses_derived iso year c db :
  statuses_derived db -> statuses_derived (fst (perform iso year c db)).
Proof.
  intros Hinv. destruct c as [r | r]; cbn [perform].
  - destruct (Shipments.create_shipment iso r db) as [db' [msg | e]] eqn:H; cbn [fst].
    2:{ now rewrite (create_shipment_failed _ _ _ _ _ H). }
    destruct (create_shipment_effect _ _ _ _ _ H) as (_ & Hrec & _).
    destruct (create_shipment_tables _ _ _ _ _ H)
      as (order & shipment & st & evs & Hsel & _ & Hi & _ & _ & _ & _ & Hso & _ & _ & _
          & Hall & Hst).
    assert (Hbill : forall line, consumed invoice_track db' line = consumed invoice_track db line).
    { intros line. unfold consumed. rewrite (Hrec invoice_track). cbn [quantities_on].
      now rewrite app_nil_r. }
    intros o' Ho'. rewrite Hso in Ho'. apply in_map_iff in Ho' as (o & <- & Ho).
    destruct (Hinv o Ho) as [Hs Hb].
    destruct (SalesOrder.id o =? Shipments.salesOrderId r) eqn:E.
    + apply Z.eqb_eq in E. rewrite (selected_order_is_the_order _ _ _ _ Hsel Ho E) in *.
      assert (Hitems : items_of db' (SalesOrder.set_shipment_status st order) = items_of db order)
        by (unfold items_of; now rewrite Hi).
      rewrite Hitems. split; [exact Hst |].
      cbn [SalesOrder.set_shipment_status SalesOrder.invoice_status].
      rewrite Hb. symmetry. now apply bill_derive_status_ext.
    + assert (Hitems : items_of db' o = items_of db o) by (unfold items_of; now rewrite Hi).
      rewrite Hitems, Hs, Hb. split; symmetry.
      * apply ship_derive_status_on. intros l Hl. apply filter_In in Hl as [Hl Hord].
        unfold consumed. rewrite (Hrec shipment_track). cbn [quantities_on].
        rewrite (ship_other_order_untouched _ _ _ _ Hall Hl); [now rewrite app_nil_r |].
        apply Z.eqb_eq in Hord. apply Z.eqb_neq in E. congruence.
      * now apply bill_derive_status_ext.
  - destruct (Invoices.create_invoice iso year r db) as [db' [number | e]] eqn:H; cbn [fst].
    2:{ now rewrite (create_invoice_failed _ _ _ _ _ _ H). }
    destruct (create_invoice_effect _ _ _ _ _ _ H) as (_ & Hrec & _).
    destruct (create_invoice_tables _ _ _ _ _ _ H)
      as (order & invoice & st & evs & Hsel & _ & Hi & _ & _ & _ & _ & Hso & _ & _ & _
          & Hall & Hst).
    assert (Hship : forall line, consumed shipment_track db' line = consumed shipment_track db line).
    { intros line. unfold consumed. rewrite (Hrec shipment_track). cbn [quantities_on].
      now rewrite app_nil_r. }
    intros o' Ho'. rewrite Hso in Ho'. apply in_map_iff in Ho' as (o & <- & Ho).
    destruct (Hinv o Ho) as [Hs Hb].
    destruct (SalesOrder.id o =? Invoices.salesOrderId r) eqn:E.
    + apply Z.eqb_eq in E. rewrite (selected_order_is_the_order _ _ _ _ Hsel Ho E) in *.
      assert (Hitems : items_of db' (SalesOrder.set_invoice_status st order) = items_of db order)
        by (unfold items_of; now rewrite Hi).
      rewrite Hitems. split; [| exact Hst].
      cbn [SalesOrder.set_invoice_status SalesOrder.shipment_status].
      rewrite Hs. symmetry. now apply ship_derive_status_ext.
    + assert (Hitems : items_of db' o = items_of db o) by (unfold items_of; now rewrite Hi).
      rewrite Hitems, Hs, Hb. split; symmetry.
      * now apply ship_derive_status_ext.
      * apply bill_derive_status_on. intros l Hl. apply filter_In in Hl as [Hl Hord].
        unfold consumed. rewrite (Hrec invoice_track). cbn [quantities_on].
        rewrite (bill_other_order_untouched _ _ _ _ Hall Hl); [now rewrite app_nil_r |].
        apply Z.eqb_eq in Hord. apply Z.eqb_neq in E. congruence.
Qed.

(** X9. When the stored shipment and invoice status of every order are the
    ones [create_shipment] and [create_invoice] would derive from the
    events recorded, they still are after any requests served: a request
    re-derives the status of its own order on its own track and moves no
    event of another order or of the other track. *)
Theorem stored_statuses_stay_derived :
  forall iso year (calls : list Call) (db : DB),
    statuses_derived db ->
    statuses_derived (fst (run iso year calls db)).
Proof.
  intros iso year calls db H.
  apply (run_invariant iso year statuses_derived); [| exact H].
  intros c db0. apply perform_keeps_statuses_derived.
Qed.

Lemma stored_statuses_stay_derived_witness :
  statuses_derived
    (fst (run sample_iso 2025
            [Ship (Shipments.mkRequest 1 "" "dhl" None [Shipments.mkItem 1 4]);
             Bill (Invoices.mkRequest 1 "" "" None [Invoices.mkItem 1 10; Invoices.mkItem 2 5])]
            (mkDB [sample_order 1 "SO-2025-001"] (so_items sample_db) [] [] [] []))).
Proof.
  apply stored_statuses_stay_derived.
  intros o [<- | []]. split; reflexivity.
Defined.

(* ------------------------------------------------------------------ *)
(** *** When a request is accepted *)

Lemma fits_ext lines k items :
  forall taken taken',
    (forall x, taken x = taken' x) ->
    fits lines k taken items -> fits lines k taken' items.
Proof.
  induction items as [| [line q] items IH]; intros taken taken' Heq; cbn [fits]; [trivial |].
  intros ((Hk & Hq & l & Hsel & Hown & Hle) & Hrest). split.
  - split; [assumption | split; [assumption |]]. exists l. rewrite <- Heq. auto.
  - apply (IH (fun x => if x =? line then taken x + q else taken x)); [| exact Hrest].
    intros x. cbn. now rewrite Heq.
Qed.

Lemma selected_line_id db k line : select_so_item db k = [line] -> SOItem.id line = k.
Proof.
  intros H. assert (Hin : In line (select_so_item db k)) by (rewrite H; now left).
  apply filter_In in Hin as [_ Hin]. now apply Z.eqb_eq.
Qed.

Lemma ship_for_each_fits order shipment items :
  forall db,
    (exists db', for_each (Shipments.allocate order shipment) items db = Ok db') <->
    fits (so_items db) (SalesOrder.id order) (consumed shipment_track db)
         (map (fun i => (Shipments.soItemId i, Shipments.quantity i)) items).
Proof.
  induction items as [| item items IH]; intros db; cbn [for_each map fits].
  - split; [trivial | intros _; now exists db].
  - split.
    + intros (db' & H).
      destruct (Shipments.allocate order shipment db item) as [db2 | e] eqn:Ha;
        cbn [Py.bind] in H; [| discriminate].
      destruct (ship_allocate_ok _ _ _ _ _ Ha) as (line & Hsel & Hown & Hle & Hk & Hq & ->).
      split; [split; [exact Hk | split; [exact Hq | exists line; auto]] |].
      assert (Hrest : exists db', for_each (Shipments.allocate order shipment) items
                        (Shipments.add_shipment_item db
                           (Shipments.new_shipment_item shipment db item)) = Ok db')
        by now exists db'.
      apply IH in Hrest. cbn [Shipments.add_shipment_item so_items] in Hrest.
      revert Hrest. apply fits_ext. intros x.
      rewrite (consumed_add_shipment_item shipment_track).
      cbn [Shipments.new_shipment_item ShipmentItem.so_item_id ShipmentItem.quantity_shipped].
      rewrite Z.eqb_sym.
      destruct (x =? Shipments.soItemId item); lia.
    + intros ((Hk & Hq & l & Hsel & Hown & Hle) & Hrest).
      pose proof (selected_line_id db _ _ Hsel) as Hid.
      destruct item as [k q]. cbn [Shipments.soItemId Shipments.quantity] in *. subst k.
      rewrite (ship_allocate_on_line db order shipment l q Hsel Hown Hk).
      destruct (consumed shipment_track db (SOItem.id l) + q >? SOItem.quantity l) eqn:E;
        [apply Z.gtb_lt in E; lia |].
      rewrite Hq. cbn [Py.bind]. apply IH. cbn [Shipments.add_shipment_item so_items].
      revert Hrest. apply fits_ext. intros x.
      rewrite (consumed_add_shipment_item shipment_track). cbn [ShipmentItem.so_item_id
        ShipmentItem.quantity_shipped]. rewrite Z.eqb_sym.
      destruct (SOItem.id l =? x); lia.
Qed.

Lemma bill_for_each_fits order invoice items :
  forall db,
    (exists db', for_each (Invoices.allocate order invoice) items db = Ok db') <->
    fits (so_items db) (SalesOrder.id order) (consumed invoice_track db)
         (map (fun i => (Invoices.soItemId i, Invoices.quantity i)) items).
Proof.
  induction items as [| item items IH]; intros db; cbn [for_each map fits].
  - split; [trivial | intros _; now exists db].
  - split.
    + intros (db' & H).
      destruct (Invoices.allocate order invoice db item) as [db2 | e] eqn:Ha;
        cbn [Py.bind] in H; [| discriminate].
      destruct (bill_allocate_ok _ _ _ _ _ Ha) as (line & Hsel & Hown & Hle & Hk & Hq & ->).
      split; [split; [exact Hk | split; [exact Hq | exists line; auto]] |].
      assert (Hrest : exists db', for_each (Invoices.allocate order invoice) items
                        (Invoices.add_invoice_item db
                           (Invoices.new_invoice_item invoice db item)) = Ok db')
        by now exists db'.
      apply IH in Hrest. cbn [Invoices.add_invoice_item so_items] in Hrest.
      revert Hrest. apply fits_ext. intros x.
      rewrite (consumed_add_invoice_item invoice_track).
      cbn [Invoices.new_invoice_item InvoiceItem.so_item_id InvoiceItem.quantity_invoiced].
      rewrite Z.eqb_sym.
      destruct (x =? Invoices.soItemId item); lia.
    + intros ((Hk & Hq & l & Hsel & Hown & Hle) & Hrest).
      pose proof (selected_line_id db _ _ Hsel) as Hid.
      destruct item as [k q]. cbn [Invoices.soItemId Invoices.quantity] in *. subst k.
      rewrite (bill_allocate_on_line db order invoice l q Hsel Hown Hk).
      destruct (consumed invoice_track db (SOItem.id l) + q >? SOItem.quantity l) eqn:E;
        [apply Z.gtb_lt in E; lia |].
      rewrite Hq. cbn [Py.bind]. apply IH. cbn [Invoices.add_invoice_item so_items].
      revert Hrest. apply fits_ext. intros x.
      rewrite (consumed_add_invoice_item invoice_track). cbn [InvoiceItem.so_item_id
        InvoiceItem.quantity_invoiced]. rewrite Z.eqb_sym.
      destruct (SOItem.id l =? x); lia.
Qed.

Lemma bind_text_no_nul s : (exists t, Sql.bind_text s = Ok t) <-> Sql.no_nul s = true.
Proof.
  unfold Sql.bind_text. destruct (Sql.no_nul s); split; try reflexivity; try discriminate.
  - intros _. now exists s.
  - intros (t & H). discriminate.
Qed.

Lemma bind_optional_text_no_nul s :
  (exists t, Sql.bind_optional_text s = Ok t) <-> (forall t, s = Some t -> Sql.no_nul t = true).
Proof.
  destruct s as [s |]; cbn [Sql.bind_optional_text].
  - unfold Sql.bind_text. destruct (Sql.no_nul s) eqn:E; cbn [Py.bind]; split.
    + intros _ t Ht. inversion Ht; subst; exact E.
    + intros _. eauto.
    + intros (t & H). discriminate.
    + intros H. specialize (H s eq_refl). congruence.
  - split; [intros _ t Ht; discriminate | intros _; eauto].
Qed.

Lemma generate_invoice_number_returns year db :
  exists number, generate_invoice_number year db = Ok number.
Proof.
  unfold generate_invoice_number, last_invoice.
  destruct (order_by_desc_limit_1_short
              (filter (Sql.like_prefix ("INV-" ++ Py.str year ++ "-"))
                      (map Invoice.invoice_number (invoices db)))) as (r & ->).
  cbn [Py.bind]. destruct (new_num_positive r) as (n & -> & _). cbn [Py.bind]. eauto.
Qed.

Lemma existsb_eqb_true (s : string) (l : list string) :
  existsb (String.eqb s) l = true <-> In s l.
Proof.
  rewrite existsb_exists. split.
  - intros (x & Hin & E). apply String.eqb_eq in E. now subst.
  - intros Hin. exists s. split; [assumption | apply String.eqb_refl].
Qed.

(** X10. [create_shipment] commits a request exactly when the key of the
    order fits the 32-bit column and the order is found, the date is empty
    or parses, the carrier and the tracker hold no NUL character, and the
    items fit one after the other: each names, by a key that fits the
    column, one line, a line of the order, and asks for a quantity that fits
    the column and is no more than the line holds beyond the events recorded
    and the earlier items of the request. [create_invoice], on a table whose
    invoice numbers have fewer than 4300 characters, so that the generator
    stays within the size Python formats, commits exactly when the key fits
    and the order is found, both dates parse, the notes hold no NUL
    character, the generated number is not stored yet, and the items fit in
    the same way. *)
Theorem acceptance_conditions :
  forall iso year (db : DB),
    (forall r,
        is_success (snd (Shipments.create_shipment iso r db)) = true <->
        Sql.int32 (Shipments.salesOrderId r) = true /\
        (exists order, select_sales_order db (Shipments.salesOrderId r) = [order]) /\
        (Py.truthy (Shipments.date_ r) = true -> exists d, iso (Shipments.date_ r) = Ok d) /\
        Sql.no_nul (Shipments.carrier r) = true /\
        (forall t, Shipments.tracker r = Some t -> Sql.no_nul t = true) /\
        fits (so_items db) (Shipments.salesOrderId r) (consumed shipment_track db)
             (asked (Ship r))) /\
    (forall r,
        Forall (fun s => (String.length s < Py.int_max_str_digits)%nat)
               (map Invoice.invoice_number (invoices db)) ->
        is_success (snd (Invoices.create_invoice iso year r db)) = true <->
        Sql.int32 (Invoices.salesOrderId r) = true /\
        (exists order, select_sales_order db (Invoices.salesOrderId r) = [order]) /\
        (exists d, iso (Invoices.date_ r) = Ok d) /\
        (exists d, iso (Invoices.dueDate r) = Ok d) /\
        (forall t, Invoices.notes r = Some t -> Sql.no_nul t = true) /\
        (forall number, generate_invoice_number year db = Ok number ->
                        ~ In number (map Invoice.invoice_number (invoices db))) /\
        fits (so_items db) (Invoices.salesOrderId r) (consumed invoice_track db)
             (asked (Bill r))).
Proof.
  intros iso year db. split; [intros r | intros r _]; cbn [asked]; split.
  - destruct (Shipments.create_shipment iso r db) as [db' [msg | e]] eqn:H;
      cbn [snd is_success]; [intros _ | discriminate].
    pose proof (create_shipment_key _ _ _ _ _ H) as Hkey.
    destruct (create_shipment_success _ _ _ _ _ H)
      as (order & shipment & db1 & Hsel & Hnew & Hloop & _).
    split; [exact Hkey | split; [now exists order |]].
    unfold Shipments.new_shipment in Hnew.
    assert (Hdate : Py.truthy (Shipments.date_ r) = true ->
                    exists d, iso (Shipments.date_ r) = Ok d).
    { intros Ht. rewrite Ht in Hnew.
      destruct (iso (Shipments.date_ r)) as [d | e]; [now exists d | discriminate]. }
    destruct (if Py.truthy (Shipments.date_ r) then _ else _) as [dd | e];
      cbn [Py.bind] in Hnew; [| discriminate].
    destruct (Sql.bind_text (Shipments.carrier r)) as [c | e] eqn:Hc;
      cbn [Py.bind] in Hnew; [| discriminate].
    destruct (Sql.bind_optional_text (Shipments.tracker r)) as [t | e] eqn:Ht;
      cbn [Py.bind] in Hnew; [| discriminate].
    split; [exact Hdate | split; [| split]].
    + apply bind_text_no_nul. now exists c.
    + apply bind_optional_text_no_nul. now exists t.
    + rewrite <- (select_sales_order_id _ _ _ Hsel).
      apply (ship_for_each_fits order shipment (Shipments.items r)
                                (Shipments.add_shipment db shipment)).
      now exists db1.
  - intros (Hkey & (order & Hsel) & Hdate & Hc & Ht & Hfits).
    unfold Shipments.create_shipment, Shipments.create_shipment_body.
    rewrite (bind_integer_int32 _ Hkey). cbn [Py.bind]. run_query Hsel.
    assert (Hnew : exists shipment, Shipments.new_shipment iso r db = Ok shipment).
    { unfold Shipments.new_shipment.
      apply bind_text_no_nul in Hc as (c & ->).
      apply bind_optional_text_no_nul in Ht as (t & ->).
      destruct (Py.truthy (Shipments.date_ r)).
      - destruct (Hdate eq_refl) as (d & ->). cbn [Py.bind]. eauto.
      - cbn [Py.bind]. eauto. }
    destruct Hnew as (shipment & ->). cbn [Py.bind].
    rewrite <- (select_sales_order_id _ _ _ Hsel) in Hfits.
    apply (ship_for_each_fits order shipment (Shipments.items r)
                              (Shipments.add_shipment db shipment)) in Hfits.
    destruct Hfits as (db1 & ->). reflexivity.
  - destruct (Invoices.create_invoice iso year r db) as [db' [number | e]] eqn:H;
      cbn [snd is_success]; [intros _ | discriminate].
    pose proof (create_invoice_key _ _ _ _ _ _ H) as Hkey.
    destruct (create_invoice_success _ _ _ _ _ _ H)
      as (order & invoice & db0 & db1 & Hsel & Hnew & Hflush & Hloop & _).
    split; [exact Hkey | split; [now exists order |]].
    unfold Invoices.new_invoice in Hnew.
    destruct (generate_invoice_number year db) as [number' | e];
      cbn [Py.bind] in Hnew; [| discriminate].
    destruct (iso (Invoices.date_ r)) as [d |]; cbn [Py.bind] in Hnew; [| discriminate].
    destruct (iso (Invoices.dueDate r)) as [due |]; cbn [Py.bind] in Hnew; [| discriminate].
    inversion Hnew; subst invoice; clear Hnew.
    split; [now exists d | split; [now exists due | split; [| split]]].
    + apply bind_optional_text_no_nul. unfold Invoices.flush_invoice in Hflush.
      cbn [Invoice.notes] in Hflush.
      destruct (Sql.bind_optional_text (Invoices.notes r)) as [t | e];
        [now exists t | discriminate].
    + intros number0 Hn. inversion Hn; subst number0.
      now destruct (flush_invoice_inserted _ _ _ Hflush) as (Hfresh & _).
    + rewrite <- (select_sales_order_id _ _ _ Hsel).
      destruct (flush_invoice_ok _ _ _ Hflush) as (_ & Hi & _ & Hii).
      assert (Hfits : fits (so_items db0) (SalesOrder.id order) (consumed invoice_track db0)
                           (map (fun i => (Invoices.soItemId i, Invoices.quantity i))
                                (Invoices.items r))).
      { eapply bill_for_each_fits. exists db1. exact Hloop. }
      rewrite Hi in Hfits. revert Hfits. apply fits_ext. intros x.
      unfold consumed. cbn [recorded]. now rewrite Hii.
  - intros (Hkey & (order & Hsel) & (d & Hd) & (due & Hdue) & Hnotes & Hfresh & Hfits).
    unfold Invoices.create_invoice, Invoices.create_invoice_body.
    rewrite (bind_integer_int32 _ Hkey). cbn [Py.bind]. run_query Hsel.
    destruct (generate_invoice_number_returns year db) as (number & Hgen).
    unfold Invoices.new_invoice. rewrite Hgen, Hd, Hdue. cbn [Py.bind].
    unfold Invoices.flush_invoice. cbn [Invoice.invoice_number Invoice.notes].
    apply bind_optional_text_no_nul in Hnotes as (t & ->). cbn [Py.bind].
    destruct (existsb (String.eqb number) (map Invoice.invoice_number (invoices db))) eqn:E.
    { apply existsb_eqb_true in E. now destruct (Hfresh number Hgen). }
    cbn [Py.bind].
    rewrite <- (select_sales_order_id _ _ _ Hsel) in Hfits.
    match goal with
    | |- context [for_each (Invoices.allocate order ?inv) _ ?db0] =>
        destruct (proj2 (bill_for_each_fits order inv (Invoices.items r) db0)) as (db1 & ->);
          [exact Hfits | reflexivity]
    end.
Qed.

Lemma acceptance_conditions_witness :
  is_success
    (snd (Shipments.create_shipment sample_iso
            (Shipments.mkRequest 1 "2025-03-01" "dhl" None
                                 [Shipments.mkItem 1 6; Shipments.mkItem 1 4])
            sample_db)) = true /\
  is_success
    (snd (Shipments.create_shipment sample_iso
            (Shipments.mkRequest 1 "2025-03-01" "dhl" None
                                 [Shipments.mkItem 1 6; Shipments.mkItem 1 5])
            sample_db)) = false /\
  is_success
    (snd (Shipments.create_shipment sample_iso
            (Shipments.mkRequest 1 "2025-03-01" "dhl" None
                                 [Shipments.mkItem 1 (-2147483649)])
            sample_db)) = false.
Proof.
  destruct (acceptance_conditions sample_iso 2025 sample_db) as (Hship & _).
  split; [| split].
  - apply Hship.
    split; [reflexivity | split; [now exists (sample_order 1 "SO-2025-001") | split]].
    + intros _. now exists 0.
    + split; [reflexivity | split; [intros t Ht; discriminate |]].
      cbn [asked Shipments.items map fits Shipments.soItemId Shipments.quantity
           Shipments.salesOrderId].
      split; [| split; [| exact I]].
      * split; [reflexivity | split; [reflexivity |]].
        exists (SOItem.mk 1 1 7 10 1000 1000).
        split; [reflexivity | split; [reflexivity | vm_compute; discriminate]].
      * split; [reflexivity | split; [reflexivity |]].
        exists (SOItem.mk 1 1 7 10 1000 1000).
        split; [reflexivity | split; [reflexivity | vm_compute; discriminate]].
  - apply not_true_is_false. intros H. apply Hship in H as (_ & _ & _ & _ & _ & H).
    cbn [asked Shipments.items map fits Shipments.soItemId Shipments.quantity] in H.
    destruct H as (_ & (_ & _ & l & Hsel & _ & Hle) & _).
    vm_compute in Hsel. inversion Hsel; subst l. vm_compute in Hle. now apply Hle.
  - apply not_true_is_false. intros H. apply Hship in H as (_ & _ & _ & _ & _ & H).
    cbn [asked Shipments.items map fits Shipments.soItemId Shipments.quantity] in H.
    destruct H as ((_ & Hq & _) & _). vm_compute in Hq. discriminate.
Defined.

(* ------------------------------------------------------------------ *)
(** *** [create_sales_order] *)

Lemma create_sales_order_failed iso year cs sps ps n2 n4 r db db' e :
  CreateSalesOrder.create_sales_order iso year cs sps ps n2 n4 r db = (db', Failed e) ->
  db' = db.
Proof.
  unfold CreateSalesOrder.create_sales_order.
  destruct (CreateSalesOrder.create_sales_order_body iso year cs sps ps n2 n4 r db)
    as [[db1 n] | e1]; intros H; inversion H; reflexivity.
Qed.

Lemma add_so_items_tables ps n2 n4 order items :
  forall db db',
    for_each (CreateSalesOrder.add_so_item ps n2 n4 order) items db = Ok db' ->
    sales_orders db' = sales_orders db /\
    shipments db' = shipments db /\
    shipment_items db' = shipment_items db /\
    invoices db' = invoices db /\
    invoice_items db' = invoice_items db /\
    exists lines,
      so_items db' = (so_items db ++ lines)%list /\
      map SOItem.quantity lines = map SalesOrders.quantity items /\
      map SOItem.product_id lines = map SalesOrders.product_id items /\
      Forall (fun l => SOItem.sales_order_id l = SalesOrder.id order) lines /\
      Forall (fun l => ~ In (SOItem.id l) (map SOItem.id (so_items db))) lines.
Proof.
  induction items as [| item items IH]; intros db db' H.
  - cbn in H. inversion H; subst. repeat split. exists []. rewrite app_nil_r.
    repeat split; constructor.
  - cbn [for_each] in H. unfold CreateSalesOrder.add_so_item at 1 in H.
    destruct (Sql.bind_integer (SalesOrders.product_id item)); cbn [Py.bind] in H;
      [| discriminate].
    destruct (Sql.bind_integer (SalesOrders.quantity item)); cbn [Py.bind] in H;
      [| discriminate].
    destruct (negb (existsb (Z.eqb (SalesOrders.product_id item)) ps)); [discriminate |].
    destruct (n2 (SalesOrders.price item)) as [price | e]; cbn [Py.bind] in H; [| discriminate].
    destruct (n4 (SalesOrders.tax_rate item)) as [rate | e]; cbn [Py.bind] in H; [| discriminate].
    apply IH in H. cbn [sales_orders so_items shipments shipment_items invoices invoice_items] in H.
    destruct H as (Ho & Hs & Hsi & Hv & Hii & lines & Hl & Hq & Hp & Hown & Hfresh).
    repeat split; try assumption.
    eexists (_ :: lines). rewrite Hl, <- app_assoc. cbn [app map]. rewrite Hq, Hp.
    repeat split; constructor; try reflexivity; try assumption.
    + cbn [SOItem.id]. apply next_id_fresh.
    + eapply Forall_impl; [| exact Hfresh]. cbn beta. intros l Hl' Hin. apply Hl'.
      rewrite map_app. apply in_or_app. now left.
Qed.

Lemma create_sales_order_tables iso year cs sps ps n2 n4 r db db' number :
  CreateSalesOrder.create_sales_order iso year cs sps ps n2 n4 r db = (db', Success number) ->
  exists order lines,
    generate_order_number year db = Ok number /\
    ~ In number (map SalesOrder.order_number (sales_orders db)) /\
    SalesOrder.id order = Sql.next_id (map SalesOrder.id (sales_orders db)) /\
    SalesOrder.order_number order = number /\
    SalesOrder.shipment_status order = CreateSalesOrder.shipment_status r /\
    SalesOrder.invoice_status order = CreateSalesOrder.invoice_status r /\
    sales_orders db' = (sales_orders db ++ [order])%list /\
    so_items db' = (so_items db ++ lines)%list /\
    shipments db' = shipments db /\
    shipment_items db' = shipment_items db /\
    invoices db' = invoices db /\
    invoice_items db' = invoice_items db /\
    map SOItem.quantity lines = map SalesOrders.quantity (CreateSalesOrder.items r) /\
    Forall (fun l => SOItem.sales_order_id l = SalesOrder.id order) lines /\
    Forall (fun l => ~ In (SOItem.id l) (map SOItem.id (so_items db))) lines.
Proof.
  unfold CreateSalesOrder.create_sales_order, CreateSalesOrder.create_sales_order_body,
    CreateSalesOrder.new_sales_order.
  destruct (generate_order_number year db) as [number0 | e0]; cbn [Py.bind]; [| discriminate].
  destruct (iso (CreateSalesOrder.date_ r)) as [d | e1]; cbn [Py.bind]; [| discriminate].
  unfold CreateSalesOrder.flush_sales_order. cbn [SalesOrder.order_number SalesOrder.customer_id
    SalesOrder.sales_person_id SalesOrder.notes].
  destruct (Sql.bind_integer (CreateSalesOrder.customer_id r)); cbn [Py.bind]; [| discriminate].
  destruct (Sql.bind_integer (CreateSalesOrder.sales_person_id r)); cbn [Py.bind];
    [| discriminate].
  cbn [Sql.bind_optional_text].
  destruct (Sql.bind_text (CreateSalesOrder.notes r)); cbn [Py.bind]; [| discriminate].
  destruct (existsb (String.eqb number0) (map SalesOrder.order_number (sales_orders db))) eqn:Hu;
    [discriminate |].
  destruct (negb (existsb (Z.eqb (CreateSalesOrder.customer_id r)) cs)); [discriminate |].
  destruct (negb (existsb (Z.eqb (CreateSalesOrder.sales_person_id r)) sps)); [discriminate |].
  cbn [Py.bind].
  destruct (for_each _ _ _) as [db1 | e2] eqn:Hloop; cbn [Py.bind]; [| discriminate].
  intros H. inversion H; subst db' number; clear H.
  apply add_so_items_tables in Hloop.
  cbn [sales_orders so_items shipments shipment_items invoices invoice_items] in Hloop.
  destruct Hloop as (Ho & Hs & Hsi & Hv & Hii & lines & Hl & Hq & _ & Hown & Hfresh).
  eexists. exists lines. repeat split; try eassumption; try reflexivity.
  intros Hin. apply existsb_eqb_true in Hin. congruence.
Qed.

Lemma perform_keeps_orders iso year c db :
  map SalesOrder.id (sales_orders (fst (perform iso year c db)))
  = map SalesOrder.id (sales_orders db) /\
  map SalesOrder.order_number (sales_orders (fst (perform iso year c db)))
  = map SalesOrder.order_number (sales_orders db).
Proof.
  destruct (perform_grows iso year c db) as (_ & H & _).
  split.
  - apply (f_equal (map (fun t : Z * string * Z * PaymentStatus => fst (fst (fst t))))) in H.
    now rewrite !map_map in H.
  - apply (f_equal (map (fun t : Z * string * Z * PaymentStatus => snd (fst (fst t))))) in H.
    now rewrite !map_map in H.
Qed.

Lemma order_numbers_step (year : Z) (number : string) (numbers : list string) (n : nat) :
  (n <= 1000)%nat ->
  filter (Sql.like_prefix ("SO-" ++ Py.str year ++ "-")) numbers = issued "SO" year n ->
  (r <- Sql.scalar_one_or_none
          (Sql.order_by_desc_limit_1
             (filter (Sql.like_prefix ("SO-" ++ Py.str year ++ "-")) numbers)) ;;
   k <- new_num r ;;
   Ok ("SO-" ++ Py.str year ++ "-" ++ Py.format_03d k)%string) = Ok number ->
  ~ In number numbers ->
  (n <= 999)%nat /\
  filter (Sql.like_prefix ("SO-" ++ Py.str year ++ "-")) (numbers ++ [number])
  = issued "SO" year (S n).
Proof.
  intros Hn Hrows Hgen Hfresh.
  assert (Hcase : (n <= 999)%nat \/ n = 1000%nat) by lia.
  destruct Hcase as [Hsmall | ->].
  - split; [exact Hsmall |].
    assert (Hks : forall k, In k (map Z.of_nat (seq 1 n)) -> 0 <= k <= 999).
    { intros k Hk. apply in_map_iff in Hk. destruct Hk as (j & <- & Hj).
      apply in_seq in Hj. lia. }
    assert (Hrows2 : filter (Sql.like_prefix ("SO-" ++ Py.str year ++ "-")) numbers
                     = map (fun k => "SO-" ++ Py.str year ++ "-" ++ Py.format_03d k)%string
                           (map Z.of_nat (seq 1 n))).
    { rewrite Hrows. unfold issued. now rewrite map_map. }
    destruct (generate_from_numbers "SO-" year _ _ Hks Hrows2) as (Hnew & _).
    assert (Hnumber : number
                      = ("SO-" ++ Py.str year ++ "-" ++ Py.format_03d (Z.of_nat (S n)))%string).
    { destruct (Sql.scalar_one_or_none _) as [l | e]; cbn [Py.bind] in *; [| discriminate].
      rewrite Hnew in Hgen. cbn [Py.bind] in Hgen. rewrite fold_max_seq in Hgen.
      replace (1 + Z.of_nat n) with (Z.of_nat (S n)) in Hgen by lia. congruence. }
    assert (Hp : Sql.like_prefix ("SO-" ++ Py.str year ++ "-") number = true).
    { rewrite Hnumber. unfold Sql.like_prefix.
      rewrite (number_shape "SO-" (Py.str year)). apply prefix_app. }
    rewrite filter_app, Hrows, issued_S. f_equal.
    cbn [filter]. rewrite Hp, Hnumber. reflexivity.
  - exfalso.
    destruct (generate_after_1000 "SO" year _ Hrows) as (Hnew & Hin).
    apply Hfresh.
    change ("SO-" ++ Py.str year ++ "-")%string
      with ("SO" ++ "-" ++ Py.str year ++ "-")%string in Hgen.
    destruct (Sql.scalar_one_or_none _) as [l | e]; cbn [Py.bind] in *; [| discriminate].
    rewrite Hnew in Hgen. cbn [Py.bind] in Hgen. inversion Hgen. exact Hin.
Qed.

(** X11. Starting from a database with no order number of the year, after
    any sequence of order, shipment and invoice requests the order numbers
    of the year are SO-year-001, ..., SO-year-n in order of creation, with n
    at most 1000: a refused request uses up no number, and once number 1000
    is stored [create_sales_order] commits no further order of that year. *)
Theorem order_numbers_are_consecutive :
  forall (w : World) (qs : list Request) (db0 : DB),
    filter (Sql.like_prefix ("SO-" ++ Py.str (current_year w) ++ "-"))
           (map SalesOrder.order_number (sales_orders db0)) = [] ->
    exists n,
      (n <= 1000)%nat /\
      filter (Sql.like_prefix ("SO-" ++ Py.str (current_year w) ++ "-"))
             (map SalesOrder.order_number (sales_orders (serve w qs db0)))
      = issued "SO" (current_year w) n.
Proof.
  intros w qs db0 H0.
  assert (Hgen : forall qs db n,
             (n <= 1000)%nat ->
             filter (Sql.like_prefix ("SO-" ++ Py.str (current_year w) ++ "-"))
                    (map SalesOrder.order_number (sales_orders db))
             = issued "SO" (current_year w) n ->
             exists m, (m <= 1000)%nat /\
               filter (Sql.like_prefix ("SO-" ++ Py.str (current_year w) ++ "-"))
                      (map SalesOrder.order_number (sales_orders (serve w qs db)))
               = issued "SO" (current_year w) m).
  { clear. induction qs as [| q qs IH]; intros db n Hn Hrows.
    - exists n. auto.
    - unfold serve. cbn [fold_left]. fold (serve w qs (serve_one w db q)).
      destruct q as [r | c]; cbn [serve_one].
      + destruct (CreateSalesOrder.create_sales_order _ _ _ _ _ _ _ r db)
          as [db' [number | e]] eqn:Hc; cbn [fst].
        * destruct (create_sales_order_tables _ _ _ _ _ _ _ _ _ _ _ Hc)
            as (order & lines & Hnum & Hfresh & _ & Hnumber & _ & _ & Hso & _).
          unfold generate_order_number, last_order in Hnum.
          destruct (order_numbers_step _ _ _ _ Hn Hrows Hnum Hfresh) as (Hsmall & Hrows').
          apply (IH db' (S n)); [lia |].
          rewrite Hso, map_app. cbn [map]. now rewrite Hnumber.
        * rewrite (create_sales_order_failed _ _ _ _ _ _ _ _ _ _ _ Hc). now apply (IH db n).
      + apply (IH _ n Hn).
        now rewrite (proj2 (perform_keeps_orders _ _ c db)). }
  apply (Hgen qs db0 0%nat); [lia | exact H0].
Qed.

Lemma order_numbers_are_consecutive_witness :
  exists n,
    (n <= 1000)%nat /\
    filter (Sql.like_prefix ("SO-" ++ Py.str 2025 ++ "-"))
           (map SalesOrder.order_number
                (sales_orders
                   (serve (mkWorld sample_iso 2025 [1] [1] [7; 8] (fun _ => Ok 1000) (fun _ => Ok 1200))
                          [NewOrder (CreateSalesOrder.mkRequest 1 1 "2025-03-01" not_invoiced
                                       payment_unpaid not_shipped ""
                                       [SalesOrders.mkItem 7 3 10 0]);
                           NewOrder (CreateSalesOrder.mkRequest 2 1 "2025-03-01" not_invoiced
                                       payment_unpaid not_shipped "" []);
                           Fulfil (Ship (Shipments.mkRequest 1 "" "dhl" None [Shipments.mkItem 1 2]));
                           NewOrder (CreateSalesOrder.mkRequest 1 1 "2025-03-02" not_invoiced
                                       payment_unpaid not_shipped "" [])]
                          empty_db)))
    = issued "SO" 2025 n.
Proof.
  apply (order_numbers_are_consecutive
           (mkWorld sample_iso 2025 [1] [1] [7; 8] (fun _ => Ok 1000) (fun _ => Ok 1200))).
  reflexivity.
Defined.

Lemma forallb_mapped {A B : Type} (f : A -> B) (p : B -> bool) (l : list A) :
  forallb p (map f l) = forallb (fun x => p (f x)) l.
Proof.
  induction l as [| x l IH]; [reflexivity |]. cbn. now rewrite IH.
Qed.

Lemma ship_derive_status_untouched db lines :
  (forall l, In l lines -> consumed shipment_track db (SOItem.id l) = 0) ->
  Shipments.derive_status db lines = untouched_shipment_status (map SOItem.quantity lines).
Proof.
  intros H. unfold Shipments.derive_status, untouched_shipment_status.
  rewrite ship_status_loop.
  rewrite (forallb_pointwise _ (fun l => SOItem.quantity l <=? 0) lines)
    by (intros l Hl; rewrite (H l Hl); destruct (0 <? SOItem.quantity l) eqn:E;
        [apply Z.ltb_lt in E; symmetry; apply Z.leb_gt; lia
        | apply Z.ltb_ge in E; symmetry; apply Z.leb_le; lia]).
  rewrite (existsb_pointwise _ (fun _ => false) lines)
    by (intros l Hl; now rewrite (H l Hl)).
  rewrite forallb_mapped. cbn [andb orb].
  destruct (forallb _ lines); [reflexivity |].
  now replace (existsb (fun _ => false) lines) with false by (clear; induction lines; auto).
Qed.

Lemma bill_derive_status_untouched db lines :
  (forall l, In l lines -> consumed invoice_track db (SOItem.id l) = 0) ->
  Invoices.derive_status db lines = untouched_invoice_status (map SOItem.quantity lines).
Proof.
  intros H. unfold Invoices.derive_status, untouched_invoice_status.
  rewrite bill_status_loop.
  rewrite (forallb_pointwise _ (fun l => SOItem.quantity l <=? 0) lines)
    by (intros l Hl; rewrite (H l Hl); destruct (0 <? SOItem.quantity l) eqn:E;
        [apply Z.ltb_lt in E; symmetry; apply Z.leb_gt; lia
        | apply Z.ltb_ge in E; symmetry; apply Z.leb_le; lia]).
  rewrite (existsb_pointwise _ (fun _ => false) lines)
    by (intros l Hl; now rewrite (H l Hl)).
  rewrite forallb_mapped. cbn [andb orb].
  destruct (forallb _ lines); [reflexivity |].
  now replace (existsb (fun _ => false) lines) with false by (clear; induction lines; auto).
Qed.

Lemma filter_none {A : Type} (p : A -> bool) (l : list A) :
  (forall x, In x l -> p x = false) -> filter p l = [].
Proof.
  induction l as [| x l IH]; intros H; [reflexivity |]. cbn.
  rewrite (H x (or_introl eq_refl)). apply IH. intros y Hy. apply H. now right.
Qed.

Lemma filter_all {A : Type} (p : A -> bool) (l : list A) :
  (forall x, In x l -> p x = true) -> filter p l = l.
Proof.
  induction l as [| x l IH]; intros H; [reflexivity |]. cbn.
  rewrite (H x (or_introl eq_refl)). f_equal. apply IH. intros y Hy. apply H. now right.
Qed.

(** What a committed [create_sales_order] means for the lines of the
    orders: the new order has the new lines, the others keep theirs, and
    nothing is recorded for a new line. *)
Lemma create_sales_order_lines iso year cs sps ps n2 n4 r db db' number :
  references_hold db ->
  CreateSalesOrder.create_sales_order iso year cs sps ps n2 n4 r db = (db', Success number) ->
  exists order lines,
    sales_orders db' = (sales_orders db ++ [order])%list /\
    so_items db' = (so_items db ++ lines)%list /\
    ~ In (SalesOrder.id order) (map SalesOrder.id (sales_orders db)) /\
    SalesOrder.shipment_status order = CreateSalesOrder.shipment_status r /\
    SalesOrder.invoice_status order = CreateSalesOrder.invoice_status r /\
    map SOItem.quantity lines = map SalesOrders.quantity (CreateSalesOrder.items r) /\
    items_of db' order = lines /\
    (forall o, In o (sales_orders db) -> items_of db' o = items_of db o) /\
    (forall tr line, consumed tr db' line = consumed tr db line) /\
    (forall tr l, In l lines -> consumed tr db' (SOItem.id l) = 0).
Proof.
  intros (Hlines & Hship & Hbill) H.
  destruct (create_sales_order_tables _ _ _ _ _ _ _ _ _ _ _ H)
    as (order & lines & _ & _ & Hid & _ & Hss & His & Hso & Hi & Hs & Hsi & Hv & Hii & Hq
        & Hown & Hfresh).
  assert (Hnew : ~ In (SalesOrder.id order) (map SalesOrder.id (sales_orders db)))
    by (rewrite Hid; apply next_id_fresh).
  assert (Hcons : forall tr line, consumed tr db' line = consumed tr db line).
  { intros [] line; unfold consumed; cbn [recorded]; now rewrite ?Hsi, ?Hii. }
  rewrite Forall_forall in Hown, Hfresh.
  exists order, lines. repeat split; try assumption.
  - unfold items_of. rewrite Hi, filter_app.
    rewrite (filter_none _ (so_items db)), (filter_all _ lines); [reflexivity | |].
    + intros l Hl. apply Z.eqb_eq. now apply Hown.
    + intros l Hl. apply Z.eqb_neq. intros E. apply Hnew. rewrite <- E. now apply Hlines.
  - intros o Ho. unfold items_of. rewrite Hi, filter_app.
    rewrite (filter_none _ lines); [now rewrite app_nil_r |].
    intros l Hl. apply Z.eqb_neq. rewrite (Hown l Hl). intros E. apply Hnew.
    rewrite E. now apply in_map.
  - intros tr l Hl. rewrite Hcons. unfold consumed.
    destruct tr; cbn [recorded]; rewrite filter_none; try reflexivity.
    + intros e He. apply Z.eqb_neq. intros E. apply (Hfresh l Hl). rewrite <- E. now apply Hship.
    + intros e He. apply Z.eqb_neq. intros E. apply (Hfresh l Hl). rewrite <- E. now apply Hbill.
Qed.

(** X12. [create_sales_order] stores the statuses the request carries. In
    a database whose foreign keys hold and whose stored statuses are the
    derived ones, the stored statuses are still the derived ones after a
    committed order exactly when the request carries the statuses of an
    untouched order: shipped and invoiced when no quantity is positive (in
    particular for an order without lines), not shipped and not invoiced
    otherwise. *)
Theorem new_order_statuses :
  forall iso year cs sps ps n2 n4 (r : CreateSalesOrder.CreateSalesOrderRequest)
         (db db' : DB) (number : string),
    references_hold db ->
    statuses_derived db ->
    CreateSalesOrder.create_sales_order iso year cs sps ps n2 n4 r db = (db', Success number) ->
    (statuses_derived db' <->
     CreateSalesOrder.shipment_status r
     = untouched_shipment_status (map SalesOrders.quantity (CreateSalesOrder.items r)) /\
     CreateSalesOrder.invoice_status r
     = untouched_invoice_status (map SalesOrders.quantity (CreateSalesOrder.items r))).
Proof.
  intros iso year cs sps ps n2 n4 r db db' number Href Hinv H.
  destruct (create_sales_order_lines _ _ _ _ _ _ _ _ _ _ _ Href H)
    as (order & lines & Hso & _ & _ & Hss & His & Hq & Hitems & Hold & Hcons & Hzero).
  assert (Hs : Shipments.derive_status db' (items_of db' order)
               = untouched_shipment_status (map SalesOrders.quantity (CreateSalesOrder.items r))).
  { rewrite Hitems, <- Hq. apply ship_derive_status_untouched. intros l Hl. now apply Hzero. }
  assert (Hb : Invoices.derive_status db' (items_of db' order)
               = untouched_invoice_status (map SalesOrders.quantity (CreateSalesOrder.items r))).
  { rewrite Hitems, <- Hq. apply bill_derive_status_untouched. intros l Hl. now apply Hzero. }
  split.
  - intros Hinv'. destruct (Hinv' order) as [Hs' Hb'].
    { rewrite Hso. apply in_or_app. right. now left. }
    split; congruence.
  - intros [Hrs Hrb] o Ho. rewrite Hso in Ho. apply in_app_or in Ho as [Ho | [<- | []]].
    + rewrite (Hold o Ho). destruct (Hinv o Ho) as [Hs' Hb']. rewrite Hs', Hb'.
      split; symmetry.
      * apply ship_derive_status_ext. intros line. apply Hcons.
      * apply bill_derive_status_ext. intros line. apply Hcons.
    + split; congruence.
Qed.

Lemma new_order_statuses_witness :
  statuses_derived
    (fst (CreateSalesOrder.create_sales_order sample_iso 2025 [1] [1] [7; 8]
            (fun _ => Ok 1000) (fun _ => Ok 1200)
            (CreateSalesOrder.mkRequest 1 1 "2025-03-01" invoiced payment_unpaid shipped "" [])
            empty_db)).
Proof.
  destruct (CreateSalesOrder.create_sales_order sample_iso 2025 [1] [1] [7; 8]
              (fun _ => Ok 1000) (fun _ => Ok 1200)
              (CreateSalesOrder.mkRequest 1 1 "2025-03-01" invoiced payment_unpaid shipped "" [])
              empty_db) as [db' resp] eqn:Hreq.
  assert (Hresp : resp = Success "SO-2025-001") by (vm_compute in Hreq; now inversion Hreq).
  subst resp. cbn [fst].
  assert (Href : references_hold empty_db) by (repeat split; intros x []).
  assert (Hinv : statuses_derived empty_db) by (intros o []).
  apply (new_order_statuses _ _ _ _ _ _ _ _ _ _ _ Href Hinv Hreq). split; reflexivity.
Defined.

(* ------------------------------------------------------------------ *)
(** *** The databases the service can reach *)

Lemma add_so_items_keys ps n2 n4 order items :
  forall db db',
    for_each (CreateSalesOrder.add_so_item ps n2 n4 order) items db = Ok db' ->
    NoDup (map SOItem.id (so_items db)) ->
    NoDup (map SOItem.id (so_items db')).
Proof.
  induction items as [| item items IH]; intros db db' H Hnd.
  - cbn in H. now inversion H; subst.
  - cbn [for_each] in H. unfold CreateSalesOrder.add_so_item at 1 in H.
    destruct (Sql.bind_integer (SalesOrders.product_id item)) as [p |]; cbn [Py.bind] in H;
      [| discriminate].
    destruct (Sql.bind_integer (SalesOrders.quantity item)) as [q |]; cbn [Py.bind] in H;
      [| discriminate].
    destruct (negb (existsb (Z.eqb (SalesOrders.product_id item)) ps)); [discriminate |].
    destruct (n2 (SalesOrders.price item)) as [price | e]; cbn [Py.bind] in H; [| discriminate].
    destruct (n4 (SalesOrders.tax_rate item)) as [rate | e]; cbn [Py.bind] in H; [| discriminate].
    apply IH in H; [exact H |]. cbn [so_items]. rewrite map_app.
    apply NoDup_app; [exact Hnd | repeat constructor; intros [] |].
    intros a Ha [<- | []]. cbn [SOItem.id] in Ha. exact (next_id_fresh _ Ha).
Qed.

Lemma create_sales_order_keys iso year cs sps ps n2 n4 r db db' number :
  CreateSalesOrder.create_sales_order iso year cs sps ps n2 n4 r db = (db', Success number) ->
  keys_distinct db -> keys_distinct db'.
Proof.
  intros H [Ho Hl].
  destruct (create_sales_order_tables _ _ _ _ _ _ _ _ _ _ _ H)
    as (order & lines & _ & _ & Hid & _ & _ & _ & Hso & _).
  split.
  - rewrite Hso, map_app. apply NoDup_app; [exact Ho | repeat constructor; intros [] |].
    intros a Ha [<- | []]. rewrite Hid in Ha. exact (next_id_fresh _ Ha).
  - revert H. unfold CreateSalesOrder.create_sales_order,
      CreateSalesOrder.create_sales_order_body.
    destruct (CreateSalesOrder.new_sales_order iso year r db) as [o | e]; cbn [Py.bind];
      [| discriminate].
    unfold CreateSalesOrder.flush_sales_order.
    destruct (Sql.bind_integer (SalesOrder.customer_id o)); cbn [Py.bind]; [| discriminate].
    destruct (match SalesOrder.sales_person_id o with
              | Some p => p' <- Sql.bind_integer p ;; Ok (Some p')
              | None => Ok None
              end); cbn [Py.bind]; [| discriminate].
    destruct (Sql.bind_optional_text (SalesOrder.notes o)); cbn [Py.bind]; [| discriminate].
    destruct (existsb _ _); [discriminate |].
    destruct (negb _); [discriminate |].
    destruct (match SalesOrder.sales_person_id o with Some _ => _ | None => _ end);
      [discriminate |].
    cbn [Py.bind].
    destruct (for_each _ _ _) as [db1 | e2] eqn:Hloop; cbn [Py.bind]; [| discriminate].
    intros H. inversion H; subst db1. exact (add_so_items_keys _ _ _ _ _ _ _ Hloop Hl).
Qed.

Lemma create_sales_order_references iso year cs sps ps n2 n4 r db db' number :
  CreateSalesOrder.create_sales_order iso year cs sps ps n2 n4 r db = (db', Success number) ->
  references_hold db -> references_hold db'.
Proof.
  intros H (Hlines & Hship & Hbill).
  destruct (create_sales_order_tables _ _ _ _ _ _ _ _ _ _ _ H)
    as (order & lines & _ & _ & _ & _ & _ & _ & Hso & Hi & _ & Hsi & _ & Hii & _ & Hown & _).
  rewrite Forall_forall in Hown.
  unfold references_hold. rewrite Hso, Hi, Hsi, Hii, !map_app.
  repeat split.
  - intros l Hl. apply in_or_app. apply in_app_or in Hl as [Hl | Hl].
    + left. now apply Hlines.
    + right. rewrite (Hown l Hl). now left.
  - intros e He. apply in_or_app. left. now apply Hship.
  - intros e He. apply in_or_app. left. now apply Hbill.
Qed.

Lemma create_sales_order_shipments iso year cs sps ps n2 n4 r db db' number :
  CreateSalesOrder.create_sales_order iso year cs sps ps n2 n4 r db = (db', Success number) ->
  references_hold db -> shipments_consistent db -> shipments_consistent db'.
Proof.
  intros H (_ & Hship & _) [Hnd Hown].
  destruct (create_sales_order_tables _ _ _ _ _ _ _ _ _ _ _ H)
    as (order & lines & _ & _ & _ & _ & _ & _ & _ & Hi & Hs & Hsi & _ & _ & _ & _ & Hfresh).
  rewrite Forall_forall in Hfresh.
  unfold shipments_consistent. rewrite Hs, Hsi, Hi. split; [exact Hnd |].
  intros e He. destruct (Hown e He) as (s & Hin & Hid & Hline).
  exists s. repeat split; try assumption.
  intros line Hl Hk. apply in_app_or in Hl as [Hl | Hl]; [now apply Hline |].
  exfalso. apply (Hfresh line Hl). rewrite Hk. now apply Hship.
Qed.

Lemma perform_keeps_references iso year c db :
  references_hold db -> references_hold (fst (perform iso year c db)).
Proof.
  intros (Hlines & Hship & Hbill).
  destruct (perform_keeps_orders iso year c db) as [Hids _].
  unfold references_hold. rewrite Hids. clear Hids.
  destruct c as [r | r]; cbn [perform].
  - destruct (Shipments.create_shipment iso r db) as [db' [msg | e]] eqn:H; cbn [fst].
    2:{ rewrite (create_shipment_failed _ _ _ _ _ H). auto. }
    destruct (create_shipment_tables _ _ _ _ _ H)
      as (order & shipment & st & evs & _ & _ & Hi & _ & Hii & _ & Hsi & _ & Hl & _ & _
          & Hall & _).
    rewrite Hi, Hii, Hsi. repeat split; try assumption.
    intros e He. apply in_app_or in He as [He | He]; [now apply Hship |].
    assert (Hnamed : In (ShipmentItem.so_item_id e)
                        (map Shipments.soItemId (Shipments.items r)))
      by (rewrite <- Hl; now apply in_map).
    apply in_map_iff in Hnamed as (item & Hitem & Hin).
    rewrite Forall_forall in Hall. destruct (Hall item Hin) as (line & Hsel & _).
    rewrite <- Hitem, <- (selected_line_id _ _ _ Hsel). apply in_map.
    assert (Hline : In line (select_so_item db (Shipments.soItemId item)))
      by (rewrite Hsel; now left).
    now apply filter_In in Hline.
  - destruct (Invoices.create_invoice iso year r db) as [db' [number | e]] eqn:H; cbn [fst].
    2:{ rewrite (create_invoice_failed _ _ _ _ _ _ H). auto. }
    destruct (create_invoice_tables _ _ _ _ _ _ H)
      as (order & invoice & st & evs & _ & _ & Hi & _ & Hsi & _ & Hii & _ & Hl & _ & _
          & Hall & _).
    rewrite Hi, Hii, Hsi. repeat split; try assumption.
    intros e He. apply in_app_or in He as [He | He]; [now apply Hbill |].
    assert (Hnamed : In (InvoiceItem.so_item_id e)
                        (map Invoices.soItemId (Invoices.items r)))
      by (rewrite <- Hl; now apply in_map).
    apply in_map_iff in Hnamed as (item & Hitem & Hin).
    rewrite Forall_forall in Hall. destruct (Hall item Hin) as (line & Hsel & _).
    rewrite <- Hitem, <- (selected_line_id _ _ _ Hsel). apply in_map.
    assert (Hline : In line (select_so_item db (Invoices.soItemId item)))
      by (rewrite Hsel; now left).
    now apply filter_In in Hline.
Qed.

Lemma perform_keeps_keys iso year c db :
  keys_distinct db -> keys_distinct (fst (perform iso year c db)).
Proof.
  intros [Ho Hl]. unfold keys_distinct.
  rewrite (proj1 (perform_keeps_orders iso year c db)).
  destruct (perform_grows iso year c db) as (Hi & _). now rewrite Hi.
Qed.

Lemma serve_invariant (w : World) (P : DB -> Prop) :
  (forall q db, P db -> P (serve_one w db q)) ->
  forall qs db, P db -> P (serve w qs db).
Proof.
  intros Hstep. induction qs as [| q qs IH]; intros db HP; [exact HP |].
  unfold serve. cbn [fold_left]. apply IH, Hstep, HP.
Qed.

Lemma serve_one_consistent w q db :
  references_hold db /\ keys_distinct db /\ shipments_consistent db ->
  references_hold (serve_one w db q) /\ keys_distinct (serve_one w db q) /\
  shipments_consistent (serve_one w db q).
Proof.
  intros (Href & Hkeys & Hship). destruct q as [r | c]; cbn [serve_one].
  - destruct (CreateSalesOrder.create_sales_order _ _ _ _ _ _ _ r db)
      as [db' [number | e]] eqn:H; cbn [fst].
    + split; [| split].
      * exact (create_sales_order_references _ _ _ _ _ _ _ _ _ _ _ H Href).
      * exact (create_sales_order_keys _ _ _ _ _ _ _ _ _ _ _ H Hkeys).
      * exact (create_sales_order_shipments _ _ _ _ _ _ _ _ _ _ _ H Href Hship).
    + rewrite (create_sales_order_failed _ _ _ _ _ _ _ _ _ _ _ H). auto.
  - split; [| split].
    + now apply perform_keeps_references.
    + now apply perform_keeps_keys.
    + now apply perform_keeps_shipments_consistent.
Qed.

Lemma reachable_consistent w qs :
  references_hold (serve w qs empty_db) /\ keys_distinct (serve w qs empty_db) /\
  shipments_consistent (serve w qs empty_db).
Proof.
  apply (serve_invariant w (fun db => references_hold db /\ keys_distinct db
                                      /\ shipments_consistent db)).
  - intros q db. apply serve_one_consistent.
  - repeat split; try constructor; intros x [].
Qed.

(** X13. In every database the service reaches from the empty one, by
    order, shipment and invoice requests in any number and order, accepted
    or refused: every line belongs to a stored order and every event to a
    stored line, no two orders and no two lines share a key, and the
    [shipped_quantity] that [list_sales_orders] shows for a line is the
    quantity the capacity check of [create_shipment] counts as shipped. *)
Theorem reachable_databases_are_consistent :
  forall (w : World) (qs : list Request),
    references_hold (serve w qs empty_db) /\
    keys_distinct (serve w qs empty_db) /\
    forall order item,
      In item (items_of (serve w qs empty_db) order) ->
      shipped_quantity (serve w qs empty_db) order item
      = consumed shipment_track (serve w qs empty_db) (SOItem.id item).
Proof.
  intros w qs. destruct (reachable_consistent w qs) as (Href & Hkeys & Hship).
  split; [exact Href | split; [exact Hkeys |]].
  intros order item. now apply shipped_quantity_consumed.
Qed.

Lemma select_by_distinct_key (l : list SalesOrder.t) (k : Z) :
  NoDup (map SalesOrder.id l) ->
  (In k (map SalesOrder.id l) /\ exists o, filter (fun o => SalesOrder.id o =? k) l = [o]) \/
  (~ In k (map SalesOrder.id l) /\ filter (fun o => SalesOrder.id o =? k) l = []).
Proof.
  induction l as [| o l IH]; intros Hnd; [right; split; [intros [] | reflexivity] |].
  cbn [map] in Hnd. apply NoDup_cons_iff in Hnd as [Hfresh Hnd].
  cbn [filter map]. destruct (SalesOrder.id o =? k) eqn:E.
  - apply Z.eqb_eq in E. left. split; [now left |]. exists o. f_equal.
    apply filter_none. intros x Hx. apply Z.eqb_neq. intros Ex. apply Hfresh.
    rewrite E, <- Ex. now apply in_map.
  - apply Z.eqb_neq in E. destruct (IH Hnd) as [(Hin & o' & Hsel) | (Hnin & Hsel)].
    + left. split; [now right | now exists o'].
    + right. split; [| exact Hsel]. intros [H | H]; [contradiction | now apply Hnin].
Qed.

(** X14. In every database the service reaches from the empty one,
    [get_shipped_quantities] and [get_invoiced_quantities] do one of three
    things. For a key that fits the 32-bit column and is the key of a stored
    order, they answer with one row per line of the order; for a key that
    fits the column and is not stored, they raise 404 "Sales order not
    found"; for a key that does not fit the column, the driver refuses the
    query of both. The query for the order never finds two rows. *)
Theorem quantities_endpoints_answer_or_404 :
  forall (w : World) (qs : list Request) (k : Z),
    (Sql.int32 k = true /\
     In k (map SalesOrder.id (sales_orders (serve w qs empty_db))) /\
     exists order,
       select_sales_order (serve w qs empty_db) k = [order] /\
       (exists rows,
           get_shipped_quantities k (serve w qs empty_db) = Ok rows /\
           map ShippedQuantityResponse.soItemId rows
           = map (fun l => Py.str (SOItem.id l)) (items_of (serve w qs empty_db) order)) /\
       (exists rows,
           get_invoiced_quantities k (serve w qs empty_db) = Ok rows /\
           map InvoicedQuantityResponse.soItemId rows
           = map (fun l => Py.str (SOItem.id l)) (items_of (serve w qs empty_db) order))) \/
    (Sql.int32 k = true /\
     ~ In k (map SalesOrder.id (sales_orders (serve w qs empty_db))) /\
     get_shipped_quantities k (serve w qs empty_db)
     = Raise (HTTPException 404 "Sales order not found") /\
     get_invoiced_quantities k (serve w qs empty_db)
     = Raise (HTTPException 404 "Sales order not found")) \/
    (Sql.int32 k = false /\
     get_shipped_quantities k (serve w qs empty_db) = Raise DBAPIError /\
     get_invoiced_quantities k (serve w qs empty_db) = Raise DBAPIError).
Proof.
  intros w qs k. destruct (reachable_consistent w qs) as (_ & [Hkeys _] & _).
  destruct (Sql.int32 k) eqn:Hk.
  - destruct (select_by_distinct_key _ k Hkeys) as [(Hin & o & Hsel) | (Hnin & Hsel)].
    + left. split; [reflexivity | split; [exact Hin |]]. exists o. split; [exact Hsel |].
      rewrite (get_shipped_quantities_found _ _ _ Hk Hsel),
              (get_invoiced_quantities_found _ _ _ Hk Hsel).
      split; eexists; (split; [reflexivity |]); now rewrite map_map.
    + right. left. split; [reflexivity | split; [exact Hnin |]].
      unfold get_shipped_quantities, get_invoiced_quantities, select_sales_order.
      rewrite (bind_integer_int32 _ Hk). cbn [Py.bind].
      rewrite Hsel. split; reflexivity.
  - right. right. split; [reflexivity |].
    unfold get_shipped_quantities, get_invoiced_quantities.
    rewrite (bind_integer_refused _ Hk). split; reflexivity.
Qed.

Lemma create_sales_order_keeps_statuses iso year cs sps ps n2 n4 r db db' number :
  references_hold db ->
  statuses_derived db ->
  carries_derived_statuses (NewOrder r) ->
  CreateSalesOrder.create_sales_order iso year cs sps ps n2 n4 r db = (db', Success number) ->
  statuses_derived db'.
Proof.
  intros Href Hinv [Hrs Hrb] H.
  destruct (create_sales_order_lines _ _ _ _ _ _ _ _ _ _ _ Href H)
    as (order & lines & Hso & _ & _ & Hss & His & Hq & Hitems & Hold & Hcons & Hzero).
  intros o Ho. rewrite Hso in Ho. apply in_app_or in Ho as [Ho | [<- | []]].
  - rewrite (Hold o Ho). destruct (Hinv o Ho) as [Hs' Hb']. rewrite Hs', Hb'.
    split; symmetry.
    + apply ship_derive_status_ext. intros line. apply Hcons.
    + apply bill_derive_status_ext. intros line. apply Hcons.
  - rewrite Hitems, Hss, His, Hrs, Hrb, <- Hq. split; symmetry.
    + apply ship_derive_status_untouched. intros l Hl. now apply Hzero.
    + apply bill_derive_status_untouched. intros l Hl. now apply Hzero.
Qed.

(** X15. When every new order carries the statuses of an untouched order
    (not shipped and not invoiced when some quantity is positive), then in
    every database the service reaches from the empty one the stored
    shipment and invoice status of every order are the ones the status
    loops of [create_shipment] and [create_invoice] derive from the events
    recorded. *)
Theorem reachable_statuses_are_derived :
  forall (w : World) (qs : list Request),
    Forall carries_derived_statuses qs ->
    statuses_derived (serve w qs empty_db).
Proof.
  intros w qs Hqs.
  assert (Hgen : forall qs db,
             Forall carries_derived_statuses qs ->
             references_hold db -> statuses_derived db ->
             statuses_derived (serve w qs db)).
  { clear. induction qs as [| q qs IH]; intros db Hqs Href Hinv; [exact Hinv |].
    inversion Hqs as [| q' qs' Hq Hrest]; subst.
    unfold serve. cbn [fold_left]. apply IH; [exact Hrest | |].
    - destruct q as [r | c]; cbn [serve_one].
      + destruct (CreateSalesOrder.create_sales_order _ _ _ _ _ _ _ r db)
          as [db' [number | e]] eqn:H; cbn [fst].
        * exact (create_sales_order_references _ _ _ _ _ _ _ _ _ _ _ H Href).
        * now rewrite (create_sales_order_failed _ _ _ _ _ _ _ _ _ _ _ H).
      + now apply perform_keeps_references.
    - destruct q as [r | c]; cbn [serve_one].
      + destruct (CreateSalesOrder.create_sales_order _ _ _ _ _ _ _ r db)
          as [db' [number | e]] eqn:H; cbn [fst].
        * exact (create_sales_order_keeps_statuses _ _ _ _ _ _ _ _ _ _ _ Href Hinv Hq H).
        * now rewrite (create_sales_order_failed _ _ _ _ _ _ _ _ _ _ _ H).
      + now apply perform_keeps_statuses_derived. }
  apply Hgen; [exact Hqs | repeat split; intros x [] | intros o []].
Qed.

Lemma reachable_statuses_are_derived_witness :
  statuses_derived
    (serve (mkWorld sample_iso 2025 [1] [1] [7; 8] (fun _ => Ok 1000) (fun _ => Ok 1200))
           [NewOrder (CreateSalesOrder.mkRequest 1 1 "2025-03-01" not_invoiced
                        payment_unpaid not_shipped ""
                        [SalesOrders.mkItem 7 3 10 0; SalesOrders.mkItem 8 2 10 0]);
            Fulfil (Ship (Shipments.mkRequest 1 "" "dhl" None [Shipments.mkItem 1 2]));
            Fulfil (Bill (Invoices.mkRequest 1 "a" "b" None
                            [Invoices.mkItem 1 3; Invoices.mkItem 2 2]))]
           empty_db).
Proof.
  apply reachable_statuses_are_derived.
  repeat constructor.
Defined.

(* ------------------------------------------------------------------ *)
(** *** From a new order to its shipment *)

Lemma filter_distinct_key {A : Type} (key : A -> Z) (l : list A) (x : A) :
  NoDup (map key l) -> In x l -> filter (fun y => key y =? key x) l = [x].
Proof.
  induction l as [| y l IH]; intros Hnd Hin; [destruct Hin |].
  cbn [map] in Hnd. apply NoDup_cons_iff in Hnd as [Hfresh Hnd]. cbn [filter].
  destruct Hin as [-> | Hin].
  - rewrite Z.eqb_refl. f_equal. apply filter_none. intros z Hz. apply Z.eqb_neq.
    intros E. apply Hfresh. rewrite <- E. now apply in_map.
  - assert (Hne : (key y =? key x) = false).
    { apply Z.eqb_neq. intros E. apply Hfresh. rewrite E. now apply in_map. }
    rewrite Hne. now apply IH.
Qed.

Lemma NoDup_app_r {A : Type} (l1 l2 : list A) : NoDup (l1 ++ l2) -> NoDup l2.
Proof.
  induction l1 as [| x l1 IH]; [trivial |]. cbn. intros H.
  apply NoDup_cons_iff in H as [_ H]. now apply IH.
Qed.

(** Lines with distinct keys, of which nothing is taken yet, fit when each
    is asked for in full. *)
Lemma full_lines_fit (all : list SOItem.t) (k : Z) (lines : list SOItem.t) :
  NoDup (map SOItem.id all) ->
  NoDup (map SOItem.id lines) ->
  (forall l, In l lines -> In l all /\ SOItem.sales_order_id l = k) ->
  (forall l, In l lines -> Sql.int32 (SOItem.id l) = true /\
                           Sql.int32 (SOItem.quantity l) = true) ->
  forall taken,
    (forall l, In l lines -> taken (SOItem.id l) = 0) ->
    fits all k taken (map (fun l => (SOItem.id l, SOItem.quantity l)) lines).
Proof.
  intros Hall. induction lines as [| l lines IH]; intros Hnd Hin H32 taken Hzero;
    cbn [map fits]; [trivial |].
  cbn [map] in Hnd. apply NoDup_cons_iff in Hnd as [Hfresh Hnd].
  destruct (Hin l (or_introl eq_refl)) as [Hl Hown].
  destruct (H32 l (or_introl eq_refl)) as [Hk Hq]. split.
  - split; [exact Hk | split; [exact Hq |]].
    exists l. split; [now apply filter_distinct_key | split; [exact Hown |]].
    rewrite (Hzero l (or_introl eq_refl)). lia.
  - apply IH; [exact Hnd | intros l' Hl'; apply Hin; now right
               | intros l' Hl'; apply H32; now right |].
    intros l' Hl'. destruct (SOItem.id l' =? SOItem.id l) eqn:E.
    + exfalso. apply Z.eqb_eq in E. apply Hfresh. rewrite <- E. now apply in_map.
    + apply Hzero. now right.
Qed.

Lemma full_quantities_on (lines : list SOItem.t) (l : SOItem.t) :
  NoDup (map SOItem.id lines) ->
  In l lines ->
  Shipments.quantities_on (SOItem.id l)
    (map (fun l => Shipments.mkItem (SOItem.id l) (SOItem.quantity l)) lines)
  = [SOItem.quantity l].
Proof.
  intros Hnd Hin. unfold Shipments.quantities_on.
  induction lines as [| x lines IH]; [destruct Hin |].
  cbn [map] in Hnd. apply NoDup_cons_iff in Hnd as [Hfresh Hnd].
  cbn [map filter Shipments.soItemId]. destruct Hin as [-> | Hin].
  - rewrite Z.eqb_refl. cbn [map Shipments.quantity]. f_equal.
    rewrite filter_none; [reflexivity |].
    intros i Hi. apply in_map_iff in Hi as (y & <- & Hy). cbn [Shipments.soItemId].
    apply Z.eqb_neq. intros E. apply Hfresh. rewrite <- E. now apply in_map.
  - assert (Hne : (SOItem.id x =? SOItem.id l) = false).
    { apply Z.eqb_neq. intros E. apply Hfresh. rewrite E. now apply in_map. }
    rewrite Hne. now apply IH.
Qed.

Lemma ship_derive_status_full db lines :
  (forall l, In l lines -> consumed shipment_track db (SOItem.id l) = SOItem.quantity l) ->
  Shipments.derive_status db lines = shipped.
Proof.
  intros H. unfold Shipments.derive_status. rewrite ship_status_loop.
  rewrite (forallb_pointwise _ (fun _ => true) lines)
    by (intros l Hl; rewrite (H l Hl), Z.ltb_irrefl; reflexivity).
  now replace (forallb (fun _ => true) lines) with true by (clear; induction lines; auto).
Qed.

Lemma create_sales_order_new_number iso year cs sps ps n2 n4 r db db' number order :
  CreateSalesOrder.create_sales_order iso year cs sps ps n2 n4 r db = (db', Success number) ->
  sales_orders db' = (sales_orders db ++ [order])%list ->
  SalesOrder.order_number order = number.
Proof.
  intros H Hso.
  destruct (create_sales_order_tables _ _ _ _ _ _ _ _ _ _ _ H)
    as (o1 & l1 & _ & _ & _ & Hn & _ & _ & Hso1 & _).
  rewrite Hso in Hso1. apply app_inv_head in Hso1. inversion Hso1. now subst.
Qed.

Lemma add_so_items_quantities ps n2 n4 order items :
  forall db db',
    for_each (CreateSalesOrder.add_so_item ps n2 n4 order) items db = Ok db' ->
    Forall (fun i => Sql.int32 (SalesOrders.quantity i) = true) items.
Proof.
  induction items as [| item items IH]; intros db db' H; [constructor |].
  cbn [for_each] in H.
  destruct (CreateSalesOrder.add_so_item ps n2 n4 order db item) as [db1 | e] eqn:Ha;
    cbn [Py.bind] in H; [| discriminate].
  constructor; [| exact (IH _ _ H)].
  unfold CreateSalesOrder.add_so_item in Ha.
  destruct (Sql.bind_integer (SalesOrders.product_id item)) as [p |]; cbn [Py.bind] in Ha;
    [| discriminate].
  destruct (Sql.bind_integer (SalesOrders.quantity item)) as [q |] eqn:Hq;
    [| discriminate].
  now apply bind_integer_ok in Hq.
Qed.

Lemma create_sales_order_quantities iso year cs sps ps n2 n4 r db db' number :
  CreateSalesOrder.create_sales_order iso year cs sps ps n2 n4 r db = (db', Success number) ->
  Forall (fun q => Sql.int32 q = true) (map SalesOrders.quantity (CreateSalesOrder.items r)).
Proof.
  unfold CreateSalesOrder.create_sales_order, CreateSalesOrder.create_sales_order_body.
  destruct (CreateSalesOrder.new_sales_order iso year r db) as [o | e]; cbn [Py.bind];
    [| discriminate].
  destruct (CreateSalesOrder.flush_sales_order cs sps db o) as [db0 | e]; cbn [Py.bind];
    [| discriminate].
  destruct (for_each _ _ _) as [db1 | e2] eqn:Hloop; cbn [Py.bind]; [| discriminate].
  intros _. apply add_so_items_quantities in Hloop.
  rewrite Forall_forall in *. intros q Hq. apply in_map_iff in Hq as (i & <- & Hi).
  now apply Hloop.
Qed.

(** X16. In a database whose foreign keys hold and whose keys are
    distinct, an order that [create_sales_order] has just committed can be
    shipped in full at once, when the keys stored fit the 32-bit column and
    the carrier holds no NUL character: [create_shipment] commits the
    request that asks for every line of the order with the quantity of the
    line, records that quantity for each line, and the row of the order
    then has shipment status shipped, whatever status the order was created
    with, and its number and invoice status as before. *)
Theorem new_order_ships_in_full :
  forall iso year cs sps ps n2 n4 (r : CreateSalesOrder.CreateSalesOrderRequest)
         (db db' : DB) (number carrier : string),
    references_hold db ->
    keys_distinct db ->
    CreateSalesOrder.create_sales_order iso year cs sps ps n2 n4 r db = (db', Success number) ->
    keys_fit db' ->
    Sql.no_nul carrier = true ->
    exists order db'' stored,
      select_sales_order db' (SalesOrder.id order) = [order] /\
      SalesOrder.order_number order = number /\
      SalesOrder.shipment_status order = CreateSalesOrder.shipment_status r /\
      map SOItem.quantity (items_of db' order)
      = map SalesOrders.quantity (CreateSalesOrder.items r) /\
      Shipments.create_shipment iso
        (Shipments.mkRequest (SalesOrder.id order) "" carrier None
           (map (fun l => Shipments.mkItem (SOItem.id l) (SOItem.quantity l))
                (items_of db' order)))
        db'
      = (db'', Success "Shipment created successfully") /\
      select_sales_order db'' (SalesOrder.id order) = [stored] /\
      SalesOrder.shipment_status stored = shipped /\
      SalesOrder.order_number stored = number /\
      SalesOrder.invoice_status stored = CreateSalesOrder.invoice_status r /\
      forall l, In l (items_of db' order) ->
                consumed shipment_track db'' (SOItem.id l) = SOItem.quantity l.
Proof.
  intros iso year cs sps ps n2 n4 r db db' number carrier Href Hkeys H [Hfo Hfl] Hcarrier.
  destruct (create_sales_order_keys _ _ _ _ _ _ _ _ _ _ _ H Hkeys) as [Hko Hkl].
  pose proof (create_sales_order_quantities _ _ _ _ _ _ _ _ _ _ _ H) as Hq32.
  destruct (create_sales_order_lines _ _ _ _ _ _ _ _ _ _ _ Href H)
    as (order & lines & Hso & Hi & _ & Hss & His & Hq & Hitems & _ & _ & Hzero).
  pose proof (create_sales_order_new_number _ _ _ _ _ _ _ _ _ _ _ _ H Hso) as Hnumber.
  assert (Hin : In order (sales_orders db')) by (rewrite Hso; apply in_or_app; right; now left).
  assert (Hsel : select_sales_order db' (SalesOrder.id order) = [order])
    by (apply filter_distinct_key; assumption).
  assert (Hkey : Sql.int32 (SalesOrder.id order) = true).
  { rewrite Forall_forall in Hfo. now apply Hfo. }
  assert (Hnd : NoDup (map SOItem.id lines)).
  { rewrite Hi, map_app in Hkl. exact (NoDup_app_r _ _ Hkl). }
  assert (Hlines : forall l, In l lines ->
                             In l (so_items db') /\ SOItem.sales_order_id l = SalesOrder.id order).
  { intros l Hl. rewrite <- Hitems in Hl. apply filter_In in Hl as [Hl E].
    split; [exact Hl | now apply Z.eqb_eq]. }
  assert (H32 : forall l, In l lines -> Sql.int32 (SOItem.id l) = true /\
                                        Sql.int32 (SOItem.quantity l) = true).
  { intros l Hl. split.
    - rewrite Forall_forall in Hfl. apply Hfl. now apply Hlines.
    - rewrite <- Hq, Forall_forall in Hq32. apply Hq32. now apply in_map. }
  assert (Hfits : fits (so_items db') (SalesOrder.id order) (consumed shipment_track db')
                       (map (fun l => (SOItem.id l, SOItem.quantity l)) lines)).
  { apply full_lines_fit; try assumption. intros l Hl. now apply Hzero. }
  set (request := Shipments.mkRequest (SalesOrder.id order) "" carrier None
                    (map (fun l => Shipments.mkItem (SOItem.id l) (SOItem.quantity l)) lines)).
  assert (Hacc : exists db'', Shipments.create_shipment iso request db'
                              = (db'', Success "Shipment created successfully")).
  { unfold Shipments.create_shipment, Shipments.create_shipment_body.
    unfold request. cbn [Shipments.salesOrderId].
    rewrite (bind_integer_int32 _ Hkey). cbn [Py.bind]. run_query Hsel.
    unfold Shipments.new_shipment, Sql.bind_text.
    cbn [Shipments.date_ Shipments.carrier Shipments.tracker Py.truthy Py.bind
         Shipments.items Sql.bind_optional_text].
    rewrite Hcarrier. cbn [Py.bind].
    match goal with
    | |- context [for_each (Shipments.allocate order ?sh) ?items ?db0] =>
        destruct (proj2 (ship_for_each_fits order sh items db0)) as (db1 & ->)
    end.
    - rewrite map_map. cbn [Shipments.soItemId Shipments.quantity Shipments.add_shipment so_items].
      exact Hfits.
    - cbn [Py.bind]. eauto. }
  destruct Hacc as (db'' & Hacc).
  exists order, db'', (SalesOrder.set_shipment_status shipped order). rewrite Hitems.
  destruct (create_shipment_effect _ _ _ _ _ Hacc) as (_ & Hrec & _).
  destruct (create_shipment_tables _ _ _ _ _ Hacc)
    as (order1 & shipment & st & evs & Hsel1 & _ & Hi' & _ & _ & _ & _ & Hso' & _ & _ & _ & _
        & Hst).
  unfold request in Hsel1, Hso'. cbn [Shipments.salesOrderId] in Hsel1, Hso'.
  assert (order1 = order) by congruence. subst order1.
  assert (Hfull : forall l, In l lines ->
                            consumed shipment_track db'' (SOItem.id l) = SOItem.quantity l).
  { intros l Hl. unfold consumed. rewrite (Hrec shipment_track). unfold request.
    cbn [quantities_on Shipments.items]. rewrite total_app, (full_quantities_on lines l Hnd Hl).
    fold (consumed shipment_track db' (SOItem.id l)). rewrite (Hzero shipment_track l Hl).
    unfold total. cbn. lia. }
  rewrite Hitems in Hst.
  rewrite (ship_derive_status_full db'' lines Hfull) in Hst. subst st.
  repeat split; try assumption.
  unfold select_sales_order in *. rewrite Hso', select_mapped_sales_order by reflexivity.
  now rewrite Hsel.
Qed.

Lemma new_order_ships_in_full_witness :
  exists order db'' stored,
    Shipments.create_shipment sample_iso
      (Shipments.mkRequest (SalesOrder.id order) "" "dhl" None
         (map (fun l => Shipments.mkItem (SOItem.id l) (SOItem.quantity l))
              (items_of
                 (fst (CreateSalesOrder.create_sales_order sample_iso 2025 [1] [1] [7; 8]
                         (fun _ => Ok 1000) (fun _ => Ok 1200)
                         (CreateSalesOrder.mkRequest 1 1 "2025-03-01" not_invoiced
                            payment_unpaid not_shipped ""
                            [SalesOrders.mkItem 7 3 10 0; SalesOrders.mkItem 8 2 10 0])
                         empty_db))
                 order)))
      (fst (CreateSalesOrder.create_sales_order sample_iso 2025 [1] [1] [7; 8]
              (fun _ => Ok 1000) (fun _ => Ok 1200)
              (CreateSalesOrder.mkRequest 1 1 "2025-03-01" not_invoiced
                 payment_unpaid not_shipped ""
                 [SalesOrders.mkItem 7 3 10 0; SalesOrders.mkItem 8 2 10 0])
              empty_db))
    = (db'', Success "Shipment created successfully") /\
    SalesOrder.shipment_status order = not_shipped /\
    select_sales_order db'' (SalesOrder.id order) = [stored] /\
    SalesOrder.shipment_status stored = shipped.
Proof.
  destruct (CreateSalesOrder.create_sales_order sample_iso 2025 [1] [1] [7; 8]
              (fun _ => Ok 1000) (fun _ => Ok 1200)
              (CreateSalesOrder.mkRequest 1 1 "2025-03-01" not_invoiced
                 payment_unpaid not_shipped ""
                 [SalesOrders.mkItem 7 3 10 0; SalesOrders.mkItem 8 2 10 0])
              empty_db) as [db' resp] eqn:Hreq.
  assert (Hresp : resp = Success "SO-2025-001") by (vm_compute in Hreq; now inversion Hreq).
  subst resp. cbn [fst].
  assert (Href : references_hold empty_db) by (repeat split; intros x []).
  assert (Hkeys : keys_distinct empty_db) by (split; constructor).
  assert (Hfit : keys_fit db').
  { vm_compute in Hreq. inversion Hreq. split; repeat constructor. }
  destruct (new_order_ships_in_full _ _ _ _ _ _ _ _ _ _ _ "dhl" Href Hkeys Hreq Hfit eq_refl)
    as (order & db'' & stored & _ & _ & Hss & _ & Hacc & Hsel & Hst & _).
  exists order, db'', stored. repeat split; assumption.
Defined.
(* ------------------------------------------------------------------ *)
(** *** Requests that run at the same time *)

Lemma nth_error_middle {A : Type} (l r : list A) (x : A) :
  nth_error (l ++ x :: r) (List.length l) = Some x.
Proof. induction l as [| y l IH]; [reflexivity | exact IH]. Qed.

Lemma set_caller_middle (l r : list Race.Caller) (x c : Race.Caller) :
  Race.set_caller (List.length l) c (l ++ x :: r) = (l ++ c :: r)%list.
Proof.
  induction l as [| y l IH]; [reflexivity |].
  cbn [List.length app Race.set_caller]. now rewrite IH.
Qed.

Lemma step_query kind year table l r :
  Race.step kind year (Race.mkState table (l ++ Race.waiting :: r)) (Race.query (List.length l))
  = match next_number kind year table with
    | Ok number => Race.mkState table (l ++ Race.holding number :: r)
    | Raise e => Race.mkState table (l ++ Race.failed e :: r)
    end.
Proof.
  unfold Race.step. cbn [Race.callers Race.numbers].
  rewrite nth_error_middle.
  destruct (next_number kind year table); now rewrite set_caller_middle.
Qed.

Lemma step_flush kind year table number l r :
  Race.step kind year (Race.mkState table (l ++ Race.holding number :: r))
            (Race.flush (List.length l))
  = match insert_unique table number with
    | Ok table' => Race.mkState table' (l ++ Race.stored number :: r)
    | Raise _ => Race.mkState table (l ++ Race.refused number :: r)
    end.
Proof.
  unfold Race.step. cbn [Race.callers Race.numbers].
  rewrite nth_error_middle.
  destruct (insert_unique table number); now rewrite set_caller_middle.
Qed.

(** On a table whose numbers have at most [k] characters the generator
    answers a sequence number of at most [k + 1] digits. *)
Lemma next_number_returns kind year table (k : nat) :
  Forall (fun s => (String.length s <= k)%nat) table ->
  exists n,
    1 <= n /\
    (String.length (Py.digits n) <= S k)%nat /\
    next_number kind year table
    = Ok (kind ++ "-" ++ Py.str year ++ "-" ++ Py.format_03d n)%string.
Proof.
  intros Hshort. unfold next_number.
  destruct (order_by_desc_limit_1_short
              (filter (Sql.like_prefix (kind ++ "-" ++ Py.str year ++ "-")) table))
    as (r & Hr).
  rewrite Hr. cbn [Py.bind].
  destruct (new_num_positive r) as (n & Hnew & Hn). rewrite Hnew. cbn [Py.bind].
  exists n. split; [exact Hn | split; [| reflexivity]].
  apply length_digits_below. split; [exact Hn |].
  apply (new_num_below r); [| exact Hnew].
  intros s Hs. pose proof (last_row_stored _ _ _ Hr Hs) as Hin.
  apply filter_In in Hin as [Hin _]. rewrite Forall_forall in Hshort. now apply Hshort.
Qed.

Lemma middle_app {A : Type} (l r : list A) (x : A) :
  (l ++ x :: r)%list = ((l ++ [x]) ++ r)%list.
Proof. now rewrite <- app_assoc. Qed.

Lemma length_snoc {A : Type} (l : list A) (x : A) : List.length (l ++ [x]) = S (List.length l).
Proof. rewrite length_app. cbn. lia. Qed.

(** Callers that call the generator before any of them has flushed all
    receive the number of the table they found. *)
Lemma run_all_query kind year table number :
  next_number kind year table = Ok number ->
  forall j l,
    Race.run kind year (map Race.query (seq (List.length l) j))
             (Race.mkState table (l ++ repeat Race.waiting j))
    = Race.mkState table (l ++ repeat (Race.holding number) j).
Proof.
  intros Hnext. induction j as [| j IH]; intros l; [reflexivity |].
  cbn [seq map repeat]. unfold Race.run in *. cbn [fold_left].
  rewrite step_query, Hnext, middle_app, <- (length_snoc l (Race.holding number)), IH,
    <- app_assoc. reflexivity.
Qed.

(** Callers that flush a number the table holds are refused. *)
Lemma run_all_flush_stored kind year table number :
  In number table ->
  forall j l,
    Race.run kind year (map Race.flush (seq (List.length l) j))
             (Race.mkState table (l ++ repeat (Race.holding number) j))
    = Race.mkState table (l ++ repeat (Race.refused number) j).
Proof.
  intros Hin. induction j as [| j IH]; intros l; [reflexivity |].
  cbn [seq map repeat]. unfold Race.run in *. cbn [fold_left].
  rewrite step_flush. unfold insert_unique.
  rewrite (proj2 (existsb_eqb_true number table) Hin).
  rewrite middle_app, <- (length_snoc l (Race.refused number)), IH, <- app_assoc. reflexivity.
Qed.

Lemma insert_unique_fresh table number table' :
  insert_unique table number = Ok table' ->
  ~ In number table /\ table' = (table ++ [number])%list.
Proof.
  unfold insert_unique. destruct (existsb _ _) eqn:E; intros H; inversion H.
  split; [now apply existsb_eqb_false | reflexivity].
Qed.

Lemma insert_unique_stored table number e :
  insert_unique table number = Raise e -> In number table /\ e = IntegrityError.
Proof.
  unfold insert_unique. destruct (existsb _ _) eqn:E; intros H; inversion H.
  split; [now apply existsb_eqb_true | reflexivity].
Qed.

(** The unique index keeps the stored numbers distinct, whatever the order
    of the moves. *)
Lemma step_keeps_distinct kind year s m :
  NoDup (Race.numbers s) -> NoDup (Race.numbers (Race.step kind year s m)).
Proof.
  intros Hnd. destruct m as [i | i]; unfold Race.step.
  - destruct (nth_error (Race.callers s) i) as [[] |]; try exact Hnd.
    destruct (next_number kind year (Race.numbers s)); exact Hnd.
  - destruct (nth_error (Race.callers s) i) as [[| number | | |] |]; try exact Hnd.
    destruct (insert_unique (Race.numbers s) number) as [table' | e] eqn:E; [| exact Hnd].
    apply insert_unique_fresh in E as [Hfresh ->]. cbn [Race.numbers].
    apply NoDup_app; [exact Hnd | repeat constructor; intros [] |].
    intros a Ha [<- | []]. contradiction.
Qed.

Lemma run_keeps_distinct kind year moves :
  forall s, NoDup (Race.numbers s) -> NoDup (Race.numbers (Race.run kind year moves s)).
Proof.
  induction moves as [| m moves IH]; intros s Hnd; [exact Hnd |].
  apply IH. now apply step_keeps_distinct.
Qed.

Lemma kind_shape (kind s : string) : ((kind ++ "-") ++ s)%string = (kind ++ "-" ++ s)%string.
Proof. apply string_app_assoc. Qed.

(** The generator on a table whose numbers of the kind and year are the
    first [i] numbers issued. *)
Lemma next_number_after_issued kind year table (i : nat) :
  (i <= 999)%nat ->
  filter (Sql.like_prefix (kind ++ "-" ++ Py.str year ++ "-")) table = issued kind year i ->
  next_number kind year table
  = Ok (kind ++ "-" ++ Py.str year ++ "-" ++ Py.format_03d (Z.of_nat (S i)))%string /\
  ~ In (kind ++ "-" ++ Py.str year ++ "-" ++ Py.format_03d (Z.of_nat (S i)))%string table.
Proof.
  intros Hi Hrows.
  assert (Hks : forall k, In k (map Z.of_nat (seq 1 i)) -> 0 <= k <= 999).
  { intros k Hk. apply in_map_iff in Hk. destruct Hk as (j & <- & Hj).
    apply in_seq in Hj. lia. }
  assert (Hrows2 : filter (Sql.like_prefix ((kind ++ "-") ++ Py.str year ++ "-")) table
                   = map (fun k => (kind ++ "-") ++ Py.str year ++ "-" ++ Py.format_03d k)%string
                         (map Z.of_nat (seq 1 i))).
  { rewrite kind_shape, Hrows. unfold issued. rewrite map_map.
    apply map_ext. intros k. now rewrite kind_shape. }
  destruct (generate_from_numbers (kind ++ "-") year _ _ Hks Hrows2) as (Hnew & Hfresh).
  rewrite fold_max_seq in Hnew, Hfresh.
  replace (1 + Z.of_nat i) with (Z.of_nat (S i)) in Hnew, Hfresh by lia.
  rewrite kind_shape in Hnew, Hfresh. split; [| exact Hfresh].
  unfold next_number.
  destruct (Sql.scalar_one_or_none _) as [l | e]; cbn [Py.bind] in *; [| discriminate].
  now rewrite Hnew.
Qed.

(** Callers that run one after the other receive the numbers in sequence. *)
Lemma run_one_after_the_other kind year table :
  filter (Sql.like_prefix (kind ++ "-" ++ Py.str year ++ "-")) table = [] ->
  forall j i l,
    (i + j <= 1000)%nat ->
    Race.run kind year
             (flat_map (fun k => [Race.query k; Race.flush k]) (seq (List.length l) j))
             (Race.mkState (table ++ issued kind year i) (l ++ repeat Race.waiting j))
    = Race.mkState
        (table ++ issued kind year (i + j))
        (l ++ map Race.stored
                  (map (fun k => kind ++ "-" ++ Py.str year ++ "-"
                                 ++ Py.format_03d (Z.of_nat k))%string
                       (seq (S i) j))).
Proof.
  intros Hnone. induction j as [| j IH]; intros i l Hij.
  - rewrite Nat.add_0_r. reflexivity.
  - cbn [seq flat_map repeat app]. unfold Race.run in *. cbn [fold_left].
    assert (Hrows : filter (Sql.like_prefix (kind ++ "-" ++ Py.str year ++ "-"))
                           (table ++ issued kind year i) = issued kind year i).
    { rewrite filter_app, Hnone. cbn [app]. unfold issued.
      apply forallb_filter_id. apply forallb_forall. intros s Hs.
      apply in_map_iff in Hs as (k & <- & _). unfold Sql.like_prefix.
      rewrite <- (kind_shape kind (Py.str year ++ "-")),
        <- (kind_shape kind (Py.str year ++ "-" ++ Py.format_03d (Z.of_nat k))),
        (number_shape (kind ++ "-") (Py.str year)).
      apply prefix_app. }
    destruct (next_number_after_issued kind year _ i ltac:(lia) Hrows) as (Hnext & Hfresh).
    rewrite step_query, Hnext, step_flush. unfold insert_unique.
    destruct (existsb _ _) eqn:E; [apply existsb_eqb_true in E; contradiction |].
    rewrite <- app_assoc, <- issued_S, middle_app.
    match goal with
    | |- context [((l ++ [?c]) ++ _)%list] => rewrite <- (length_snoc l c)
    end.
    rewrite (IH (S i)) by lia.
    rewrite <- app_assoc, Nat.add_succ_r. reflexivity.
Qed.

Lemma issued_distinct kind year n : NoDup (issued kind year n).
Proof.
  unfold issued. apply NoDup_map_NoDup_ForallPairs; [| apply seq_NoDup].
  intros a b _ _ H.
  rewrite <- (kind_shape kind (Py.str year ++ "-" ++ Py.format_03d (Z.of_nat a))),
    <- (kind_shape kind (Py.str year ++ "-" ++ Py.format_03d (Z.of_nat b))),
    !(number_shape (kind ++ "-") (Py.str year)) in H.
  apply string_app_inv_l in H. apply (f_equal digits_value) in H.
  rewrite !digits_value_field in H by lia. lia.
Qed.

(** C7, as the code has it. The generators are one function of the numbers
    their table holds, and the flush of a document inserts its number under
    the unique index. Callers that call the generator one after the other,
    each after the one before it has committed, receive distinct numbers,
    001 to n without gap, for up to 1000 callers in a year with no number
    yet. Callers that run at the same time are not kept apart: all those
    that call the generator before any of them has flushed receive the
    same number (the generator returns, on a table whose numbers have fewer
    than 4300 characters, the size Python formats); the unique index then
    lets the first of them store it and refuses the others, or refuses them
    all when that number is stored already. Whatever the order of the
    moves, stored numbers that were distinct stay distinct. *)
Theorem next_numbers_under_concurrency :
  forall (kind : string) (year : Z) (table : list string) (n : nat),
    (forall db,
        generate_order_number year db
        = next_number "SO" year (map SalesOrder.order_number (sales_orders db))) /\
    (forall db,
        generate_invoice_number year db
        = next_number "INV" year (map Invoice.invoice_number (invoices db))) /\
    (forall cs sps db o,
        (forall db',
            CreateSalesOrder.flush_sales_order cs sps db o = Ok db' ->
            insert_unique (map SalesOrder.order_number (sales_orders db))
                          (SalesOrder.order_number o)
            = Ok (map SalesOrder.order_number (sales_orders db'))) /\
        (In (SalesOrder.order_number o) (map SalesOrder.order_number (sales_orders db)) ->
         forall db', CreateSalesOrder.flush_sales_order cs sps db o <> Ok db')) /\
    (forall db inv,
        (forall db',
            Invoices.flush_invoice db inv = Ok db' ->
            insert_unique (map Invoice.invoice_number (invoices db))
                          (Invoice.invoice_number inv)
            = Ok (map Invoice.invoice_number (invoices db'))) /\
        (In (Invoice.invoice_number inv) (map Invoice.invoice_number (invoices db)) ->
         forall db', Invoices.flush_invoice db inv <> Ok db')) /\
    (Forall (fun s => (String.length s < Py.int_max_str_digits)%nat) table ->
     exists k number,
        1 <= k /\
        (String.length (Py.digits k) <= Py.int_max_str_digits)%nat /\
        number = (kind ++ "-" ++ Py.str year ++ "-" ++ Py.format_03d k)%string /\
        next_number kind year table = Ok number /\
        Race.run kind year (Race.all_query n) (Race.start table n)
        = Race.mkState table (repeat (Race.holding number) n) /\
        Race.run kind year (Race.together (S n)) (Race.start table (S n))
        = match insert_unique table number with
          | Ok table' =>
              Race.mkState table' (Race.stored number :: repeat (Race.refused number) n)
          | Raise _ => Race.mkState table (repeat (Race.refused number) (S n))
          end) /\
    (NoDup table ->
     forall moves, NoDup (Race.numbers (Race.run kind year moves (Race.start table n)))) /\
    (filter (Sql.like_prefix (kind ++ "-" ++ Py.str year ++ "-")) table = [] ->
     (n <= 1000)%nat ->
     Race.run kind year (Race.one_after_the_other n) (Race.start table n)
     = Race.mkState (table ++ issued kind year n) (map Race.stored (issued kind year n)) /\
     NoDup (issued kind year n)).
Proof.
  intros kind year table n.
  split; [reflexivity | split; [reflexivity |]].
  split; [| split; [| split; [| split]]].
  - intros cs sps db o. split.
    + intros db' H. unfold CreateSalesOrder.flush_sales_order in H.
      destruct (Sql.bind_integer (SalesOrder.customer_id o)); cbn [Py.bind] in H;
        [| discriminate].
      destruct (match SalesOrder.sales_person_id o with
                | Some p => p' <- Sql.bind_integer p ;; Ok (Some p')
                | None => Ok None
                end); cbn [Py.bind] in H; [| discriminate].
      destruct (Sql.bind_optional_text (SalesOrder.notes o)); cbn [Py.bind] in H;
        [| discriminate].
      unfold insert_unique. destruct (existsb _ _); [discriminate |].
      destruct (negb _); [discriminate |].
      destruct (match SalesOrder.sales_person_id o with Some _ => _ | None => _ end);
        [discriminate |].
      inversion H; subst db'. cbn [sales_orders]. now rewrite map_app.
    + intros Hin db' H. unfold CreateSalesOrder.flush_sales_order in H.
      destruct (Sql.bind_integer (SalesOrder.customer_id o)); cbn [Py.bind] in H;
        [| discriminate].
      destruct (match SalesOrder.sales_person_id o with
                | Some p => p' <- Sql.bind_integer p ;; Ok (Some p')
                | None => Ok None
                end); cbn [Py.bind] in H; [| discriminate].
      destruct (Sql.bind_optional_text (SalesOrder.notes o)); cbn [Py.bind] in H;
        [| discriminate].
      rewrite (proj2 (existsb_eqb_true _ _) Hin) in H. discriminate.
  - intros db inv. split.
    + intros db' H. apply flush_invoice_inserted in H as [Hfresh ->].
      unfold insert_unique. cbn [invoices]. rewrite map_app.
      destruct (existsb _ _) eqn:E; [| reflexivity].
      apply existsb_eqb_true in E. contradiction.
    + intros Hin db' H. apply flush_invoice_inserted in H as [Hfresh _]. contradiction.
  - intros Hshort.
    assert (Hshort' : Forall (fun s => (String.length s <= 4299)%nat) table).
    { eapply Forall_impl; [| exact Hshort]. cbn beta.
      unfold Py.int_max_str_digits. intros s Hs. lia. }
    destruct (next_number_returns kind year table 4299 Hshort') as (k & Hk & Hdigits & Hnext).
    exists k. eexists. split; [exact Hk | split; [exact Hdigits | split; [reflexivity |]]].
    split; [exact Hnext |].
    set (number := (kind ++ "-" ++ Py.str year ++ "-" ++ Py.format_03d k)%string) in *.
    pose proof (run_all_query kind year table number Hnext) as Hq.
    split; [exact (Hq n []) |].
    pose proof (Hq (S n) []) as Hall. cbn [List.length app] in Hall.
    unfold Race.together, Race.run in *. rewrite fold_left_app.
    unfold Race.all_query, Race.start. rewrite Hall.
    cbn [repeat Race.all_flush seq map fold_left].
    pose proof (step_flush kind year table number [] (repeat (Race.holding number) n)) as Hf.
    cbn [List.length app] in Hf. rewrite Hf. clear Hf.
    destruct (insert_unique table number) as [table' | e] eqn:E.
    + apply insert_unique_fresh in E as [_ ->].
      assert (Hin : In number (table ++ [number])) by (apply in_or_app; right; now left).
      exact (run_all_flush_stored kind year _ number Hin n [Race.stored number]).
    + apply insert_unique_stored in E as [Hin _].
      exact (run_all_flush_stored kind year _ number Hin n [Race.refused number]).
  - intros Hnd moves. now apply run_keeps_distinct.
  - intros Hnone Hn. split; [| apply issued_distinct].
    pose proof (run_one_after_the_other kind year table Hnone n 0 [] ltac:(lia)) as H.
    cbn [issued seq map app List.length Nat.add] in H.
    rewrite app_nil_r in H. exact H.
Qed.

Lemma next_numbers_under_concurrency_witness :
  Race.run "SO" 2025 (Race.one_after_the_other 3) (Race.start [] 3)
  = Race.mkState ["SO-2025-001"; "SO-2025-002"; "SO-2025-003"]
                 [Race.stored "SO-2025-001"; Race.stored "SO-2025-002";
                  Race.stored "SO-2025-003"] /\
  NoDup (Race.numbers (Race.run "SO" 2025 (Race.together 3) (Race.start [] 3))).
Proof.
  destruct (next_numbers_under_concurrency "SO" 2025 [] 3)
    as (_ & _ & _ & _ & _ & Hdistinct & Hseq).
  split.
  - exact (proj1 (Hseq eq_refl ltac:(lia))).
  - apply Hdistinct. constructor.
Defined.

(** C7, counterexample. Two requests for a sales order arrive at an empty
    table and both call the generator before either has flushed: both
    receive SO-2025-001, the number [generate_order_number] answers on the
    empty table. The first to flush stores it and the second is refused by
    the unique index; the number 002 is not issued. *)
Lemma concurrent_callers_receive_the_same_number :
  generate_order_number 2025 empty_db = Ok "SO-2025-001" /\
  map Race.received
      (Race.callers (Race.run "SO" 2025 (Race.all_query 2) (Race.start [] 2)))
  = [Some "SO-2025-001"; Some "SO-2025-001"] /\
  ~ NoDup (map Race.received
               (Race.callers (Race.run "SO" 2025 (Race.all_query 2) (Race.start [] 2)))) /\
  Race.run "SO" 2025 (Race.together 2) (Race.start [] 2)
  = Race.mkState ["SO-2025-001"]
                 [Race.stored "SO-2025-001"; Race.refused "SO-2025-001"].
Proof.
  split; [reflexivity | split; [reflexivity | split; [| reflexivity]]].
  intros H. vm_compute in H. apply NoDup_cons_iff in H as [H _]. apply H. now left.
Qed.
